(** * UNO rules engine ([uno_env.py]): a shallow embedding and its properties

    The engine is a single mutable object ([UnoGameState]) whose methods
    read and update the deck, the discard pile, the hands and a handful of
    turn flags.  It is embedded here as a record with explicit state passing
    in a small state-and-exception monad; Python exceptions ([IndexError],
    [ValueError], [ZeroDivisionError]) are results of their own, and the
    state reached when one is raised is kept.  Console output ([print]) is
    not modelled. *)

From Stdlib Require Import ZArith String Ascii Bool Lia DecimalString.
From Stdlib Require Import Permutation.
From stdpp Require Import base decidable option numbers strings list.

Local Open Scope string_scope.
Local Open Scope list_scope.
Local Open Scope Z_scope.

(** ** 1. Card definitions *)

Module Color.
Inductive t := RED | BLUE | GREEN | YELLOW | WILD.

#[global] Instance eq_dec : EqDecision t.
Proof. solve_decision. Defined.

(** The enum member's [.value]. *)
Definition value (c : t) : string :=
  match c with
  | RED => "R" | BLUE => "B" | GREEN => "G" | YELLOW => "Y" | WILD => "W"
  end.
End Color.

Module CardType.
Inductive t := NUMBER | SKIP | REVERSE | DRAW_TWO | WILD | WILD_DRAW_FOUR.

#[global] Instance eq_dec : EqDecision t.
Proof. solve_decision. Defined.
End CardType.

(** A [Card] object.  The class defines neither [__eq__] nor [__hash__], so
    Python compares two cards by identity.  A reference is therefore modelled
    as the address of the object ([oid]) together with the contents stored
    there (cards are never mutated after construction); two references
    denote the same object exactly when they are equal as records. *)
Record Card := mkCard {
  oid : nat;
  color : Color.t;
  value : string;
  type : CardType.t
}.

#[global] Instance Card_eq_dec : EqDecision Card.
Proof. solve_decision. Defined.

(** [Card.__str__].  The six branches cover every [CardType], so the
    fall-through [return] after them is never reached. *)
Definition str (c : Card) : string :=
  match type c with
  | CardType.NUMBER => Color.value (color c) +:+ value c
  | CardType.SKIP => Color.value (color c) +:+ "SK"
  | CardType.REVERSE => Color.value (color c) +:+ "RV"
  | CardType.DRAW_TWO => Color.value (color c) +:+ "+2"
  | CardType.WILD => "WILD"
  | CardType.WILD_DRAW_FOUR => "WILD+4"
  end.

(** [str(x)] for an optional card ([None] prints as "None"). *)
Definition str_opt (c : option Card) : string :=
  match c with
  | Some c => str c
  | None => "None"
  end.

(** [Card.matches] *)
Definition matches (self other_card : Card) : bool :=
  if bool_decide (color self = Color.WILD) || bool_decide (color other_card = Color.WILD)
  then true
  else bool_decide (color self = color other_card) || String.eqb (value self) (value other_card).

(** ** Python lists and integers *)

Inductive exn := ValueError | IndexError | ZeroDivisionError.

Inductive Result (A : Type) :=
| Ok (a : A)
| Raise (e : exn).
Arguments Ok {A} a.
Arguments Raise {A} e.

(** Position denoted by a Python index: negative indices count from the
    end, anything else out of range has no position. *)
Definition py_index {A} (l : list A) (i : Z) : option nat :=
  let n := Z.of_nat (length l) in
  if (0 <=? i) && (i <? n) then Some (Z.to_nat i)
  else if (- n <=? i) && (i <? 0) then Some (Z.to_nat (n + i))
  else None.

(** [l[i]] *)
Definition getitem {A} (l : list A) (i : Z) : Result A :=
  match py_index l i with
  | Some k => match l !! k with Some x => Ok x | None => Raise IndexError end
  | None => Raise IndexError
  end.

(** [l[i] = x] *)
Definition setitem {A} (l : list A) (i : Z) (x : A) : Result (list A) :=
  match py_index l i with
  | Some k => Ok (<[k:=x]> l)
  | None => Raise IndexError
  end.

(** [l.pop()]: the last element and the list without it. *)
Definition pop {A} (l : list A) : Result (A * list A) :=
  match last l with
  | Some x => Ok (x, removelast l)
  | None => Raise IndexError
  end.

(** [l.remove(x)] on a list of cards: the first element that is [x]
    (identity, see [Card]) is dropped; [ValueError] when there is none. *)
Fixpoint list_remove (x : Card) (l : list Card) : Result (list Card) :=
  match l with
  | [] => Raise ValueError
  | y :: r =>
      if bool_decide (y = x) then Ok r
      else match list_remove x r with
           | Ok r' => Ok (y :: r')
           | Raise e => Raise e
           end
  end.

(** [a % n] (floor modulo, as [Z.modulo]). *)
Definition py_mod (a n : Z) : Result Z :=
  if n =? 0 then Raise ZeroDivisionError else Ok (a mod n).

(** [range(n)] and [range(a, b)] *)
Definition range (n : Z) : list Z := map Z.of_nat (seq 0 (Z.to_nat n)).
Definition range2 (a b : Z) : list Z := map (fun k => a + Z.of_nat k) (seq 0 (Z.to_nat (b - a))).

(** [str(n)] for a non-negative integer. *)
Definition str_int (n : Z) : string := NilEmpty.string_of_uint (N.to_uint (Z.to_N n)).

(** ** 2. Deck builder *)

(** [deck.append(Card(color, value, card_type))]: the constructor call
    allocates a new object; the k-th card built gets address [base + k]. *)
Definition append_new (base : nat) (deck : list Card)
    (c : Color.t) (v : string) (t : CardType.t) : list Card :=
  deck ++ [mkCard (base + length deck) c v t].

(** [create_deck()]; [base] is the first free address. *)
Definition create_deck (base : nat) : list Card :=
  let deck := [] in
  let colors := [Color.RED; Color.BLUE; Color.GREEN; Color.YELLOW] in
  let deck :=
    fold_left (fun deck color =>
      let deck := append_new base deck color "0" CardType.NUMBER in
      fold_left (fun deck num =>
        let deck := append_new base deck color (str_int num) CardType.NUMBER in
        append_new base deck color (str_int num) CardType.NUMBER)
        (range2 1 10) deck)
      colors deck in
  let deck :=
    fold_left (fun deck color =>
      let deck := fold_left (fun deck _ => append_new base deck color "SK" CardType.SKIP)
                            (range 2) deck in
      let deck := fold_left (fun deck _ => append_new base deck color "RV" CardType.REVERSE)
                            (range 2) deck in
      fold_left (fun deck _ => append_new base deck color "+2" CardType.DRAW_TWO)
                (range 2) deck)
      colors deck in
  let deck := fold_left (fun deck _ => append_new base deck Color.WILD "W" CardType.WILD)
                        (range 4) deck in
  let deck := fold_left (fun deck _ =>
                           append_new base deck Color.WILD "+4" CardType.WILD_DRAW_FOUR)
                        (range 4) deck in
  deck.

(** ** 3. Game state *)

Record UnoGameState := mkState {
  num_players : Z;
  current_player : Z;
  direction : Z;
  game_over : bool;
  winner : option Z;
  draw_pile_count : Z;
  skip_next : bool;
  pending_color : option Color.t;
  last_drawn_card : option Card;
  can_play_drawn_card : bool;
  deck : list Card;
  discard_pile : list Card;
  player_hands : list (list Card);
  turn_count : Z;
  players_uno : list bool
}.

(** Attribute assignments [self.f = v]. *)
Definition set_current_player (v : Z) (s : UnoGameState) : UnoGameState :=
  mkState (num_players s) v (direction s) (game_over s) (winner s) (draw_pile_count s)
    (skip_next s) (pending_color s) (last_drawn_card s) (can_play_drawn_card s) (deck s)
    (discard_pile s) (player_hands s) (turn_count s) (players_uno s).
Definition set_direction (v : Z) (s : UnoGameState) : UnoGameState :=
  mkState (num_players s) (current_player s) v (game_over s) (winner s)
    (draw_pile_count s) (skip_next s) (pending_color s) (last_drawn_card s)
    (can_play_drawn_card s) (deck s) (discard_pile s) (player_hands s) (turn_count s)
    (players_uno s).
Definition set_game_over (v : bool) (s : UnoGameState) : UnoGameState :=
  mkState (num_players s) (current_player s) (direction s) v (winner s)
    (draw_pile_count s) (skip_next s) (pending_color s) (last_drawn_card s)
    (can_play_drawn_card s) (deck s) (discard_pile s) (player_hands s) (turn_count s)
    (players_uno s).
Definition set_winner (v : option Z) (s : UnoGameState) : UnoGameState :=
  mkState (num_players s) (current_player s) (direction s) (game_over s) v
    (draw_pile_count s) (skip_next s) (pending_color s) (last_drawn_card s)
    (can_play_drawn_card s) (deck s) (discard_pile s) (player_hands s) (turn_count s)
    (players_uno s).
Definition set_draw_pile_count (v : Z) (s : UnoGameState) : UnoGameState :=
  mkState (num_players s) (current_player s) (direction s) (game_over s) (winner s) v
    (skip_next s) (pending_color s) (last_drawn_card s) (can_play_drawn_card s) (deck s)
    (discard_pile s) (player_hands s) (turn_count s) (players_uno s).
Definition set_skip_next (v : bool) (s : UnoGameState) : UnoGameState :=
  mkState (num_players s) (current_player s) (direction s) (game_over s) (winner s)
    (draw_pile_count s) v (pending_color s) (last_drawn_card s) (can_play_drawn_card s)
    (deck s) (discard_pile s) (player_hands s) (turn_count s) (players_uno s).
Definition set_pending_color (v : option Color.t) (s : UnoGameState) : UnoGameState :=
  mkState (num_players s) (current_player s) (direction s) (game_over s) (winner s)
    (draw_pile_count s) (skip_next s) v (last_drawn_card s) (can_play_drawn_card s)
    (deck s) (discard_pile s) (player_hands s) (turn_count s) (players_uno s).
Definition set_last_drawn_card (v : option Card) (s : UnoGameState) : UnoGameState :=
  mkState (num_players s) (current_player s) (direction s) (game_over s) (winner s)
    (draw_pile_count s) (skip_next s) (pending_color s) v (can_play_drawn_card s)
    (deck s) (discard_pile s) (player_hands s) (turn_count s) (players_uno s).
Definition set_can_play_drawn_card (v : bool) (s : UnoGameState) : UnoGameState :=
  mkState (num_players s) (current_player s) (direction s) (game_over s) (winner s)
    (draw_pile_count s) (skip_next s) (pending_color s) (last_drawn_card s) v (deck s)
    (discard_pile s) (player_hands s) (turn_count s) (players_uno s).
Definition set_deck (v : list Card) (s : UnoGameState) : UnoGameState :=
  mkState (num_players s) (current_player s) (direction s) (game_over s) (winner s)
    (draw_pile_count s) (skip_next s) (pending_color s) (last_drawn_card s)
    (can_play_drawn_card s) v (discard_pile s) (player_hands s) (turn_count s)
    (players_uno s).
Definition set_discard_pile (v : list Card) (s : UnoGameState) : UnoGameState :=
  mkState (num_players s) (current_player s) (direction s) (game_over s) (winner s)
    (draw_pile_count s) (skip_next s) (pending_color s) (last_drawn_card s)
    (can_play_drawn_card s) (deck s) v (player_hands s) (turn_count s) (players_uno s).
Definition set_player_hands (v : list (list Card)) (s : UnoGameState) : UnoGameState :=
  mkState (num_players s) (current_player s) (direction s) (game_over s) (winner s)
    (draw_pile_count s) (skip_next s) (pending_color s) (last_drawn_card s)
    (can_play_drawn_card s) (deck s) (discard_pile s) v (turn_count s) (players_uno s).
Definition set_turn_count (v : Z) (s : UnoGameState) : UnoGameState :=
  mkState (num_players s) (current_player s) (direction s) (game_over s) (winner s)
    (draw_pile_count s) (skip_next s) (pending_color s) (last_drawn_card s)
    (can_play_drawn_card s) (deck s) (discard_pile s) (player_hands s) v (players_uno s).
Definition set_players_uno (v : list bool) (s : UnoGameState) : UnoGameState :=
  mkState (num_players s) (current_player s) (direction s) (game_over s) (winner s)
    (draw_pile_count s) (skip_next s) (pending_color s) (last_drawn_card s)
    (can_play_drawn_card s) (deck s) (discard_pile s) (player_hands s) (turn_count s) v.

(** The attribute values [UnoGameState.__init__] assigns. *)
Definition init_state (num_players : Z) : UnoGameState :=
  {| num_players := num_players;
     current_player := 0;
     direction := 1;
     game_over := false;
     winner := None;
     draw_pile_count := 0;
     skip_next := false;
     pending_color := None;
     last_drawn_card := None;
     can_play_drawn_card := false;
     deck := [];
     discard_pile := [];
     player_hands := [];
     turn_count := 0;
     players_uno := replicate (Z.to_nat num_players) false |}.

(** [UnoGameState.__init__] *)
Definition init (num_players : Z) : Result UnoGameState :=
  if negb ((2 <=? num_players) && (num_players <=? 4)) then Raise ValueError
  else Ok (init_state num_players).

(** Every card the piles and hands hold, as one list. *)
Definition all_cards (s : UnoGameState) : list Card :=
  deck s ++ discard_pile s ++ concat (player_hands s).

(** An address no object reachable from the state has: where the next
    [Card(...)] is allocated. *)
Definition fresh_oid (s : UnoGameState) : nat :=
  S (max_list (map oid (all_cards s ++ option_list (last_drawn_card s)))).

(** ** The state-and-exception monad of the methods *)

Definition M (A : Type) : Type := UnoGameState -> Result A * UnoGameState.

Definition ret {A} (a : A) : M A := fun s => (Ok a, s).
Definition raise {A} (e : exn) : M A := fun s => (Raise e, s).
Definition bind {A B} (m : M A) (k : A -> M B) : M B :=
  fun s => match m s with
           | (Ok a, s') => k a s'
           | (Raise e, s') => (Raise e, s')
           end.
Definition gets {A} (f : UnoGameState -> A) : M A := fun s => (Ok (f s), s).
Definition modify (f : UnoGameState -> UnoGameState) : M unit := fun s => (Ok tt, f s).
Definition lift {A} (r : Result A) : M A := fun s => (r, s).

Notation "'let*' x ':=' m 'in' k" := (bind m (fun x => k))
  (at level 10, x pattern, m at level 100, k at level 200).
Notation "m '>>' k" := (bind m (fun _ => k))
  (at level 100, k at level 200, right associativity).

(** [for x in xs: body(x)] *)
Fixpoint for_ {A} (xs : list A) (body : A -> M unit) : M unit :=
  match xs with
  | [] => ret tt
  | x :: r => body x >> for_ r body
  end.

(** Truth value of an optional object: [None] is false; cards and enum
    members define neither [__bool__] nor [__len__] and are true. *)
Definition truthy {A} (o : option A) : bool :=
  match o with Some _ => true | None => false end.

(** Truth value of [x and b] kept as Python leaves it: [None], [True] or
    [False]. *)
Definition truthy_flag (o : option bool) : bool :=
  match o with Some b => b | None => false end.

(** [self.player_hands[player_idx].append(card)] *)
Definition hand_append (player_idx : Z) (card : Card) : M unit :=
  let* hands := gets player_hands in
  let* hand := lift (getitem hands player_idx) in
  let* hands' := lift (setitem hands player_idx (hand ++ [card])) in
  modify (set_player_hands hands').

(** [self.player_hands[player_idx].remove(card)] *)
Definition hand_remove (player_idx : Z) (card : Card) : M unit :=
  let* hands := gets player_hands in
  let* hand := lift (getitem hands player_idx) in
  let* hand' := lift (list_remove card hand) in
  let* hands' := lift (setitem hands player_idx hand') in
  modify (set_player_hands hands').

(** [len(self.player_hands[player_idx])] *)
Definition hand_len (player_idx : Z) : M nat :=
  let* hands := gets player_hands in
  let* hand := lift (getitem hands player_idx) in
  ret (length hand).

(** ** 4. The engine *)

Section Engine.

(** [shuffle_deck]: [random.shuffle] rearranges the list it is given.  The
    outcome of a call is taken as a function of the list; what the engine
    relies on, that it is a rearrangement, is assumed where it is used. *)
Variable shuffle_deck : list Card -> list Card.

(** [get_top_card] *)
Definition get_top_card (s : UnoGameState) : option Card :=
  match last (discard_pile s) with
  | None => None
  | Some top_card =>
      if bool_decide (color top_card = Color.WILD)
         && truthy (pending_color s)
         && negb (bool_decide (pending_color s = Some Color.WILD))
      then match pending_color s with
           | Some pc => Some (mkCard (fresh_oid s) pc (value top_card) (type top_card))
           | None => Some top_card
           end
      else Some top_card
  end.

(** [_can_play_card] *)
Definition _can_play_card (s : UnoGameState) (card : Card) (top_card : option Card)
    (is_draw_pile : bool) : bool :=
  match top_card with
  | None => true
  | Some top_card =>
      if bool_decide (color card = Color.WILD) then true
      else if truthy (pending_color s)
              && negb (bool_decide (pending_color s = Some Color.WILD))
      then bool_decide (Some (color card) = pending_color s)
      else if is_draw_pile then
        if bool_decide (type top_card = CardType.DRAW_TWO) then
          bool_decide (type card = CardType.DRAW_TWO)
          && (bool_decide (color card = color top_card)
              || bool_decide (color card = Color.WILD))
        else if bool_decide (type top_card = CardType.WILD_DRAW_FOUR) then
          bool_decide (type card = CardType.WILD_DRAW_FOUR)
        else false
      else matches card top_card
  end.

(** [get_legal_actions]: a query; the loops over the hand are the
    comprehension of the cards that pass the test, in hand order. *)
Definition get_legal_actions (s : UnoGameState) (player_idx : Z)
    : Result (list (string * option Card)) :=
  let top_card := get_top_card s in
  if 0 <? draw_pile_count s then
    match getitem (player_hands s) player_idx with
    | Raise e => Raise e
    | Ok hand =>
        Ok (map (fun card => ("play", Some card))
                (List.filter
                   (fun card => truthy top_card && _can_play_card s card top_card true)
                   hand)
            ++ [("draw", None)])
    end
  else
    match getitem (player_hands s) player_idx with
    | Raise e => Raise e
    | Ok hand =>
        Ok (map (fun card => ("play", Some card))
                (List.filter (fun card => _can_play_card s card top_card false) hand)
            ++ [("draw", None)])
    end.

(** [_reshuffle_deck] *)
Definition _reshuffle_deck : M unit :=
  let* discard := gets discard_pile in
  if (1 <? length discard)%nat then
    let* (top_card, rest) := lift (pop discard) in
    modify (set_deck rest) >>
    modify (set_discard_pile [top_card]) >>
    modify (fun s => set_deck (shuffle_deck (deck s)) s)
  else ret tt.

(** [draw_card] *)
Definition draw_card (player_idx : Z) : M (option Card) :=
  let* d := gets deck in
  (if negb (bool_decide (d <> [])) then _reshuffle_deck else ret tt) >>
  let* d := gets deck in
  if bool_decide (d <> []) then
    let* (card, rest) := lift (pop d) in
    modify (set_deck rest) >>
    hand_append player_idx card >>
    ret (Some card)
  else ret None.

(** [_advance_turn] *)
Definition _advance_turn : M unit :=
  modify (fun s => set_turn_count (turn_count s + 1) s) >>
  let* s := gets id in
  let* p := lift (py_mod (current_player s + direction s) (num_players s)) in
  modify (set_current_player p).

(** [_advance_turn_with_skip] *)
Definition _advance_turn_with_skip : M unit :=
  let* skip := gets skip_next in
  (if skip then
     let* s := gets id in
     let* p := lift (py_mod (current_player s + direction s) (num_players s)) in
     modify (set_current_player p) >>
     modify (set_skip_next false) >>
     let* s := gets id in
     let* p := lift (py_mod (current_player s + direction s) (num_players s)) in
     modify (set_current_player p)
   else
     let* s := gets id in
     let* p := lift (py_mod (current_player s + direction s) (num_players s)) in
     modify (set_current_player p)) >>
  modify (fun s => set_turn_count (turn_count s + 1) s) >>
  let* pc := gets pending_color in
  if truthy pc then
    let* top_card := gets get_top_card in
    match top_card with
    | Some top_card =>
        if negb (bool_decide (color top_card = Color.WILD))
        then modify (set_pending_color None)
        else ret tt
    | None => ret tt
    end
  else ret tt.

(** [_apply_special_effect] *)
Definition _apply_special_effect (card : Card) (player_idx : Z) : M unit :=
  match type card with
  | CardType.SKIP => modify (set_skip_next true)
  | CardType.REVERSE =>
      modify (fun s => set_direction (direction s * -1) s) >>
      let* n := gets num_players in
      if n =? 2 then modify (set_skip_next true) else ret tt
  | CardType.DRAW_TWO =>
      modify (fun s => set_draw_pile_count (draw_pile_count s + 2) s)
  | CardType.WILD_DRAW_FOUR =>
      modify (fun s => set_draw_pile_count (draw_pile_count s + 4) s)
  | CardType.WILD => ret tt
  | CardType.NUMBER => ret tt
  end.

(** [draw_with_option].  The second component is [is_playable] as Python
    computes it: [drawn_card and ...] is [None] when no card was drawn. *)
Definition draw_with_option (player_idx : Z) : M (option Card * option bool) :=
  let* cp := gets current_player in
  if negb (player_idx =? cp) then ret (None, Some false)
  else
    let* k := gets draw_pile_count in
    if 0 <? k then
      for_ (range k) (fun _ => draw_card player_idx >> ret tt) >>
      modify (set_draw_pile_count 0) >>
      _advance_turn >>
      ret (None, Some false)
    else
      let* drawn_card := draw_card player_idx in
      let* top_card := gets get_top_card in
      let* s := gets id in
      let is_playable :=
        match drawn_card with
        | Some c => Some (_can_play_card s c top_card false)
        | None => None
        end in
      (if truthy_flag is_playable then
         modify (set_last_drawn_card drawn_card) >>
         modify (set_can_play_drawn_card true)
       else
         _advance_turn >>
         modify (set_last_drawn_card None) >>
         modify (set_can_play_drawn_card false)) >>
      ret (drawn_card, is_playable).

(** [card.type in [CardType.WILD, CardType.WILD_DRAW_FOUR]] *)
Definition is_wild_type (card : Card) : bool :=
  bool_decide (type card = CardType.WILD)
  || bool_decide (type card = CardType.WILD_DRAW_FOUR).

(** [chosen_color is None or chosen_color == Color.WILD] *)
Definition invalid_choice (chosen_color : option Color.t) : bool :=
  negb (truthy chosen_color) || bool_decide (chosen_color = Some Color.WILD).

(** [play_drawn_card] *)
Definition play_drawn_card (player_idx : Z) (chosen_color : option Color.t) : M bool :=
  let* cp := gets current_player in
  if negb (player_idx =? cp) then ret false
  else
    let* can := gets can_play_drawn_card in
    let* last := gets last_drawn_card in
    match last with
    | Some card =>
        if negb can then ret false
        else if is_wild_type card && invalid_choice chosen_color then ret false
        else
          (if is_wild_type card then modify (set_pending_color chosen_color) else ret tt) >>
          hand_remove player_idx card >>
          modify (fun s => set_discard_pile (discard_pile s ++ [card]) s) >>
          _apply_special_effect card player_idx >>
          let* n := hand_len player_idx in
          (if (n =? 1)%nat then
             let* uno := gets players_uno in
             let* uno' := lift (setitem uno player_idx true) in
             modify (set_players_uno uno')
           else ret tt) >>
          let* n := hand_len player_idx in
          if (n =? 0)%nat then
            modify (set_game_over true) >>
            modify (set_winner (Some player_idx)) >>
            modify (set_last_drawn_card None) >>
            modify (set_can_play_drawn_card false) >>
            ret true
          else
            _advance_turn_with_skip >>
            modify (set_last_drawn_card None) >>
            modify (set_can_play_drawn_card false) >>
            ret true
    | None => ret false
    end.

(** [end_turn_after_draw] *)
Definition end_turn_after_draw (player_idx : Z) : M bool :=
  let* cp := gets current_player in
  if negb (player_idx =? cp) then ret false
  else
    modify (set_last_drawn_card None) >>
    modify (set_can_play_drawn_card false) >>
    _advance_turn >>
    ret true.

(** [any(act[0] == 'play' and str(act[1]) == str(card) for act in legal_actions)] *)
Definition listed (legal_actions : list (string * option Card)) (card : Card) : bool :=
  existsb (fun act => String.eqb (fst act) "play" && String.eqb (str_opt (snd act)) (str card))
          legal_actions.

(** [apply_action] *)
Definition apply_action (player_idx : Z) (action : string) (card : option Card)
    (chosen_color : option Color.t) : M bool :=
  let* over := gets game_over in
  if over then ret false
  else
    let* cp := gets current_player in
    if negb (player_idx =? cp) then ret false
    else if String.eqb action "draw" then
      let* (drawn_card, is_playable) := draw_with_option player_idx in
      (if truthy_flag is_playable
       then end_turn_after_draw player_idx >> ret tt
       else ret tt) >>
      ret true
    else if String.eqb action "play" && truthy card then
      match card with
      | Some card =>
          let* s := gets id in
          let* legal_actions := lift (get_legal_actions s player_idx) in
          if negb (listed legal_actions card) then ret false
          else if is_wild_type card && invalid_choice chosen_color then ret false
          else
            (if is_wild_type card then modify (set_pending_color chosen_color)
             else ret tt) >>
            hand_remove player_idx card >>
            modify (fun s => set_discard_pile (discard_pile s ++ [card]) s) >>
            _apply_special_effect card player_idx >>
            let* n := hand_len player_idx in
            (if (n =? 1)%nat then
               let* uno := gets players_uno in
               let* uno' := lift (setitem uno player_idx true) in
               modify (set_players_uno uno')
             else ret tt) >>
            let* n := hand_len player_idx in
            if (n =? 0)%nat then
              modify (set_game_over true) >>
              modify (set_winner (Some player_idx)) >>
              ret true
            else
              _advance_turn_with_skip >>
              ret true
      | None => ret false
      end
    else ret false.

(** The test of the loop that seeds the discard pile in [initialize_game]. *)
Definition is_wild_or_action (top_card : Card) : bool :=
  bool_decide (color top_card = Color.WILD)
  || (bool_decide (type top_card = CardType.SKIP)
      || bool_decide (type top_card = CardType.REVERSE)
      || bool_decide (type top_card = CardType.DRAW_TWO)).

(** The [while] loop of [initialize_game], on the pair of [top_card] and
    [self.deck].  [fuel] bounds the iterations; [None] stands for a loop
    that has not stopped within it. *)
Fixpoint seed_loop (fuel : nat) (top_card : Card) (dk : list Card)
    : option (Result (Card * list Card)) :=
  match fuel with
  | O => None
  | S fuel' =>
      if is_wild_or_action top_card && (1 <? length dk)%nat then
        match pop (top_card :: dk) with
        | Ok (top_card', dk') => seed_loop fuel' top_card' dk'
        | Raise e => Some (Raise e)
        end
      else Some (Ok (top_card, dk))
  end.

(** The dealing loops of [initialize_game].  In
    [self.player_hands[player_idx].append(self.deck.pop())] the hand is
    looked up before the deck is popped. *)
Definition deal : M unit :=
  for_ (range 7) (fun _ =>
    let* n := gets num_players in
    for_ (range n) (fun player_idx =>
      let* d := gets deck in
      if bool_decide (d <> []) then
        let* hands := gets player_hands in
        let* hand := lift (getitem hands player_idx) in
        let* (card, rest) := lift (pop d) in
        modify (set_deck rest) >>
        let* hands' := lift (setitem hands player_idx (hand ++ [card])) in
        modify (set_player_hands hands')
      else ret tt)).

(** [initialize_game] *)
Definition initialize_game (fuel : nat) (s : UnoGameState)
    : option (Result unit * UnoGameState) :=
  let s := set_deck (shuffle_deck (create_deck (fresh_oid s))) s in
  let s := set_player_hands (map (fun _ => []) (range (num_players s))) s in
  match deal s with
  | (Raise e, s) => Some (Raise e, s)
  | (Ok _, s) =>
      let seeded :=
        if bool_decide (deck s <> []) then
          match pop (deck s) with
          | Raise e => Some (Raise e, s)
          | Ok (top_card, rest) =>
              match seed_loop fuel top_card rest with
              | None => None
              | Some (Raise e) => Some (Raise e, set_deck rest s)
              | Some (Ok (top_card, dk)) =>
                  Some (Ok tt, set_discard_pile (discard_pile s ++ [top_card]) (set_deck dk s))
              end
          end
        else Some (Ok tt, s) in
      match seeded with
      | None => None
      | Some (Raise e, s) => Some (Raise e, s)
      | Some (Ok _, s) =>
          Some (Ok tt,
                set_can_play_drawn_card false
                  (set_last_drawn_card None
                     (set_pending_color None
                        (set_skip_next false
                           (set_draw_pile_count 0 s)))))
      end
  end.

End Engine.

(** ** Concrete games *)

(** One outcome of [random.shuffle]: the order it was given. *)
Definition keep_order (l : list Card) : list Card := l.

Module Scenario.
(** The cards of [test_specific_scenario] in [example_game.py], each a
    separate object. *)
Definition red5 := mkCard 1 Color.RED "5" CardType.NUMBER.
Definition wild := mkCard 2 Color.WILD "W" CardType.WILD.
Definition blue3 := mkCard 3 Color.BLUE "3" CardType.NUMBER.
Definition red_skip := mkCard 4 Color.RED "SK" CardType.SKIP.
Definition green_draw2 := mkCard 5 Color.GREEN "+2" CardType.DRAW_TWO.
Definition yellow_reverse := mkCard 6 Color.YELLOW "RV" CardType.REVERSE.
Definition red2 := mkCard 7 Color.RED "2" CardType.NUMBER.

(** The state the scenario sets up by hand on [UnoGameState(3)]. *)
Definition start : UnoGameState :=
  set_pending_color None
    (set_skip_next false
       (set_draw_pile_count 0
          (set_current_player 0
             (set_discard_pile [red2]
                (set_player_hands
                   [[red5; wild]; [blue3; red_skip]; [green_draw2; yellow_reverse]]
                   (init_state 3)))))).

(** The argument of the scenario's call: [Card(Color.WILD, "W",
    CardType.WILD)] built at the call, an object of its own. *)
Definition wild_built_at_call := mkCard 8 Color.WILD "W" CardType.WILD.
End Scenario.

Module AfterWin.
(** A two-player game one play from its end: player 0 holds a single
    red 5 that goes on the red 2. *)
Definition red5 := mkCard 1 Color.RED "5" CardType.NUMBER.
Definition blue3 := mkCard 2 Color.BLUE "3" CardType.NUMBER.
Definition green7 := mkCard 3 Color.GREEN "7" CardType.NUMBER.
Definition red2 := mkCard 4 Color.RED "2" CardType.NUMBER.
Definition yellow1 := mkCard 5 Color.YELLOW "1" CardType.NUMBER.
Definition red9 := mkCard 6 Color.RED "9" CardType.NUMBER.

Definition start : UnoGameState :=
  set_deck [yellow1; red9]
    (set_discard_pile [red2]
       (set_player_hands [[red5]; [blue3; green7]] (init_state 2))).
End AfterWin.

(** ** Vocabulary of the statements *)

(** The state [_advance_turn] leaves: one plain step. *)
Definition advanced (s : UnoGameState) : UnoGameState :=
  set_current_player ((current_player s + direction s) mod num_players s)
    (set_turn_count (turn_count s + 1) s).

(** The test [draw_with_option] applies to the card it has drawn, and
    [get_legal_actions] to a hand when no draw chain is pending. *)
Definition playable (s : UnoGameState) (card : Card) : bool :=
  _can_play_card s card (get_top_card s) false.

(** Cards a draw can still reach: the deck, and the discard pile below its
    top card, which a reshuffle turns into the deck. *)
Definition available (s : UnoGameState) : nat :=
  (length (deck s) + (length (discard_pile s) - 1))%nat.

(** What a played card adds to [draw_pile_count]. *)
Definition penalty (card : Card) : Z :=
  match type card with
  | CardType.DRAW_TWO => 2
  | CardType.WILD_DRAW_FOUR => 4
  | _ => 0
  end.

(** The shape of a game in progress: one hand per player and a turn
    pointer that names a player. *)
Definition well_formed (s : UnoGameState) : Prop :=
  0 < num_players s
  /\ Z.of_nat (length (player_hands s)) = num_players s
  /\ 0 <= current_player s < num_players s.

(** What every step keeps: the cards, as a multiset of objects, the number
    of players and of hands, and a turn pointer within range. *)
Definition keeps (s s' : UnoGameState) : Prop :=
  all_cards s' ≡ₚ all_cards s
  /\ num_players s' = num_players s
  /\ length (player_hands s') = length (player_hands s)
  /\ (0 < num_players s -> 0 <= current_player s < num_players s ->
      0 <= current_player s' < num_players s).

(** The continuation a draw chain asks for, in the words of the
    specification: on a DRAW_TWO a DRAW_TWO of the top card's colour (or
    WILD-coloured), on a WILD_DRAW_FOUR a WILD_DRAW_FOUR, nothing else. *)
Definition continues_chain (card top_card : Card) : bool :=
  match type top_card with
  | CardType.DRAW_TWO =>
      bool_decide (type card = CardType.DRAW_TWO)
      && (bool_decide (color card = color top_card)
          || bool_decide (color card = Color.WILD))
  | CardType.WILD_DRAW_FOUR => bool_decide (type card = CardType.WILD_DRAW_FOUR)
  | _ => false
  end.

(** The legality of a PLAY as the specification states it, to be compared
    with what [get_legal_actions] lists.  [top_card] is the effective top
    card. *)
Definition spec_legal_play (s : UnoGameState) (top_card : Card) (card : Card) : Prop :=
  (draw_pile_count s = 0
   /\ matches card top_card = true
   /\ (pending_color s = None
       \/ pending_color s = Some (color card)
       \/ color card = Color.WILD))
  \/ (0 < draw_pile_count s /\ continues_chain card top_card = true).

Module Stacking.
(** A two-player game in which player 0 can open a draw chain while
    player 1 holds a plain WILD. *)
Definition red_draw2 := mkCard 1 Color.RED "+2" CardType.DRAW_TWO.
Definition red5 := mkCard 2 Color.RED "5" CardType.NUMBER.
Definition wild := mkCard 3 Color.WILD "W" CardType.WILD.
Definition blue3 := mkCard 4 Color.BLUE "3" CardType.NUMBER.
Definition red2 := mkCard 5 Color.RED "2" CardType.NUMBER.
Definition green7 := mkCard 6 Color.GREEN "7" CardType.NUMBER.
Definition yellow1 := mkCard 7 Color.YELLOW "1" CardType.NUMBER.

Definition start : UnoGameState :=
  set_deck [green7; yellow1]
    (set_discard_pile [red2]
       (set_player_hands [[red_draw2; red5]; [wild; blue3]] (init_state 2))).

(** The state after player 0 has played the red DRAW_TWO. *)
Definition chain_open : UnoGameState :=
  snd (apply_action keep_order 0 "play" (Some red_draw2) None start).
End Stacking.

Module Chain.
(** A three-player game in which players 0 and 1 each hold a red
    DRAW_TWO and five cards are left in the deck. *)
Definition red_draw2_a := mkCard 1 Color.RED "+2" CardType.DRAW_TWO.
Definition red5 := mkCard 2 Color.RED "5" CardType.NUMBER.
Definition red_draw2_b := mkCard 3 Color.RED "+2" CardType.DRAW_TWO.
Definition blue3 := mkCard 4 Color.BLUE "3" CardType.NUMBER.
Definition green1 := mkCard 5 Color.GREEN "1" CardType.NUMBER.
Definition red2 := mkCard 6 Color.RED "2" CardType.NUMBER.
Definition blue4 := mkCard 7 Color.BLUE "4" CardType.NUMBER.
Definition blue6 := mkCard 8 Color.BLUE "6" CardType.NUMBER.
Definition green8 := mkCard 9 Color.GREEN "8" CardType.NUMBER.
Definition yellow0 := mkCard 10 Color.YELLOW "0" CardType.NUMBER.
Definition yellow9 := mkCard 11 Color.YELLOW "9" CardType.NUMBER.

Definition start : UnoGameState :=
  set_deck [blue4; blue6; green8; yellow0; yellow9]
    (set_discard_pile [red2]
       (set_player_hands [[red_draw2_a; red5]; [red_draw2_b; blue3]; [green1]]
          (init_state 3))).

(** After player 0's DRAW_TWO, and after player 1's on top of it. *)
Definition first : UnoGameState :=
  snd (apply_action keep_order 0 "play" (Some red_draw2_a) None start).
Definition second : UnoGameState :=
  snd (apply_action keep_order 1 "play" (Some red_draw2_b) None first).
End Chain.

(** ** Further vocabulary *)

(** What a card shows: colour, label and type, without the object's
    address. *)
Definition face (card : Card) : Color.t * string * CardType.t :=
  (color card, value card, type card).

(** How many cards of a list show a given face. *)
Definition copies (cards : list Card) (c : Color.t) (v : string) (t : CardType.t) : nat :=
  length (List.filter (fun card => bool_decide (face card = (c, v, t))) cards).

(** The four colours a card can be played as. *)
Definition real_colors : list Color.t :=
  [Color.RED; Color.BLUE; Color.GREEN; Color.YELLOW].

(** One step of the turn pointer in a game of [n] players. *)
Definition step (n dir p : Z) : Z := (p + dir) mod n.

(** Whether playing [card] sets [skip_next]: a SKIP, or a REVERSE in a
    two-player game. *)
Definition skips (card : Card) (s : UnoGameState) : bool :=
  bool_decide (type card = CardType.SKIP)
  || (bool_decide (type card = CardType.REVERSE) && (num_players s =? 2)).

(** The direction of play once [card] has been played. *)
Definition direction_after (card : Card) (s : UnoGameState) : Z :=
  if bool_decide (type card = CardType.REVERSE) then direction s * -1 else direction s.

(** What an accepted play of [card] by player [p] has done when it leaves
    state [s'] from state [s]: the summary the lemmas on [apply_action] and
    [play_drawn_card] share. *)
Definition play_outcome (p : Z) (card : Card) (chosen_color : option Color.t)
    (s s' : UnoGameState) : Prop :=
  exists k hand hand',
    p = current_player s
    /\ py_index (player_hands s) p = Some k
    /\ player_hands s !! k = Some hand
    /\ list_remove card hand = Ok hand'
    /\ (is_wild_type card = true -> invalid_choice chosen_color = false)
    /\ deck s' = deck s
    /\ discard_pile s' = discard_pile s ++ [card]
    /\ player_hands s' = <[k:=hand']> (player_hands s)
    /\ num_players s' = num_players s
    /\ draw_pile_count s' = draw_pile_count s + penalty card
    /\ direction s' = direction_after card s
    /\ ((length hand' <> 1%nat /\ players_uno s' = players_uno s)
        \/ (length hand' = 1%nat
            /\ exists ku, py_index (players_uno s) p = Some ku
                          /\ players_uno s' = <[ku:=true]> (players_uno s)))
    /\ ((hand' = []
         /\ game_over s' = true
         /\ winner s' = Some p
         /\ current_player s' = current_player s
         /\ turn_count s' = turn_count s
         /\ skip_next s' = skip_next s || skips card s
         /\ pending_color s' = (if is_wild_type card then chosen_color else pending_color s))
        \/ (hand' <> []
            /\ game_over s' = game_over s
            /\ winner s' = winner s
            /\ turn_count s' = turn_count s + 1
            /\ skip_next s' = false
            /\ num_players s <> 0
            /\ current_player s'
               = (if skip_next s || skips card s
                  then step (num_players s) (direction_after card s)
                         (step (num_players s) (direction_after card s) (current_player s))
                  else step (num_players s) (direction_after card s) (current_player s))
            /\ (pending_color s' = None
                \/ (pending_color s = Some Color.WILD
                    /\ pending_color s' = Some Color.WILD)))).

(** What no step undoes: a game that is over stays over, and a player flagged
    in [players_uno] stays flagged. *)
Definition flags_held (s s' : UnoGameState) : Prop :=
  (game_over s = true -> game_over s' = true)
  /\ length (players_uno s') = length (players_uno s)
  /\ forall i, players_uno s !! i = Some true -> players_uno s' !! i = Some true.

(** ** The bot of [example_game.py] *)

(** [color_counts[c.color] = color_counts.get(c.color, 0) + 1], the dict kept
    as the list of its items in insertion order. *)
Fixpoint dict_incr (key : Color.t) (d : list (Color.t * Z)) : list (Color.t * Z) :=
  match d with
  | [] => [(key, 0 + 1)]
  | (k, v) :: rest =>
      if bool_decide (k = key) then (k, v + 1) :: rest else (k, v) :: dict_incr key rest
  end.

(** [d.get(key, 0)] *)
Fixpoint dict_get (key : Color.t) (d : list (Color.t * Z)) : Z :=
  match d with
  | [] => 0
  | (k, v) :: rest => if bool_decide (k = key) then v else dict_get key rest
  end.

(** The loop that counts the colours of a hand, WILD left out. *)
Definition color_counts (hand : list Card) : list (Color.t * Z) :=
  fold_left
    (fun d c => if negb (bool_decide (color c = Color.WILD)) then dict_incr (color c) d else d)
    hand [].

(** [max(..., key=key)] over [best] followed by [l]: the first of the
    greatest. *)
Fixpoint py_max {A} (key : A -> Z) (best : A) (l : list A) : A :=
  match l with
  | [] => best
  | x :: rest => if key best <? key x then py_max key x rest else py_max key best rest
  end.

(** The colour [simple_bot_turn] chooses for a wild card of its hand. *)
Definition most_common_color (hand : list Card) : Color.t :=
  match color_counts hand with
  | item :: rest => fst (py_max snd item rest)
  | [] => Color.RED
  end.

(** How many cards of a hand have the colour [c]. *)
Definition count_color (c : Color.t) (hand : list Card) : Z :=
  Z.of_nat (length (List.filter (fun card => bool_decide (color card = c)) hand)).

Section Callers.

Variable shuffle_deck : list Card -> list Card.

(** [simple_bot_turn], without what it prints. *)
Definition simple_bot_turn (player_idx : Z) : M bool :=
let* s := gets id in
let* legal_actions := lift (get_legal_actions s player_idx) in
match List.find (fun act => String.eqb (fst act) "play") legal_actions with
| Some (_, card) =>
    let* chosen_color :=
      match card with
      | Some c =>
          if bool_decide (color c = Color.WILD) then
            let* hands := gets player_hands in
            let* hand := lift (getitem hands player_idx) in
            ret (Some (most_common_color hand))
          else ret None
      | None => ret None
      end in
    apply_action shuffle_deck player_idx "play" card chosen_color >>
    ret true
| None =>
    let* (drawn_card, is_playable) := draw_with_option shuffle_deck player_idx in
    if truthy_flag is_playable then
      let chosen_color :=
        match drawn_card with
        | Some c => if bool_decide (color c = Color.WILD) then Some Color.RED else None
        | None => None
        end in
      play_drawn_card player_idx chosen_color >>
      ret true
    else ret true
end.

(** [human_turn] reads what the player types; all that is known of it here
  is that it acts on the game. *)
Variable human_turn : Z -> M unit.

(** The [while] loop of [run_example_game], without what it prints.  [fuel]
  bounds the turns; the result tells whether the loop has ended. *)
Fixpoint game_loop (human_player_idx : Z) (fuel : nat) : M bool :=
match fuel with
| O => gets game_over
| S fuel' =>
    let* over := gets game_over in
    if over then ret true
    else
      let* current_player := gets current_player in
      (if current_player =? human_player_idx
       then human_turn current_player
       else simple_bot_turn current_player >> ret tt) >>
      let* over := gets game_over in
      if over then ret true
      else game_loop human_player_idx fuel'
end.

(** [run_example_game]: the game is built, set up and played. *)
Definition run_example_game (seed_fuel fuel : nat) (num_players human_player_idx : Z)
  : option (Result (bool * UnoGameState)) :=
match init num_players with
| Raise e => Some (Raise e)
| Ok game =>
    match initialize_game shuffle_deck seed_fuel game with
    | None => None
    | Some (Raise e, _) => Some (Raise e)
    | Some (Ok _, game) =>
        match game_loop human_player_idx fuel game with
        | (Raise e, _) => Some (Raise e)
        | (Ok ended, game) => Some (Ok (ended, game))
        end
    end
end.

End Callers.

(** A game the bot of the example can take a turn in: a game in progress in
    shape, one UNO flag for each hand, no drawn card waiting, and every wild
    card WILD-coloured. *)
Definition bot_ready (s : UnoGameState) : Prop :=
  well_formed s
  /\ length (players_uno s) = length (player_hands s)
  /\ can_play_drawn_card s = false
  /\ forall card, In card (all_cards s) ->
                  is_wild_type card = bool_decide (color card = Color.WILD).

(** ** The bots of [bot_player.py] *)

Module Info.
(** The dict [get_public_info] returns, one field for each key. *)
Record t := mk {
my_hand : list Card;
my_hand_size : Z;
top_card : option Card;
current_player : Z;
num_players : Z;
hand_sizes : list Z;
direction : Z;
legal_actions : list (string * option Card);
draw_pile_count : Z;
skip_next : bool;
pending_color : option Color.t;
can_play_drawn_card : bool;
last_drawn_card : option Card
}.
End Info.

(** [get_public_info] *)
Definition get_public_info (s : UnoGameState) (player_idx : Z) : Result Info.t :=
  match getitem (player_hands s) player_idx with
  | Raise e => Raise e
  | Ok hand =>
      match get_legal_actions s player_idx with
      | Raise e => Raise e
      | Ok legal =>
          Ok (Info.mk hand (Z.of_nat (length hand)) (get_top_card s)
                (current_player s) (num_players s)
                (map (fun hand => Z.of_nat (length hand)) (player_hands s))
                (direction s) legal (draw_pile_count s) (skip_next s) (pending_color s)
                (if player_idx =? current_player s then can_play_drawn_card s else false)
                (if player_idx =? current_player s then last_drawn_card s else None))
      end
  end.

(** What a bot can raise: the engine's exceptions and [AttributeError], for an
    attribute of [None]. *)
Inductive error := Engine (e : exn) | AttributeError.

Inductive Outcome (A : Type) :=
| Returns (a : A)
| Raises (e : error).
Arguments Returns {A} a.
Arguments Raises {A} e.

(** [max(l, key=key)]: the key of each item is computed once, in order, and
    the first of the greatest items is returned; [ValueError] on an empty
    list. *)
Fixpoint max_loop {A} (key : A -> Outcome Z) (best : A) (best_key : Z) (l : list A)
    : Outcome A :=
  match l with
  | [] => Returns best
  | x :: rest =>
      match key x with
      | Raises e => Raises e
      | Returns k =>
          if best_key <? k then max_loop key x k rest else max_loop key best best_key rest
      end
  end.

Definition max_by_key {A} (key : A -> Outcome Z) (l : list A) : Outcome A :=
  match l with
  | [] => Raises (Engine ValueError)
  | x :: rest =>
      match key x with
      | Raises e => Raises e
      | Returns k => max_loop key x k rest
      end
  end.

(** [self.rng.choice(seq)], the generator [self.rng] as a state [g] that
    [randbelow] reads and advances. *)
Definition rng_choice {G A} (randbelow : G -> nat -> nat * G) (g : G) (seq : list A)
    : Outcome (A * G) :=
  match seq with
  | [] => Raises (Engine IndexError)
  | _ =>
      let (i, g') := randbelow g (length seq) in
      match seq !! i with
      | Some x => Returns (x, g')
      | None => Raises (Engine IndexError)
      end
  end.

(** [_pick_best_color], the same text in [RandomBot] and [RuleBasedBot]:
    [Counter.most_common(1)] is the first of the most frequent. *)
Definition _pick_best_color {G} (randbelow : G -> nat -> nat * G) (g : G)
    (public_info : Info.t) : Outcome (Color.t * G) :=
  match color_counts (Info.my_hand public_info) with
  | [] => rng_choice randbelow g [Color.RED; Color.BLUE; Color.GREEN; Color.YELLOW]
  | item :: rest => Returns (fst (py_max snd item rest), g)
  end.

(** The colour a bot adds to the action it has picked. *)
Definition with_chosen_color {G} (randbelow : G -> nat -> nat * G) (g : G)
    (public_info : Info.t) (action : string) (card : option Card)
    : Outcome ((string * option Card * option Color.t) * G) :=
  if String.eqb action "play" then
    match card with
    | None => Raises AttributeError
    | Some c =>
        if bool_decide (color c = Color.WILD) then
          match _pick_best_color randbelow g public_info with
          | Raises e => Raises e
          | Returns (chosen_color, g') => Returns ((action, card, Some chosen_color), g')
          end
        else Returns ((action, card, None), g)
    end
  else Returns ((action, card, None), g).

Module RandomBot.

(** [RandomBot.choose_action] *)
Definition choose_action {G} (randbelow : G -> nat -> nat * G) (g : G)
  (public_info : Info.t) : Outcome ((string * option Card * option Color.t) * G) :=
match rng_choice randbelow g (Info.legal_actions public_info) with
| Raises e => Raises e
| Returns ((action, card), g') => with_chosen_color randbelow g' public_info action card
end.

End RandomBot.

Module RuleBasedBot.

(** The local function [score] of [choose_action]. *)
Definition score (hand : list Card) (next_size : Z) (action_card : string * option Card)
  : Outcome Z :=
let (action, card) := action_card in
if String.eqb action "draw" then Returns (-999)
else
  match card with
  | None => Raises AttributeError
  | Some card =>
      let s := 100 in
      let s := if bool_decide (type card = CardType.WILD)
                  || bool_decide (type card = CardType.WILD_DRAW_FOUR)
               then s + 10 else s in
      let s := if (next_size <=? 3)
                  && (bool_decide (type card = CardType.SKIP)
                      || bool_decide (type card = CardType.REVERSE)
                      || bool_decide (type card = CardType.DRAW_TWO)
                      || bool_decide (type card = CardType.WILD_DRAW_FOUR))
               then s + 25 else s in
      let s := if negb (bool_decide (color card = Color.WILD))
               then s + count_color (color card) hand * 2 else s in
      let s := if bool_decide (type card = CardType.DRAW_TWO) then s + 8 else s in
      let s := if bool_decide (type card = CardType.WILD_DRAW_FOUR) then s + 12 else s in
      let s := if bool_decide (type card = CardType.SKIP) then s + 6 else s in
      let s := if bool_decide (type card = CardType.REVERSE) then s + 4 else s in
      Returns s
  end.

(** [RuleBasedBot.choose_action] *)
Definition choose_action {G} (randbelow : G -> nat -> nat * G) (g : G)
  (public_info : Info.t) : Outcome ((string * option Card * option Color.t) * G) :=
let legal := Info.legal_actions public_info in
let hand := Info.my_hand public_info in
match py_mod (Info.current_player public_info + Info.direction public_info)
             (Info.num_players public_info) with
| Raise e => Raises (Engine e)
| Ok next_player =>
    match getitem (Info.hand_sizes public_info) next_player with
    | Raise e => Raises (Engine e)
    | Ok next_size =>
        match max_by_key (score hand next_size) legal with
        | Raises e => Raises e
        | Returns (best_action, best_card) =>
            with_chosen_color randbelow g public_info best_action best_card
        end
    end
end.

End RuleBasedBot.

(** ** Further concrete games *)

Module Played.
(** The scenario after player 0 has played the red 5, and the two-player game
  of [AfterWin] after player 0 has played the last card. *)
Definition red5 : UnoGameState :=
snd (apply_action keep_order 0 "play" (Some Scenario.red5) None Scenario.start).
Definition last_card : UnoGameState :=
snd (apply_action keep_order 0 "play" (Some AfterWin.red5) None AfterWin.start).
End Played.

Module Duel.
(** A two-player game in which player 0 holds a SKIP and a REVERSE that go on
  the red 2. *)
Definition red_skip := mkCard 1 Color.RED "SK" CardType.SKIP.
Definition red_reverse := mkCard 2 Color.RED "RV" CardType.REVERSE.
Definition red5 := mkCard 3 Color.RED "5" CardType.NUMBER.
Definition blue3 := mkCard 4 Color.BLUE "3" CardType.NUMBER.
Definition red2 := mkCard 5 Color.RED "2" CardType.NUMBER.
Definition green7 := mkCard 6 Color.GREEN "7" CardType.NUMBER.

Definition start : UnoGameState :=
set_deck [green7]
  (set_discard_pile [red2]
     (set_player_hands [[red_skip; red_reverse; red5]; [blue3]] (init_state 2))).

(** After player 0's SKIP. *)
Definition skipped : UnoGameState :=
snd (apply_action keep_order 0 "play" (Some red_skip) None start).
End Duel.

Module Short.
(** The chain of [Chain] at four cards to draw, with one card left in the
  deck and two below the top of the discard pile. *)
Definition start : UnoGameState := set_deck [Chain.blue4] Chain.second.
End Short.

Module Unlisted.
(** [Card(Color.WILD, "WILD", CardType.WILD)]: a card of its own that no hand
    of the scenario holds, WILD in colour and type, with a label no card of
    the scenario has. *)
Definition wild := mkCard 9 Color.WILD "WILD" CardType.WILD.
End Unlisted.

(** A generator that always yields 0, and a human who does nothing. *)
Definition first_choice (g : unit) (n : nat) : nat * unit := (0%nat, g).
Definition idle_human (player_idx : Z) : M unit := ret tt.

(** ** Properties *)

(** Unfolds the monad's operations at the state they are applied to. *)
Ltac run := unfold bind, gets, modify, lift, ret, raise, id; cbn.

(** Splits on a [match] of the goal whose scrutinee holds no [match]. *)
Ltac break_match :=
  match goal with
  | |- context [match ?x with _ => _ end] =>
      lazymatch x with
      | context [match _ with _ => _ end] => fail
      | _ => destruct x eqn:?
      end
  end.

(** Runs a monadic computation by cases, reusing the equations found. *)
Ltac crunch :=
  repeat (cbn in *;
          first [ match goal with
                  | H : ?x = _ |- context [match ?x with _ => _ end] => rewrite H
                  end
                | break_match ];
          subst).

#[local] Arguments _advance_turn : simpl never.
#[local] Arguments _advance_turn_with_skip : simpl never.
#[local] Arguments draw_card : simpl never.
#[local] Arguments _reshuffle_deck : simpl never.
#[local] Arguments get_legal_actions : simpl never.
#[local] Arguments get_top_card : simpl never.
#[local] Arguments _can_play_card : simpl never.
#[local] Arguments hand_append : simpl never.
#[local] Arguments hand_remove : simpl never.
#[local] Arguments hand_len : simpl never.
#[local] Arguments _apply_special_effect : simpl never.
#[local] Arguments playable : simpl never.
#[local] Arguments for_ : simpl never.
#[local] Arguments draw_with_option : simpl never.
#[local] Arguments end_turn_after_draw : simpl never.

Section Properties.

Variable shuffle_deck : list Card -> list Card.
Hypothesis shuffle_deck_perm : forall l, Permutation (shuffle_deck l) l.

(** *** Turn advancement *)

Lemma _advance_turn_ok s :
  num_players s <> 0 -> _advance_turn s = (Ok tt, advanced s).
Proof.
  intros Hn. unfold _advance_turn, py_mod. run.
  destruct (Z.eqb_spec (num_players s) 0) as [E|E]; [contradiction|reflexivity].
Qed.

(** C10: [end_turn_after_draw] called by the current player always succeeds,
    whatever the drawn-card record and [game_over] are: it clears
    [last_drawn_card] and [can_play_drawn_card] and advances the turn by one
    plain step (turn counter plus one, pointer moved by [direction]), touching
    nothing else. *)
Theorem end_turn_after_draw_unconditional (s : UnoGameState) (player_idx : Z) :
  player_idx = current_player s ->
  num_players s <> 0 ->
  end_turn_after_draw player_idx s =
    (Ok true,
     advanced (set_can_play_drawn_card false (set_last_drawn_card None s))).
Proof.
  intros -> Hn. unfold end_turn_after_draw. run.
  rewrite Z.eqb_refl. cbn.
  rewrite _advance_turn_ok by exact Hn. reflexivity.
Qed.

(** *** Rejected calls *)

Lemma is_wild_type_true card :
  type card = CardType.WILD \/ type card = CardType.WILD_DRAW_FOUR ->
  is_wild_type card = true.
Proof. unfold is_wild_type. intros [-> | ->]; reflexivity. Qed.

Lemma invalid_choice_true chosen_color :
  chosen_color = None \/ chosen_color = Some Color.WILD ->
  invalid_choice chosen_color = true.
Proof. intros [-> | ->]; reflexivity. Qed.

Lemma listed_false legal_actions card :
  (forall c, In ("play", Some c) legal_actions -> str c <> str card) ->
  listed legal_actions card = false.
Proof.
  intros H. unfold listed. apply not_true_is_false. intros E.
  apply existsb_exists in E as ([a o] & Hin & Ha).
  apply andb_prop in Ha as [Ha Hs].
  apply String.eqb_eq in Ha, Hs. cbn [fst snd] in Ha, Hs. subst a.
  destruct o as [c|]; cbn [str_opt] in Hs.
  - exact (H c Hin Hs).
  - destruct card as [o c v []]; destruct c; discriminate Hs.
Qed.

(** X23: the refusals that leave no trace.  A call by a player other than
    [current_player] (any of the four mutators, in any state) returns the
    failure result and the state it was called on.  When the current player
    has a hand, so do a WILD or WILD_DRAW_FOUR play without a real chosen
    colour ([apply_action], and [play_drawn_card] for the recorded card) and an
    [apply_action] play of a card whose rendering no listed PLAY card has. *)
Theorem rule_violations_are_atomic (s : UnoGameState) (player_idx : Z)
    (action : string) (card : option Card) (chosen_color : option Color.t)
    (c : Card) (hand : list Card) :
  (player_idx <> current_player s ->
     apply_action shuffle_deck player_idx action card chosen_color s = (Ok false, s)
     /\ draw_with_option shuffle_deck player_idx s = (Ok (None, Some false), s)
     /\ play_drawn_card player_idx chosen_color s = (Ok false, s)
     /\ end_turn_after_draw player_idx s = (Ok false, s))
  /\ (type c = CardType.WILD \/ type c = CardType.WILD_DRAW_FOUR ->
      chosen_color = None \/ chosen_color = Some Color.WILD ->
      (getitem (player_hands s) (current_player s) = Ok hand ->
         apply_action shuffle_deck player_idx "play" (Some c) chosen_color s = (Ok false, s))
      /\ (last_drawn_card s = Some c ->
          play_drawn_card player_idx chosen_color s = (Ok false, s)))
  /\ (getitem (player_hands s) (current_player s) = Ok hand ->
      (forall legal_actions c',
         get_legal_actions s (current_player s) = Ok legal_actions ->
         In ("play", Some c') legal_actions -> str c' <> str c) ->
      apply_action shuffle_deck player_idx "play" (Some c) chosen_color s = (Ok false, s)).
Proof.
  assert (Hlegal : forall p, getitem (player_hands s) p = Ok hand ->
            exists l, get_legal_actions s p = Ok l).
  { intros p Hp. unfold get_legal_actions. rewrite Hp.
    destruct (0 <? draw_pile_count s); eauto. }
  split; [|split].
  - intros Hp. apply Z.eqb_neq in Hp.
    unfold apply_action, draw_with_option, play_drawn_card, end_turn_after_draw.
    run. rewrite !Hp. cbn. destruct (game_over s); rewrite ?Hp; auto.
  - intros Hw Hc. apply is_wild_type_true in Hw. apply invalid_choice_true in Hc.
    split.
    + intros Hh. unfold apply_action. run.
      destruct (game_over s); [reflexivity|].
      destruct (Z.eqb_spec player_idx (current_player s)) as [->|]; [cbn|reflexivity].
      destruct (Hlegal _ Hh) as [l ->]. rewrite Hw, Hc. cbn.
      destruct (listed l c); reflexivity.
    + intros Hl. unfold play_drawn_card. run.
      destruct (negb (player_idx =? current_player s)); [reflexivity|].
      rewrite Hl, Hw, Hc. cbn.
      destruct (can_play_drawn_card s); reflexivity.
  - intros Hh Hnot. unfold apply_action. run.
    destruct (game_over s); [reflexivity|].
    destruct (Z.eqb_spec player_idx (current_player s)) as [->|]; [cbn|reflexivity].
    destruct (Hlegal _ Hh) as [l Hl]. rewrite Hl.
    rewrite (listed_false l c (fun c' => Hnot l c' Hl)). reflexivity.
Qed.


(** *** Python lists *)

Lemma pop_snoc {A} (l : list A) (x : A) : pop (l ++ [x]) = Ok (x, l).
Proof. unfold pop. now rewrite last_snoc, removelast_last. Qed.

Lemma pop_nonempty {A} (l : list A) :
  l <> [] -> exists x r, l = r ++ [x] /\ pop l = Ok (x, r).
Proof.
  intros H. destruct (exists_last H) as (r & x & ->).
  exists x, r. split; [reflexivity|apply pop_snoc].
Qed.

Lemma py_index_lt {A} (l : list A) i k :
  py_index l i = Some k -> (k < length l)%nat.
Proof.
  unfold py_index. intros H.
  destruct (Z.leb_spec 0 i), (Z.ltb_spec i (Z.of_nat (length l))); cbn in H;
    try (injection H as <-; lia);
    destruct (Z.leb_spec (- Z.of_nat (length l)) i), (Z.ltb_spec i 0); cbn in H;
    try discriminate; injection H as <-; lia.
Qed.

Lemma py_index_length {A B} (l : list A) (l' : list B) i :
  length l = length l' -> py_index l i = py_index l' i.
Proof. unfold py_index. now intros ->. Qed.

Lemma getitem_Ok {A} (l : list A) i x :
  getitem l i = Ok x -> exists k, py_index l i = Some k /\ l !! k = Some x.
Proof.
  unfold getitem. destruct (py_index l i) as [k|]; [|discriminate].
  destruct (l !! k) eqn:E; [|discriminate]. intros [= ->]. eauto.
Qed.

Lemma getitem_index {A} (l : list A) i k x :
  py_index l i = Some k -> l !! k = Some x -> getitem l i = Ok x.
Proof. unfold getitem. now intros -> ->. Qed.

Lemma setitem_index {A} (l : list A) i k x :
  py_index l i = Some k -> setitem l i x = Ok (<[k:=x]> l).
Proof. unfold setitem. now intros ->. Qed.

Lemma py_index_insert {A} (l : list A) i k x :
  py_index (<[k:=x]> l) i = py_index l i.
Proof. apply py_index_length, length_insert. Qed.

(** *** Drawing *)

Lemma hand_append_ok s p k hand card :
  py_index (player_hands s) p = Some k ->
  player_hands s !! k = Some hand ->
  hand_append p card s = (Ok tt, set_player_hands (<[k:=hand ++ [card]]> (player_hands s)) s).
Proof.
  intros Hk Hh. unfold hand_append. run.
  rewrite (getitem_index _ _ _ _ Hk Hh). cbn.
  rewrite (setitem_index _ _ _ _ Hk). reflexivity.
Qed.

Lemma draw_card_from_deck s p k hand d card :
  deck s = d ++ [card] ->
  py_index (player_hands s) p = Some k ->
  player_hands s !! k = Some hand ->
  draw_card shuffle_deck p s =
    (Ok (Some card),
     set_player_hands (<[k:=hand ++ [card]]> (player_hands s)) (set_deck d s)).
Proof.
  intros Hd Hk Hh. unfold draw_card. run. rewrite Hd.
  assert (Hne : d ++ [card] <> []) by (intros E; destruct d; discriminate).
  rewrite !(bool_decide_eq_true_2 _ Hne). cbn.
  rewrite Hd. rewrite !(bool_decide_eq_true_2 _ Hne). rewrite pop_snoc. cbn.
  rewrite (hand_append_ok _ p k hand card) by assumption. reflexivity.
Qed.

Lemma playable_ext s s' card :
  pending_color s = pending_color s' ->
  discard_pile s = discard_pile s' ->
  playable s card = playable s' card.
Proof.
  intros Hp Hd. unfold playable, _can_play_card, get_top_card, matches.
  rewrite Hp, Hd. destruct (last (discard_pile s')) as [t|]; [|reflexivity].
  destruct (pending_color s') as [pc|]; cbn; [|reflexivity].
  destruct (bool_decide (color t = Color.WILD)); cbn; [|reflexivity].
  destruct (bool_decide (Some pc = Some Color.WILD)); reflexivity.
Qed.

(** C6: with no draw chain pending and a card left in the deck,
    [draw_with_option] called by the current player draws the card at the end
    of the deck and ends in exactly one of two ways.  Either the card passes
    the legality test: the call returns it with [True], the turn pointer and
    the turn counter are as before, and the card is recorded as playable.  Or
    it does not: the call returns it with [False], the turn has moved on by one
    plain step and the drawn-card record is clear. *)
Theorem draw_with_option_play_after_draw (s : UnoGameState) (hand : list Card) :
  draw_pile_count s = 0 ->
  deck s <> [] ->
  getitem (player_hands s) (current_player s) = Ok hand ->
  num_players s <> 0 ->
  exists card s',
    last (deck s) = Some card
    /\ draw_with_option shuffle_deck (current_player s) s
       = (Ok (Some card, Some (playable s card)), s')
    /\ getitem (player_hands s') (current_player s) = Ok (hand ++ [card])
    /\ ((playable s card = true
         /\ current_player s' = current_player s
         /\ turn_count s' = turn_count s
         /\ can_play_drawn_card s' = true
         /\ last_drawn_card s' = Some card)
        \/ (playable s card = false
            /\ current_player s' = (current_player s + direction s) mod num_players s
            /\ turn_count s' = turn_count s + 1
            /\ can_play_drawn_card s' = false
            /\ last_drawn_card s' = None))
    /\ ~ (turn_count s' = turn_count s /\ turn_count s' = turn_count s + 1).
Proof.
  intros Hk Hdeck Hhand Hn.
  destruct (exists_last Hdeck) as (d & card & Hd).
  destruct (getitem_Ok _ _ _ Hhand) as (k & Hidx & Hlook).
  pose (s1 := set_player_hands (<[k:=hand ++ [card]]> (player_hands s)) (set_deck d s)).
  assert (Hdraw : draw_card shuffle_deck (current_player s) s = (Ok (Some card), s1))
    by (apply draw_card_from_deck; assumption).
  assert (Hplay : playable s1 card = playable s card)
    by (apply playable_ext; reflexivity).
  assert (Hget : getitem (player_hands s1) (current_player s) = Ok (hand ++ [card])).
  { apply getitem_index with k; cbn.
    - now rewrite py_index_insert.
    - apply list_lookup_insert_eq. eapply py_index_lt, Hidx. }
  exists card.
  destruct (playable s card) eqn:Hp.
  - exists (set_can_play_drawn_card true (set_last_drawn_card (Some card) s1)).
    split; [rewrite Hd; apply last_snoc|]. split; [|split; [exact Hget|split; [|lia]]].
    + unfold draw_with_option. run. rewrite Z.eqb_refl. cbn. rewrite Hk. cbn.
      rewrite Hdraw. fold (playable s1 card). rewrite Hplay. reflexivity.
    + left. cbn. auto.
  - exists (set_can_play_drawn_card false (set_last_drawn_card None (advanced s1))).
    split; [rewrite Hd; apply last_snoc|]. split; [|split; [exact Hget|split; [|lia]]].
    + unfold draw_with_option. run. rewrite Z.eqb_refl. cbn. rewrite Hk. cbn.
      rewrite Hdraw. fold (playable s1 card). rewrite Hplay. cbn.
      rewrite _advance_turn_ok by exact Hn. reflexivity.
    + right. cbn. auto.
Qed.

(** *** The pending colour *)

(** With a real pending colour the top card [get_top_card] reports is never
    WILD-coloured: a WILD-coloured card on the pile is reported in the
    pending colour. *)
Lemma get_top_card_colored s pc :
  pending_color s = Some pc ->
  pc <> Color.WILD ->
  discard_pile s <> [] ->
  exists top_card, get_top_card s = Some top_card /\ color top_card <> Color.WILD.
Proof.
  intros Hpc Hw Hd. unfold get_top_card.
  destruct (exists_last Hd) as (d & t & ->). rewrite last_snoc, Hpc. cbn.
  rewrite (bool_decide_eq_false_2 (Some pc = Some Color.WILD)) by congruence.
  rewrite andb_true_r. case_bool_decide; eauto.
Qed.

(** So the turn advance that follows a play always drops a real pending
    colour, the one a wild play has just set included. *)
Lemma _advance_turn_with_skip_drops_color s s' :
  _advance_turn_with_skip s = (Ok tt, s') ->
  pending_color s <> Some Color.WILD ->
  discard_pile s <> [] ->
  pending_color s' = None.
Proof.
  intros H Hw Hd. destruct (pending_color s) as [pc|] eqn:Hpc.
  - revert H. unfold _advance_turn_with_skip, py_mod. run.
    repeat (cbn; match goal with
                 | |- context [if ?b then _ else _] =>
                     lazymatch b with
                     | skip_next _ => destruct b
                     | (_ =? _) => destruct b
                     end
                 end); cbn; try discriminate; rewrite Hpc; cbn;
      match goal with
      | |- context [get_top_card ?st] =>
          destruct (get_top_card_colored st pc) as (t & -> & Ht);
            [exact Hpc|congruence|exact Hd|]
      end;
      rewrite (bool_decide_eq_false_2 _ Ht); cbn; now intros [= <-].
  - revert H. unfold _advance_turn_with_skip, py_mod. run.
    repeat (cbn; match goal with
                 | |- context [if ?b then _ else _] =>
                     lazymatch b with
                     | skip_next _ => destruct b
                     | (_ =? _) => destruct b
                     end
                 end); cbn; try discriminate; rewrite Hpc; cbn;
      now intros [= <-].
Qed.

(** *** What a step keeps *)

Lemma keeps_refl s : keeps s s.
Proof. unfold keeps. auto. Qed.

Lemma keeps_trans s1 s2 s3 : keeps s1 s2 -> keeps s2 s3 -> keeps s1 s3.
Proof.
  unfold keeps. intros (P1 & N1 & L1 & C1) (P2 & N2 & L2 & C2).
  rewrite N1 in *. repeat split; try congruence; try (apply C2; auto; apply C1; auto).
  now rewrite P2.
Qed.

Lemma keeps_well_formed s s' : well_formed s -> keeps s s' -> well_formed s'.
Proof.
  unfold well_formed, keeps. intros (Hn & Hl & Hc) (_ & N & L & C).
  rewrite N, L. auto.
Qed.

Lemma keeps_piles s s' :
  deck s' = deck s -> discard_pile s' = discard_pile s ->
  player_hands s' = player_hands s -> num_players s' = num_players s ->
  (0 < num_players s -> 0 <= current_player s < num_players s ->
   0 <= current_player s' < num_players s) ->
  keeps s s'.
Proof. unfold keeps, all_cards. intros -> -> -> -> H. auto. Qed.

Lemma concat_insert (hands : list (list Card)) k hand hand' :
  hands !! k = Some hand ->
  exists rest, concat hands ≡ₚ hand ++ rest
               /\ concat (<[k:=hand']> hands) ≡ₚ hand' ++ rest.
Proof.
  intros H. exists (concat (take k hands) ++ concat (drop (S k) hands)).
  rewrite insert_take_drop by (eapply lookup_lt_Some, H).
  rewrite <- (take_drop_middle hands k hand H) at 1.
  rewrite !concat_app. cbn. split.
  - rewrite !app_assoc. apply Permutation_app_tail, Permutation_app_comm.
  - rewrite !app_assoc. apply Permutation_app_tail, Permutation_app_comm.
Qed.

Lemma list_remove_Ok card hand hand' :
  list_remove card hand = Ok hand' -> hand ≡ₚ card :: hand'.
Proof.
  revert hand'. induction hand as [|y r IH]; cbn; intros hand' H; [discriminate|].
  case_bool_decide as E.
  - injection H as <-. now subst y.
  - destruct (list_remove card r) as [r'|]; [|discriminate].
    injection H as <-. rewrite (IH r' eq_refl). apply perm_swap.
Qed.

(** *** Drawing, with the reshuffle *)

Lemma shuffle_deck_length l : length (shuffle_deck l) = length l.
Proof. apply Permutation_length, shuffle_deck_perm. Qed.

(** [_reshuffle_deck] on an empty deck: the discard pile below its top
    card becomes the deck, rearranged; the top card stays. *)
Lemma _reshuffle_deck_spec s rest top_card :
  discard_pile s = rest ++ [top_card] ->
  rest <> [] ->
  _reshuffle_deck shuffle_deck s =
    (Ok tt, set_deck (shuffle_deck rest) (set_discard_pile [top_card] s)).
Proof.
  intros Hd Hr. unfold _reshuffle_deck, bind, gets. rewrite Hd.
  replace (1 <? length (rest ++ [top_card]))%nat with true.
  2:{ symmetry. apply Nat.ltb_lt. rewrite length_app. cbn.
      destruct rest; [contradiction|cbn; lia]. }
  unfold lift. rewrite pop_snoc. reflexivity.
Qed.

Lemma _reshuffle_deck_short s :
  (length (discard_pile s) <= 1)%nat ->
  _reshuffle_deck shuffle_deck s = (Ok tt, s).
Proof.
  intros H. unfold _reshuffle_deck, bind, gets.
  replace (1 <? length (discard_pile s))%nat with false; [reflexivity|].
  symmetry. apply Nat.ltb_ge. exact H.
Qed.

(** One [draw_card]: either nothing is left to draw and nothing happens, or
    a card moves to the end of the hand. *)
Lemma draw_card_spec s p k hand :
  py_index (player_hands s) p = Some k ->
  player_hands s !! k = Some hand ->
  (available s = 0%nat /\ draw_card shuffle_deck p s = (Ok None, s))
  \/ (exists card d' dp',
        draw_card shuffle_deck p s =
          (Ok (Some card),
           set_player_hands (<[k:=hand ++ [card]]> (player_hands s))
             (set_deck d' (set_discard_pile dp' s)))
        /\ d' ++ [card] ++ dp' ≡ₚ deck s ++ discard_pile s
        /\ S (length d' + (length dp' - 1)) = available s).
Proof.
  intros Hk Hh. destruct (deck s) as [|c0 d0] eqn:Hdeck.
  - destruct (le_lt_dec (length (discard_pile s)) 1) as [Hshort|Hlong].
    + left. split; [unfold available; rewrite Hdeck; cbn; lia|].
      unfold draw_card. run. rewrite Hdeck. cbn.
      rewrite _reshuffle_deck_short by exact Hshort. now rewrite Hdeck.
    + right.
      assert (Hne : discard_pile s <> []) by (intros E; rewrite E in Hlong; cbn in Hlong; lia).
      destruct (exists_last Hne) as (rest & top_card & Hd).
      assert (Hrest : rest <> [])
        by (intros ->; rewrite Hd in Hlong; cbn in Hlong; lia).
      assert (Hsh : shuffle_deck rest <> []).
      { intros E. apply Hrest. apply length_zero_iff_nil.
        now rewrite <- shuffle_deck_length, E. }
      destruct (exists_last Hsh) as (d' & card & Hs).
      exists card, d', [top_card]. split; [|split].
      * unfold draw_card. run. rewrite Hdeck. cbn.
        rewrite (_reshuffle_deck_spec s rest top_card Hd Hrest). cbn.
        rewrite (bool_decide_eq_true_2 _ Hsh), Hs, pop_snoc. cbn.
        rewrite (hand_append_ok _ p k hand card) by assumption. reflexivity.
      * rewrite Hd. rewrite (app_assoc d' [card] [top_card]), <- Hs.
        cbn [app]. now rewrite shuffle_deck_perm.
      * unfold available. rewrite Hdeck, Hd. cbn.
        assert (length (d' ++ [card]) = length rest)
          by (rewrite <- Hs; apply shuffle_deck_length).
        rewrite !length_app in *. cbn in *. lia.
  - right.
    assert (Hne : deck s <> []) by (rewrite Hdeck; discriminate).
    destruct (exists_last Hne) as (d' & card & Hd).
    exists card, d', (discard_pile s). split; [|split].
    + erewrite draw_card_from_deck by eassumption. reflexivity.
    + rewrite <- Hdeck, Hd. now rewrite <- app_assoc.
    + unfold available. rewrite Hd, length_app. cbn. lia.
Qed.

Lemma set_piles_twice s hs d dp hs' d' dp' :
  set_player_hands hs' (set_deck d' (set_discard_pile dp'
    (set_player_hands hs (set_deck d (set_discard_pile dp s)))))
  = set_player_hands hs' (set_deck d' (set_discard_pile dp' s)).
Proof. reflexivity. Qed.

(** The loop of a chain draw: [length xs] calls of [draw_card]. *)
Lemma draw_loop_spec (xs : list Z) p k : forall s hand,
  py_index (player_hands s) p = Some k ->
  player_hands s !! k = Some hand ->
  exists cards d' dp',
    for_ xs (fun _ => draw_card shuffle_deck p >> ret tt) s =
      (Ok tt,
       set_player_hands (<[k:=hand ++ cards]> (player_hands s))
         (set_deck d' (set_discard_pile dp' s)))
    /\ d' ++ cards ++ dp' ≡ₚ deck s ++ discard_pile s
    /\ length cards = Nat.min (length xs) (available s).
Proof.
  induction xs as [|x xs IH]; intros s hand Hk Hh.
  - exists [], (deck s), (discard_pile s). split; [|split; [reflexivity|reflexivity]].
    cbn. unfold ret. f_equal. rewrite app_nil_r, list_insert_id by exact Hh.
    now destruct s.
  - unfold for_; fold (@for_ Z). unfold bind at 1. unfold bind at 1.
    destruct (draw_card_spec s p k hand Hk Hh)
      as [[Hav ->] | (card & d1 & dp1 & -> & Hperm & Hav)].
    + cbn. destruct (IH s hand Hk Hh) as (cards & d' & dp' & -> & Hp & Hl).
      exists cards, d', dp'. repeat split; [exact Hp|].
      rewrite Hl, Hav. now rewrite !Nat.min_0_r.
    + cbn.
      set (s1 := set_player_hands _ _).
      destruct (IH s1 (hand ++ [card])) as (cards & d' & dp' & -> & Hp & Hl).
      * subst s1. cbn. now rewrite py_index_insert.
      * subst s1. cbn. apply list_lookup_insert_eq. eapply py_index_lt, Hk.
      * exists (card :: cards), d', dp'. split; [|split].
        -- change (player_hands s1) with (<[k:=hand ++ [card]]> (player_hands s)).
           subst s1. rewrite set_piles_twice.
           now rewrite list_insert_insert_eq, <- app_assoc.
        -- subst s1. cbn in Hp. rewrite <- Hperm. cbn [app].
           rewrite <- !Permutation_middle. now rewrite Hp.
        -- change (length (card :: cards)) with (S (length cards)).
           change (length (x :: xs)) with (S (length xs)). rewrite Hl.
           change (available s1) with (length d1 + (length dp1 - 1))%nat.
           rewrite <- Hav. reflexivity.
Qed.

(** *** Playing a card *)

Lemma hand_remove_spec p card s r s' :
  hand_remove p card s = (r, s') ->
  match r with
  | Ok _ => exists hands', s' = set_player_hands hands' s
              /\ length hands' = length (player_hands s)
              /\ concat (player_hands s) ≡ₚ card :: concat hands'
  | Raise _ => s' = s
  end.
Proof.
  unfold hand_remove. run.
  destruct (getitem (player_hands s) p) as [hand|] eqn:Hg; cbn;
    [|now intros [= <- <-]].
  destruct (list_remove card hand) as [hand'|] eqn:Hr; cbn;
    [|now intros [= <- <-]].
  destruct (getitem_Ok _ _ _ Hg) as (k & Hk & Hl).
  rewrite (setitem_index _ _ _ _ Hk). cbn. intros [= <- <-].
  eexists; split; [reflexivity|]. split; [apply length_insert|].
  destruct (concat_insert _ k hand hand' Hl) as (rest & -> & ->).
  now rewrite (list_remove_Ok _ _ _ Hr).
Qed.

Lemma hand_len_state p s r s' : hand_len p s = (r, s') -> s' = s.
Proof.
  unfold hand_len. run. destruct (getitem (player_hands s) p); cbn; now intros [= _ <-].
Qed.

(** [_advance_turn_with_skip] moves the turn pointer, consumes [skip_next],
    counts the turn and may drop [pending_color]; it touches nothing else. *)
Lemma _advance_turn_with_skip_frame s r s' :
  _advance_turn_with_skip s = (r, s') ->
  deck s' = deck s /\ discard_pile s' = discard_pile s
  /\ player_hands s' = player_hands s /\ num_players s' = num_players s
  /\ draw_pile_count s' = draw_pile_count s
  /\ game_over s' = game_over s
  /\ (0 < num_players s -> 0 <= current_player s < num_players s ->
      0 <= current_player s' < num_players s).
Proof.
  unfold _advance_turn_with_skip, py_mod. run. crunch;
    intros [= <- <-]; cbn; repeat split; auto; try lia; intros;
    match goal with
    | |- context [?a mod ?n] => pose proof (Z.mod_pos_bound a n); lia
    end.
Qed.

(** Brings in what is known of the helper calls met along a path. *)
Ltac use_specs :=
  repeat match goal with
    | H : hand_remove _ _ _ = (Ok _, _) |- _ =>
        apply hand_remove_spec in H; destruct H as (? & -> & ? & ?)
    | H : hand_remove _ _ _ = (Raise _, _) |- _ =>
        apply hand_remove_spec in H; cbn in H; subst
    | H : hand_len _ _ = _ |- _ => apply hand_len_state in H as ->
    | H : _advance_turn_with_skip _ = _ |- _ =>
        apply _advance_turn_with_skip_frame in H as (? & ? & ? & ? & ? & ? & ?)
    end.

Lemma keeps_played s s' card hands' :
  deck s' = deck s ->
  discard_pile s' = discard_pile s ++ [card] ->
  player_hands s' = hands' ->
  concat (player_hands s) ≡ₚ card :: concat hands' ->
  length hands' = length (player_hands s) ->
  num_players s' = num_players s ->
  (0 < num_players s -> 0 <= current_player s < num_players s ->
   0 <= current_player s' < num_players s) ->
  keeps s s'.
Proof.
  unfold keeps, all_cards. intros -> -> -> Hp Hl -> Hc.
  split; [|split; [|split]]; auto.
  rewrite Hp, <- app_assoc. cbn. reflexivity.
Qed.

Ltac leaf :=
  cbn in *;
  first [ apply keeps_refl
        | apply keeps_piles; cbn; solve [auto | congruence]
        | eapply keeps_played; cbn; solve [eauto | congruence] ].

(** A play through [play_drawn_card]: the cards are kept, and a call that
    succeeds has added the played card's penalty to [draw_pile_count]. *)
Lemma play_drawn_card_spec p chosen_color s r s' :
  play_drawn_card p chosen_color s = (r, s') ->
  keeps s s'
  /\ (r = Ok true ->
      exists card, last_drawn_card s = Some card
                   /\ draw_pile_count s' = draw_pile_count s + penalty card).
Proof.
  unfold play_drawn_card, _apply_special_effect, penalty. run. crunch;
    intros [= <- <-]; use_specs; (split; [leaf|]);
    try discriminate; intros _; eexists; (split; [reflexivity|]);
    match goal with H : type _ = _ |- _ => rewrite H end; cbn in *; lia.
Qed.

(** *** The draws keep the cards *)

Lemma _advance_turn_frame s r s' :
  _advance_turn s = (r, s') ->
  deck s' = deck s /\ discard_pile s' = discard_pile s
  /\ player_hands s' = player_hands s /\ num_players s' = num_players s
  /\ (0 < num_players s -> 0 <= current_player s < num_players s ->
      0 <= current_player s' < num_players s).
Proof.
  unfold _advance_turn, py_mod. run. crunch;
    intros [= <- <-]; cbn; repeat split; auto; try lia; intros;
    match goal with
    | |- context [?a mod ?n] => pose proof (Z.mod_pos_bound a n); lia
    end.
Qed.

Lemma keeps_drawn s s' k hand cards d' dp' :
  player_hands s !! k = Some hand ->
  d' ++ cards ++ dp' ≡ₚ deck s ++ discard_pile s ->
  deck s' = d' ->
  discard_pile s' = dp' ->
  player_hands s' = <[k:=hand ++ cards]> (player_hands s) ->
  num_players s' = num_players s ->
  (0 < num_players s -> 0 <= current_player s < num_players s ->
   0 <= current_player s' < num_players s) ->
  keeps s s'.
Proof.
  unfold keeps, all_cards. intros Hh Hp -> -> -> -> Hc.
  split; [|split; [|split]]; auto using length_insert.
  destruct (concat_insert _ k hand (hand ++ cards) Hh) as (rest & -> & ->).
  rewrite (app_assoc (deck s)), <- Hp, <- !app_assoc.
  apply Permutation_app_head.
  rewrite (Permutation_app_swap_app cards dp').
  apply Permutation_app_head, Permutation_app_swap_app.
Qed.

Lemma draw_with_option_keeps p s hand r s' :
  getitem (player_hands s) (current_player s) = Ok hand ->
  draw_with_option shuffle_deck p s = (r, s') ->
  keeps s s'.
Proof.
  intros Hg. destruct (getitem_Ok _ _ _ Hg) as (k & Hk & Hh).
  unfold draw_with_option. run.
  destruct (Z.eqb_spec p (current_player s)) as [->|]; cbn;
    [|intros [= <- <-]; apply keeps_refl].
  destruct (0 <? draw_pile_count s); cbn.
  - destruct (draw_loop_spec (range (draw_pile_count s)) _ k s hand Hk Hh)
      as (cards & d' & dp' & Hloop & Hp & _).
    unfold bind, ret in Hloop. rewrite Hloop. cbn. destruct (_advance_turn _) as [r1 s1] eqn:Ha.
    apply _advance_turn_frame in Ha as (? & ? & ? & ? & ?). cbn in *.
    destruct r1; intros [= <- <-]; eapply keeps_drawn; eauto.
  - destruct (draw_card_spec s (current_player s) k hand Hk Hh)
      as [[_ ->] | (card & d' & dp' & -> & Hp & _)]; cbn.
    + destruct (_advance_turn s) as [r1 s1] eqn:Ha.
      apply _advance_turn_frame in Ha as (? & ? & ? & ? & ?).
      destruct r1; intros [= <- <-]; apply keeps_piles; auto.
    + break_match; cbn.
      * intros [= <- <-]. eapply keeps_drawn; eauto.
      * destruct (_advance_turn _) as [r1 s1] eqn:Ha.
        apply _advance_turn_frame in Ha as (? & ? & ? & ? & ?). cbn in *.
        destruct r1; intros [= <- <-]; eapply keeps_drawn; eauto; exact Hp.
Qed.

Lemma end_turn_after_draw_keeps p s r s' :
  end_turn_after_draw p s = (r, s') -> keeps s s'.
Proof.
  unfold end_turn_after_draw. run.
  destruct (negb (p =? current_player s)); cbn; [intros [= <- <-]; apply keeps_refl|].
  destruct (_advance_turn _) as [r1 s1] eqn:Ha.
  apply _advance_turn_frame in Ha as (? & ? & ? & ? & ?). cbn in *.
  destruct r1; intros [= <- <-]; apply keeps_piles; auto.
Qed.

(** Any [apply_action]: the cards are kept. *)
Lemma apply_action_keeps p action card chosen_color s hand r s' :
  getitem (player_hands s) (current_player s) = Ok hand ->
  apply_action shuffle_deck p action card chosen_color s = (r, s') ->
  keeps s s'.
Proof.
  intros Hg. unfold apply_action, _apply_special_effect. run. crunch;
    intros [= <- <-]; use_specs;
    repeat match goal with
      | H : draw_with_option _ _ _ = _ |- _ =>
          apply (draw_with_option_keeps _ _ _ _ _ Hg) in H
      | H : end_turn_after_draw _ _ = _ |- _ => apply end_turn_after_draw_keeps in H
      end;
    try leaf; eauto using keeps_trans.
Qed.

(** A play that [apply_action] accepts adds the card's penalty to
    [draw_pile_count]. *)
Lemma apply_action_play_penalty p card chosen_color s s' :
  apply_action shuffle_deck p "play" (Some card) chosen_color s = (Ok true, s') ->
  draw_pile_count s' = draw_pile_count s + penalty card.
Proof.
  unfold apply_action, _apply_special_effect, penalty. run. crunch;
    intros [= <-]; use_specs; cbn in *; lia.
Qed.

Lemma well_formed_hand s :
  well_formed s -> exists hand, getitem (player_hands s) (current_player s) = Ok hand.
Proof.
  intros (Hn & Hl & Hc). unfold getitem, py_index.
  destruct (Z.leb_spec 0 (current_player s)); [|lia].
  destruct (Z.ltb_spec (current_player s) (Z.of_nat (length (player_hands s)))); [|lia].
  cbn. destruct (player_hands s !! Z.to_nat (current_player s)) as [hand|] eqn:E; eauto.
  apply lookup_ge_None in E. lia.
Qed.

(** C7: every play [apply_action] or [play_drawn_card] accepts adds 2 to
    [draw_pile_count] for a DRAW_TWO and 4 for a WILD_DRAW_FOUR, so two
    DRAW_TWO plays in a row add 4.  When the current player then calls
    [draw_with_option] with a count [k > 0] and at least [k] cards can still be
    drawn, the hand grows by exactly [k] cards, the count is 0 again, the turn
    has moved on by one plain step, and the call returns no card and [False],
    leaving the drawn-card record as it was. *)
Theorem draw_chain_accumulates_and_is_drawn_at_once (s : UnoGameState) :
  (forall p card chosen_color s',
      apply_action shuffle_deck p "play" (Some card) chosen_color s = (Ok true, s') ->
      (type card = CardType.DRAW_TWO -> draw_pile_count s' = draw_pile_count s + 2)
      /\ (type card = CardType.WILD_DRAW_FOUR ->
          draw_pile_count s' = draw_pile_count s + 4))
  /\ (forall p card chosen_color s',
        last_drawn_card s = Some card ->
        play_drawn_card p chosen_color s = (Ok true, s') ->
        (type card = CardType.DRAW_TWO -> draw_pile_count s' = draw_pile_count s + 2)
        /\ (type card = CardType.WILD_DRAW_FOUR ->
            draw_pile_count s' = draw_pile_count s + 4))
  /\ (forall p1 card1 chosen1 s1 p2 card2 chosen2 s2,
        type card1 = CardType.DRAW_TWO ->
        type card2 = CardType.DRAW_TWO ->
        apply_action shuffle_deck p1 "play" (Some card1) chosen1 s = (Ok true, s1) ->
        apply_action shuffle_deck p2 "play" (Some card2) chosen2 s1 = (Ok true, s2) ->
        draw_pile_count s2 = draw_pile_count s + 4)
  /\ (forall hand,
        0 < draw_pile_count s ->
        (Z.to_nat (draw_pile_count s) <= available s)%nat ->
        getitem (player_hands s) (current_player s) = Ok hand ->
        num_players s <> 0 ->
        exists s' hand',
          draw_with_option shuffle_deck (current_player s) s = (Ok (None, Some false), s')
          /\ getitem (player_hands s') (current_player s) = Ok hand'
          /\ length hand' = (length hand + Z.to_nat (draw_pile_count s))%nat
          /\ draw_pile_count s' = 0
          /\ current_player s' = (current_player s + direction s) mod num_players s
          /\ turn_count s' = turn_count s + 1
          /\ can_play_drawn_card s' = can_play_drawn_card s
          /\ last_drawn_card s' = last_drawn_card s).
Proof.
  split; [|split; [|split]].
  - intros p card ch s' H. apply apply_action_play_penalty in H.
    unfold penalty in H. split; intros E; rewrite E in H; exact H.
  - intros p card ch s' Hl H. apply play_drawn_card_spec in H as [_ H].
    destruct (H eq_refl) as (c & Hc & Hd). rewrite Hl in Hc. injection Hc as <-.
    unfold penalty in Hd. split; intros E; rewrite E in Hd; exact Hd.
  - intros p1 c1 ch1 s1 p2 c2 ch2 s2 E1 E2 H1 H2.
    apply apply_action_play_penalty in H1, H2. unfold penalty in *.
    rewrite E1 in H1. rewrite E2 in H2. lia.
  - intros hand Hpos Hav Hg Hn.
    destruct (getitem_Ok _ _ _ Hg) as (k & Hk & Hh).
    destruct (draw_loop_spec (range (draw_pile_count s)) (current_player s) k s hand Hk Hh)
      as (cards & d' & dp' & Hloop & _ & Hlen).
    assert (Hr : length (range (draw_pile_count s)) = Z.to_nat (draw_pile_count s))
      by (unfold range; now rewrite length_map, length_seq).
    rewrite Hr, Nat.min_l in Hlen by exact Hav.
    eexists. exists (hand ++ cards). split; [|split; [|split]].
    + unfold draw_with_option. run. rewrite Z.eqb_refl. cbn.
      apply Z.ltb_lt in Hpos. rewrite Hpos. cbn.
      unfold bind, ret in Hloop. rewrite Hloop. cbn.
      rewrite _advance_turn_ok by exact Hn. reflexivity.
    + cbn. apply getitem_index with k.
      * now rewrite py_index_insert.
      * apply list_lookup_insert_eq. eapply py_index_lt, Hk.
    + rewrite length_app. lia.
    + cbn. auto.
Qed.

(** C9: on a game in progress each of the four mutators, whatever it is
    called with and whatever it returns, leaves the deck, the discard pile and
    the hands holding together the same multiset of card objects, and leaves
    a game in progress; and a reshuffle on an exhausted deck makes the deck a
    rearrangement of the discard pile below its top card, which alone stays. *)
Theorem cards_are_conserved (s : UnoGameState) :
  well_formed s ->
  (forall p action card chosen_color r s',
      apply_action shuffle_deck p action card chosen_color s = (r, s') ->
      all_cards s' ≡ₚ all_cards s /\ well_formed s')
  /\ (forall p r s',
        draw_with_option shuffle_deck p s = (r, s') ->
        all_cards s' ≡ₚ all_cards s /\ well_formed s')
  /\ (forall p chosen_color r s',
        play_drawn_card p chosen_color s = (r, s') ->
        all_cards s' ≡ₚ all_cards s /\ well_formed s')
  /\ (forall p r s',
        end_turn_after_draw p s = (r, s') ->
        all_cards s' ≡ₚ all_cards s /\ well_formed s')
  /\ (forall rest top_card,
        deck s = [] ->
        discard_pile s = rest ++ [top_card] ->
        rest <> [] ->
        exists s', _reshuffle_deck shuffle_deck s = (Ok tt, s')
                   /\ deck s' ≡ₚ rest
                   /\ discard_pile s' = [top_card]
                   /\ player_hands s' = player_hands s).
Proof.
  intros Hwf. destruct (well_formed_hand s Hwf) as (hand & Hg).
  assert (K : forall s', keeps s s' -> all_cards s' ≡ₚ all_cards s /\ well_formed s').
  { intros s' Hk. split; [apply Hk|eapply keeps_well_formed; eassumption]. }
  split; [|split; [|split; [|split]]].
  - intros p action card ch r s' H. eapply K, apply_action_keeps; eassumption.
  - intros p r s' H. eapply K, draw_with_option_keeps; eassumption.
  - intros p ch r s' H. apply K. now apply play_drawn_card_spec in H.
  - intros p r s' H. eapply K, end_turn_after_draw_keeps; eassumption.
  - intros rest top_card _ Hd Hr.
    exists (set_deck (shuffle_deck rest) (set_discard_pile [top_card] s)).
    split; [apply _reshuffle_deck_spec; assumption|].
    cbn. auto.
Qed.

(** *** Legal actions *)

Lemma In_play_filter (f : Card -> bool) (hand : list Card) (card : Card) :
  In ("play", Some card) (map (fun c => ("play", Some c)) (List.filter f hand) ++ [("draw", None)])
  <-> In card hand /\ f card = true.
Proof.
  rewrite in_app_iff, in_map_iff. split.
  - intros [(c & [= ->] & Hin) | [[=] | []]]. now apply filter_In in Hin.
  - intros H. left. exists card. split; [reflexivity|now apply filter_In].
Qed.

Lemma one_draw (f : Card -> bool) (hand : list Card) :
  List.filter (fun act : string * option Card => String.eqb (fst act) "draw")
    (map (fun c => ("play", Some c)) (List.filter f hand) ++ [("draw", None)])
  = [("draw", None)].
Proof.
  rewrite List.filter_app. cbn.
  replace (List.filter _ (map _ _)) with (@nil (string * option Card)); [reflexivity|].
  induction (List.filter f hand) as [|c l IH]; cbn; [reflexivity|exact IH].
Qed.

(** X24: what [get_legal_actions] lists.  For a state with a card on the
    discard pile, in which a pending colour, when set, is a real colour and the
    nominal top card is WILD-coloured or of that colour, and for a card [card]
    of the hand of player [p]: without a draw chain [card] is listed as PLAY
    iff it matches the effective top card and the pending colour is absent, is
    the card's colour, or the card is WILD-coloured; with a draw chain and no
    pending colour it is listed iff it is WILD-coloured or continues the chain;
    with a draw chain and a pending colour it is listed iff it is WILD-coloured
    or of the pending colour, whatever its type.  The list holds exactly one
    DRAW action. *)
Theorem legal_plays_characterised (s : UnoGameState) (p : Z) (hand : list Card)
    (nominal_top card : Card) :
  getitem (player_hands s) p = Ok hand ->
  last (discard_pile s) = Some nominal_top ->
  (forall pc, pending_color s = Some pc ->
              pc <> Color.WILD
              /\ (color nominal_top = Color.WILD \/ color nominal_top = pc)) ->
  In card hand ->
  exists legal_actions top_card,
    get_legal_actions s p = Ok legal_actions
    /\ get_top_card s = Some top_card
    /\ (draw_pile_count s = 0 ->
        (In ("play", Some card) legal_actions
         <-> matches card top_card = true
             /\ (pending_color s = None
                 \/ pending_color s = Some (color card)
                 \/ color card = Color.WILD)))
    /\ (0 < draw_pile_count s -> pending_color s = None ->
        (In ("play", Some card) legal_actions
         <-> color card = Color.WILD \/ continues_chain card top_card = true))
    /\ (0 < draw_pile_count s -> forall pc, pending_color s = Some pc ->
        (In ("play", Some card) legal_actions
         <-> color card = Color.WILD \/ color card = pc))
    /\ List.filter (fun act => String.eqb (fst act) "draw") legal_actions
       = [("draw", None)].
Proof.
  intros Hg Hlast Hpc Hin.
  assert (Htop : exists top_card, get_top_card s = Some top_card
            /\ type top_card = type nominal_top
            /\ value top_card = value nominal_top
            /\ (pending_color s = None -> top_card = nominal_top)
            /\ (forall pc, pending_color s = Some pc -> color top_card = pc)).
  { unfold get_top_card. rewrite Hlast.
    destruct (pending_color s) as [pc|] eqn:E; cbn.
    - destruct (Hpc pc eq_refl) as (Hw & Hc).
      rewrite (bool_decide_eq_false_2 (Some pc = Some Color.WILD)) by congruence.
      rewrite andb_true_r. case_bool_decide as Ec.
      + eexists. repeat split; cbn; try discriminate. now intros ? [= ->].
      + exists nominal_top. repeat split; try discriminate.
        intros ? [= <-]. now destruct Hc.
    - rewrite andb_false_r. exists nominal_top. repeat split; auto; discriminate. }
  destruct Htop as (top_card & Htop & Hty & Hval & Hnone & Hsome).
  unfold get_legal_actions. rewrite Hg, Htop.
  destruct (Z.ltb_spec 0 (draw_pile_count s)) as [Hchain|Hno];
    eexists; exists top_card; (split; [reflexivity|]); (split; [reflexivity|]);
    (split; [|split; [|split; [|apply one_draw]]]); try (intros; lia).
  - intros _ Hnopc. rewrite In_play_filter.
    unfold _can_play_card, continues_chain. rewrite Hnopc. cbn.
    destruct (decide (color card = Color.WILD)) as [Ew|Ew].
    + rewrite (bool_decide_eq_true_2 _ Ew). intuition.
    + rewrite (bool_decide_eq_false_2 _ Ew).
      destruct (type top_card); cbn; intuition (try discriminate; try congruence).
  - intros _ pc Hsome_pc. rewrite In_play_filter.
    destruct (Hpc pc Hsome_pc) as (Hw & _).
    unfold _can_play_card. rewrite Hsome_pc. cbn.
    rewrite (bool_decide_eq_false_2 (Some pc = Some Color.WILD)) by congruence. cbn.
    destruct (decide (color card = Color.WILD)) as [Ew|Ew].
    + rewrite (bool_decide_eq_true_2 _ Ew). intuition.
    + rewrite (bool_decide_eq_false_2 _ Ew). split.
      * intros [_ H]. apply bool_decide_eq_true in H. right. congruence.
      * intros [H|H]; [contradiction|]. split; [exact Hin|].
        apply bool_decide_eq_true_2. congruence.
  - intros _. rewrite In_play_filter. unfold _can_play_card, matches.
    destruct (pending_color s) as [pc|] eqn:E; cbn.
    + destruct (Hpc pc eq_refl) as (Hw & _). specialize (Hsome pc eq_refl).
      rewrite (bool_decide_eq_false_2 (Some pc = Some Color.WILD)) by congruence.
      rewrite (bool_decide_eq_false_2 (color top_card = Color.WILD)) by congruence.
      cbn. rewrite orb_false_r. split.
      * intros [_ H]. case_bool_decide as Ew; [auto|].
        apply bool_decide_eq_true in H. injection H as H. split.
        -- rewrite Hsome, H. rewrite bool_decide_eq_true_2 by reflexivity. reflexivity.
        -- right. left. now rewrite H.
      * intros [_ [H | [H | H]]]; [discriminate| |]; (split; [exact Hin|]).
        -- case_bool_decide; [reflexivity|]. now apply bool_decide_eq_true_2.
        -- now rewrite bool_decide_eq_true_2.
    + split.
      * intros [_ H]. split; [|auto]. case_bool_decide; [reflexivity|exact H].
      * intros [H _]. split; [exact Hin|].
        case_bool_decide; [reflexivity|exact H].
Qed.

(** *** Setting up a game *)

Lemma all_special_or_plain (l : list Card) :
  (forall c, In c l -> is_wild_or_action c = true)
  \/ (exists c, In c l /\ is_wild_or_action c = false).
Proof.
  induction l as [|x l [IH|(c & Hin & Hc)]].
  - left. intros c [].
  - destruct (is_wild_or_action x) eqn:E.
    + left. intros c [<-|Hin]; auto.
    + right. exists x. split; [now left|exact E].
  - right. exists c. split; [now right|exact Hc].
Qed.

(** The last card of a list that is neither WILD-coloured nor an action
    card, with what precedes and follows it. *)
Lemma last_plain_card (l : list Card) :
  (exists c, In c l /\ is_wild_or_action c = false) ->
  exists pre g suf,
    l = pre ++ g :: suf
    /\ is_wild_or_action g = false
    /\ Forall (fun c => is_wild_or_action c = true) suf.
Proof.
  induction l as [|x l IH]; intros (c & Hin & Hc); [destruct Hin|].
  destruct (all_special_or_plain l) as [Hall|Hex].
  - destruct Hin as [->|Hin]; [|rewrite (Hall c Hin) in Hc; discriminate].
    exists [], c, l. repeat split; auto. now apply List.Forall_forall.
  - destruct (IH Hex) as (pre & g & suf & -> & Hg & Hs).
    exists (x :: pre), g, suf. auto.
Qed.

(** The seeding loop cycles the cards that follow the last plain card to
    the front of the deck and stops at that card. *)
Lemma seed_loop_stops (g : Card) : forall suf pre top_card dk fuel,
  dk ++ [top_card] = pre ++ g :: suf ->
  is_wild_or_action g = false ->
  Forall (fun c => is_wild_or_action c = true) suf ->
  (1 < length dk)%nat ->
  (length suf < fuel)%nat ->
  exists dk', seed_loop fuel top_card dk = Some (Ok (g, dk'))
              /\ length dk' = length dk
              /\ dk' ++ [g] ≡ₚ dk ++ [top_card].
Proof.
  induction suf as [|t suf IH] using rev_ind; intros pre top_card dk fuel Heq Hg Hs Hlen Hf.
  - apply app_inj_tail in Heq as [-> ->].
    destruct fuel as [|fuel]; [lia|]. cbn [seed_loop]. rewrite Hg. cbn.
    exists pre. auto.
  - change (pre ++ g :: suf ++ [t]) with (pre ++ (g :: suf) ++ [t]) in Heq.
    rewrite app_assoc in Heq. apply app_inj_tail in Heq as [-> ->].
    apply Forall_app in Hs as [Hs Ht]. apply Forall_inv in Ht.
    destruct fuel as [|fuel]; [lia|]. cbn [seed_loop]. rewrite Ht.
    apply Nat.ltb_lt in Hlen as Hlen'. rewrite Hlen'. cbn [andb].
    destruct (pop_nonempty (t :: pre ++ g :: suf)) as (x & r & Hx & ->);
      [discriminate|].
    assert (Hr : length r = length (pre ++ g :: suf)).
    { assert (H : length (r ++ [x]) = length (t :: pre ++ g :: suf)) by now rewrite Hx.
      rewrite length_app in H. cbn in H. cbn. lia. }
    destruct (IH (t :: pre) x r fuel) as (dk' & -> & Hl & Hp); auto.
    + lia.
    + rewrite length_app in Hf. cbn in Hf. lia.
    + exists dk'. split; [reflexivity|]. split; [lia|].
      rewrite Hp, <- Hx. apply Permutation_cons_append.
Qed.

Lemma seed_loop_result (fuel : nat) (top_card : Card) (dk : list Card) :
  (exists c, In c (dk ++ [top_card]) /\ is_wild_or_action c = false) ->
  (1 < length dk)%nat ->
  (length dk < fuel)%nat ->
  exists g dk', seed_loop fuel top_card dk = Some (Ok (g, dk'))
                /\ is_wild_or_action g = false
                /\ length dk' = length dk
                /\ dk' ++ [g] ≡ₚ dk ++ [top_card].
Proof.
  intros Hex Hlen Hf.
  destruct (last_plain_card _ Hex) as (pre & g & suf & Heq & Hg & Hs).
  destruct (seed_loop_stops g suf pre top_card dk fuel Heq Hg Hs Hlen) as (dk' & H).
  - assert (H : length (dk ++ [top_card]) = length (pre ++ g :: suf)) by now rewrite Heq.
    rewrite !length_app in H. cbn in H. lia.
  - exists g, dk'. tauto.
Qed.

(** When more cards are at hand than the deck has WILD-coloured and action
    cards, one of them is plain. *)
Lemma plain_card_among (l pre suf : list Card) (n : nat) :
  l = pre ++ suf ->
  length (List.filter is_wild_or_action l) = n ->
  (n < length pre)%nat ->
  exists c, In c pre /\ is_wild_or_action c = false.
Proof.
  intros -> Hn Hlt.
  destruct (all_special_or_plain pre) as [Hall|Hex]; [exfalso|exact Hex].
  rewrite List.filter_app, length_app in Hn.
  rewrite (forallb_filter_id is_wild_or_action pre) in Hn; [lia|].
  now apply forallb_forall.
Qed.

Lemma filter_Permutation (f : Card -> bool) (l l' : list Card) :
  l ≡ₚ l' -> length (List.filter f l) = length (List.filter f l').
Proof.
  induction 1; cbn; auto.
  - destruct (f x); cbn; auto.
  - destruct (f x), (f y); cbn; auto.
  - congruence.
Qed.

Lemma create_deck_length base : length (create_deck base) = 108%nat.
Proof. reflexivity. Qed.

Lemma create_deck_special base :
  length (List.filter is_wild_or_action (create_deck base)) = 32%nat.
Proof. reflexivity. Qed.

Lemma plain_card_faces (g : Card) :
  is_wild_or_action g = false ->
  color g <> Color.WILD
  /\ type g <> CardType.SKIP /\ type g <> CardType.REVERSE
  /\ type g <> CardType.DRAW_TWO.
Proof.
  unfold is_wild_or_action. intros H.
  apply orb_false_elim in H as [Hc H].
  apply orb_false_elim in H as [H Hd].
  apply orb_false_elim in H as [Hs Hr].
  apply bool_decide_eq_false in Hc, Hd, Hs, Hr. auto.
Qed.

(** Splits the explicit list [r] at its element [a]. *)
Ltac split_at a r :=
  lazymatch r with
  | a :: ?t => constr:((@nil Card, t))
  | ?b :: ?t =>
      let p := split_at a t in
      lazymatch p with (?l1, ?l2) => constr:((b :: l1, l2)) end
  end.

(** Rearrangements of explicit lists. *)
Ltac explicit_perm :=
  lazymatch goal with
  | |- [] ≡ₚ [] => constructor
  | |- ?a :: ?l ≡ₚ ?r =>
      let p := split_at a r in
      lazymatch p with
      | (?l1, ?l2) => apply (Permutation_cons_app l1 l2 a); cbn [app]; explicit_perm
      end
  end.

(** C8: on a fresh game of [N] players, 2 to 4, [initialize_game] returns
    (the seeding loop stops within any fuel of 108 or more) with [N] hands of
    7 cards, so 7N cards in hands, a discard pile of exactly one card that is
    neither WILD-coloured nor a SKIP, REVERSE or DRAW_TWO, and 108 - 7N - 1
    cards in the deck, the deck built having 108 cards; the state is a game in
    progress and holds exactly the cards of the built deck. *)
Theorem initialize_game_deal (N : Z) (fuel : nat) :
  2 <= N <= 4 ->
  (108 <= fuel)%nat ->
  exists s top_card,
    init N = Ok (init_state N)
    /\ initialize_game shuffle_deck fuel (init_state N) = Some (Ok tt, s)
    /\ Z.of_nat (length (concat (player_hands s))) = 7 * N
    /\ Z.of_nat (length (player_hands s)) = N
    /\ Forall (fun hand => length hand = 7%nat) (player_hands s)
    /\ discard_pile s = [top_card]
    /\ color top_card <> Color.WILD
    /\ type top_card <> CardType.SKIP
    /\ type top_card <> CardType.REVERSE
    /\ type top_card <> CardType.DRAW_TWO
    /\ Z.of_nat (length (deck s)) = 108 - 7 * N - 1
    /\ length (create_deck (fresh_oid (init_state N))) = 108%nat
    /\ well_formed s
    /\ all_cards s ≡ₚ create_deck (fresh_oid (init_state N)).
Proof.
  intros HN Hfuel.
  assert (HN' : N = 2 \/ N = 3 \/ N = 4) by lia.
  destruct HN' as [-> | [-> | ->]].
  all: unfold initialize_game.
  all: change (fresh_oid (init_state _)) with 1%nat.
  all: pose proof (shuffle_deck_perm (create_deck 1)) as Hperm.
  all: pose proof (shuffle_deck_length (create_deck 1)) as Hlen.
  all: rewrite create_deck_length in Hlen.
  all: remember (shuffle_deck (create_deck 1)) as l eqn:Hl; clear Hl.
  all: do 108 (destruct l as [|? l]; [discriminate Hlen|];
               cbn [length] in Hlen; apply eq_add_S in Hlen).
  all: destruct l; [clear Hlen|discriminate Hlen].
  all: match goal with
       | |- context [deal ?st] =>
           let r := eval vm_compute in (deal st) in
           replace (deal st) with r by (vm_compute; reflexivity)
       end.
  all: cbn -[seed_loop create_deck].
  all: match goal with
       | |- context [seed_loop ?f ?t ?dk] =>
           destruct (seed_loop_result f t dk) as (g & dk' & -> & Hg & Hlen & Hp);
             [ match type of Hperm with
               | ?l ≡ₚ _ => eapply (plain_card_among l _ _ 32)
               end;
               [ reflexivity
               | rewrite (filter_Permutation _ _ _ Hperm); apply create_deck_special
               | cbn; lia ]
             | cbn; lia
             | cbn; lia
             | ]
       end.
  all: destruct (plain_card_faces g Hg) as (? & ? & ? & ?).
  all: eexists; exists g.
  all: repeat match goal with |- _ /\ _ => split end.
  all: try first [ reflexivity | assumption
                 | cbn; rewrite Hlen; reflexivity
                 | solve [repeat constructor]
                 | unfold well_formed; cbn; lia ].
  all: unfold all_cards; cbn -[create_deck].
  all: match type of Hp with
       | _ ≡ₚ ?b =>
           assert (Hq : forall hs, dk' ++ g :: hs ≡ₚ b ++ hs)
             by (intros hs; rewrite <- Hp, <- app_assoc; reflexivity)
       end.
  all: rewrite Hq, <- Hperm; cbn [app].
  all: explicit_perm.
Qed.

(** *** The scenario of [example_game.py] *)

(** C1: in the three-player scenario player 0 plays the WILD card of the hand
    and chooses BLUE.  The call succeeds and the turn passes to player 1, but
    [pending_color] is absent in the state it leaves: [_advance_turn_with_skip]
    asks [get_top_card], which already substitutes the chosen colour, and so
    finds a top card that "is not wild" and drops the colour.  Player 1 is then
    offered RED-SKIP next to BLUE-3. *)
Theorem scenario_wild_play_forgets_color :
  let '(r, s') := apply_action shuffle_deck 0 "play" (Some Scenario.wild)
                    (Some Color.BLUE) Scenario.start in
  r = Ok true
  /\ current_player s' = 1
  /\ pending_color s' = None
  /\ get_legal_actions s' 1 =
       Ok [("play", Some Scenario.blue3); ("play", Some Scenario.red_skip);
           ("draw", None)].
Proof. vm_compute. repeat split. Qed.

(** C5: the scenario's own call hands [apply_action] a WILD card built on the
    spot.  It passes the legality test, which compares renderings, and then
    [list.remove], which compares objects, finds no such card in the hand:
    the call ends in [ValueError], with [pending_color] already assigned and
    the hand and the discard pile as they were. *)
Theorem equal_valued_card_is_not_removed :
  In Scenario.wild (concat (player_hands Scenario.start))
  /\ color Scenario.wild_built_at_call = color Scenario.wild
  /\ value Scenario.wild_built_at_call = value Scenario.wild
  /\ type Scenario.wild_built_at_call = type Scenario.wild
  /\ fst (apply_action shuffle_deck 0 "play" (Some Scenario.wild)
            (Some Color.BLUE) Scenario.start) = Ok true
  /\ apply_action shuffle_deck 0 "play" (Some Scenario.wild_built_at_call)
       (Some Color.BLUE) Scenario.start
     = (Raise ValueError, set_pending_color (Some Color.BLUE) Scenario.start).
Proof. vm_compute. intuition. Qed.

(** C4: a card that is not among the legal actions is not refused.  In the
    scenario player 0 submits [Card(Color.WILD, "WILD", CardType.WILD)] with
    BLUE: no hand holds the card, and neither of the two cards listed as PLAY
    has its colour, label and type.  It renders as the WILD of the hand does,
    so the legality test, which compares renderings, lets it pass;
    [pending_color] is assigned; and [list.remove] then raises [ValueError].
    The call does not return [False], and the state it leaves is not the state
    it was called on: [pending_color] has changed from absent to BLUE. *)
Theorem unlisted_card_is_not_refused :
  current_player Scenario.start = 0
  /\ get_legal_actions Scenario.start 0
     = Ok [("play", Some Scenario.red5); ("play", Some Scenario.wild); ("draw", None)]
  /\ ~ In Unlisted.wild (concat (player_hands Scenario.start))
  /\ face Unlisted.wild <> face Scenario.red5
  /\ face Unlisted.wild <> face Scenario.wild
  /\ str Unlisted.wild = str Scenario.wild
  /\ apply_action shuffle_deck 0 "play" (Some Unlisted.wild) (Some Color.BLUE)
       Scenario.start
     = (Raise ValueError, set_pending_color (Some Color.BLUE) Scenario.start)
  /\ pending_color Scenario.start = None
  /\ pending_color (set_pending_color (Some Color.BLUE) Scenario.start)
     = Some Color.BLUE
  /\ set_pending_color (Some Color.BLUE) Scenario.start <> Scenario.start.
Proof.
  repeat split; try (vm_compute; reflexivity); try discriminate.
  vm_compute. intuition discriminate.
Qed.

(** C3: player 0 plays the last card of the hand, which ends the game with
    player 0 as winner.  [draw_with_option] has no [game_over] test: called
    next by player 0, still the current player, it hands out the red 9 from
    the deck, reports it playable and records it as the drawn card. *)
Theorem draw_with_option_after_game_over :
  let '(r1, s1) := apply_action shuffle_deck 0 "play" (Some AfterWin.red5) None
                     AfterWin.start in
  let '(r2, s2) := draw_with_option shuffle_deck 0 s1 in
  r1 = Ok true
  /\ game_over s1 = true
  /\ winner s1 = Some 0
  /\ apply_action shuffle_deck 0 "draw" None None s1 = (Ok false, s1)
  /\ r2 = Ok (Some AfterWin.red9, Some true)
  /\ deck s1 = [AfterWin.yellow1; AfterWin.red9]
  /\ deck s2 = [AfterWin.yellow1]
  /\ player_hands s1 = [[]; [AfterWin.blue3; AfterWin.green7]]
  /\ player_hands s2 = [[AfterWin.red9]; [AfterWin.blue3; AfterWin.green7]]
  /\ last_drawn_card s2 = Some AfterWin.red9
  /\ can_play_drawn_card s2 = true.
Proof. vm_compute. repeat split. Qed.

(** *** The card model *)

(** X1: [matches] does not depend on the order of its two cards, every card
    matches itself, and a WILD-coloured card matches every card. *)
Theorem matches_symmetric (a b : Card) :
  matches a b = matches b a
  /\ matches a a = true
  /\ (color a = Color.WILD -> matches a b = true).
Proof.
  unfold matches. split; [|split].
  - rewrite (orb_comm (bool_decide (color a = Color.WILD))).
    rewrite (String.eqb_sym (value a)).
    destruct (bool_decide (color b = Color.WILD) || bool_decide (color a = Color.WILD));
      [reflexivity|].
    f_equal. apply bool_decide_ext. split; congruence.
  - rewrite (bool_decide_eq_true_2 (color a = color a)) by reflexivity.
    now destruct (_ || _).
  - intros ->. reflexivity.
Qed.

Lemma create_deck_oids base :
  map oid (create_deck base) = map (Nat.add base) (seq 0 108).
Proof. reflexivity. Qed.

(** X2: whatever address it starts at, [create_deck] builds 108 distinct
    card objects: for each of the four colours one "0", two each of "1" to
    "9" and two each of SKIP, REVERSE and DRAW_TWO, and four WILD and four
    WILD_DRAW_FOUR; a card of the deck is WILD-coloured exactly when its type
    is WILD or WILD_DRAW_FOUR. *)
Theorem create_deck_composition (base : nat) :
  length (create_deck base) = 108%nat
  /\ Forall (fun c =>
               copies (create_deck base) c "0" CardType.NUMBER = 1%nat
               /\ Forall (fun num =>
                            copies (create_deck base) c (str_int num) CardType.NUMBER
                            = 2%nat)
                         (range2 1 10)
               /\ copies (create_deck base) c "SK" CardType.SKIP = 2%nat
               /\ copies (create_deck base) c "RV" CardType.REVERSE = 2%nat
               /\ copies (create_deck base) c "+2" CardType.DRAW_TWO = 2%nat)
            real_colors
  /\ copies (create_deck base) Color.WILD "W" CardType.WILD = 4%nat
  /\ copies (create_deck base) Color.WILD "+4" CardType.WILD_DRAW_FOUR = 4%nat
  /\ Forall (fun card => bool_decide (color card = Color.WILD) = is_wild_type card)
            (create_deck base)
  /\ NoDup (map oid (create_deck base)).
Proof.
  split; [reflexivity|]. split; [|split; [reflexivity|split; [reflexivity|split]]].
  - repeat (apply Forall_cons; split;
            [repeat split; try reflexivity; repeat constructor|]).
    apply Forall_nil_2.
  - assert (H : forallb (fun card => Bool.eqb (bool_decide (color card = Color.WILD))
                                              (is_wild_type card))
                        (create_deck base) = true) by reflexivity.
    rewrite forallb_forall in H. apply List.Forall_forall. intros card Hin.
    apply eqb_prop, H, Hin.
  - rewrite create_deck_oids.
    assert (Hinj : Inj eq eq (Nat.add base)) by (intros x y H; lia).
    apply (NoDup_fmap_2 (Nat.add base)), NoDup_seq.
Qed.

(** X3: among cards of the deck [__str__] shows all there is to a card: two
    deck cards have the same rendering only if they have the same colour,
    label and type. *)
Theorem str_tells_deck_cards_apart (base1 base2 : nat) (card1 card2 : Card) :
  In card1 (create_deck base1) ->
  In card2 (create_deck base2) ->
  str card1 = str card2 ->
  face card1 = face card2.
Proof.
  intros H1 H2 Hs.
  pose (render := fun f : Color.t * string * CardType.t =>
                    str (mkCard 0 (fst (fst f)) (snd (fst f)) (snd f))).
  assert (Hr : forall c, str c = render (face c)) by (intros [o c v t]; reflexivity).
  assert (Hf : forall b c, In c (create_deck b) -> In (face c) (map face (create_deck 0%nat))).
  { intros b c Hin. change (map face (create_deck 0%nat)) with (map face (create_deck b)).
    now apply in_map. }
  apply (Hf base1) in H1. apply (Hf base2) in H2. rewrite !Hr in Hs.
  assert (Hall : forallb (fun f1 =>
                   forallb (fun f2 =>
                     implb (String.eqb (render f1) (render f2)) (bool_decide (f1 = f2)))
                     (map face (create_deck 0%nat)))
                   (map face (create_deck 0%nat)) = true) by (vm_compute; reflexivity).
  rewrite forallb_forall in Hall. specialize (Hall _ H1).
  rewrite forallb_forall in Hall. specialize (Hall _ H2).
  apply String.eqb_eq in Hs. rewrite Hs in Hall. cbn in Hall.
  now apply bool_decide_eq_true in Hall.
Qed.

(** *** What an accepted play does *)

Lemma hand_remove_inv p card s a s' :
  hand_remove p card s = (Ok a, s') ->
  exists k hand hand',
    py_index (player_hands s) p = Some k
    /\ player_hands s !! k = Some hand
    /\ list_remove card hand = Ok hand'
    /\ s' = set_player_hands (<[k:=hand']> (player_hands s)) s.
Proof.
  unfold hand_remove. run.
  destruct (getitem (player_hands s) p) as [hand|] eqn:Hg; cbn; [|discriminate].
  destruct (list_remove card hand) as [hand'|] eqn:Hr; cbn; [|discriminate].
  destruct (getitem_Ok _ _ _ Hg) as (k & Hk & Hl).
  rewrite (setitem_index _ _ _ _ Hk). cbn. intros [= _ <-].
  exists k, hand, hand'. auto.
Qed.

Lemma hand_len_inv p s n s' :
  hand_len p s = (Ok n, s') ->
  s' = s /\ exists hand, getitem (player_hands s) p = Ok hand /\ n = length hand.
Proof.
  unfold hand_len. run.
  destruct (getitem (player_hands s) p) as [hand|]; cbn; [|discriminate].
  intros [= <- <-]. eauto.
Qed.

Lemma getitem_insert {A} (l : list A) i k x :
  py_index l i = Some k -> getitem (<[k:=x]> l) i = Ok x.
Proof.
  intros Hk. apply getitem_index with k.
  - now rewrite py_index_insert.
  - apply list_lookup_insert_eq. eapply py_index_lt, Hk.
Qed.

Lemma setitem_Ok {A} (l l' : list A) i x :
  setitem l i x = Ok l' -> exists k, py_index l i = Some k /\ l' = <[k:=x]> l.
Proof.
  unfold setitem. destruct (py_index l i) as [k|]; [|discriminate].
  intros [= <-]. eauto.
Qed.

(** [_advance_turn_with_skip], when it returns: the pointer moves one step,
    or two when [skip_next] was set, which it clears; the turn is counted; a
    pending colour that is not the WILD sentinel does not survive a card on
    the discard pile. *)
Lemma _advance_turn_with_skip_inv s a s' :
  _advance_turn_with_skip s = (Ok a, s') ->
  num_players s <> 0
  /\ exists pc',
       s' = set_pending_color pc'
              (set_turn_count (turn_count s + 1)
                 (set_skip_next false
                    (set_current_player
                       (if skip_next s
                        then step (num_players s) (direction s)
                               (step (num_players s) (direction s) (current_player s))
                        else step (num_players s) (direction s) (current_player s))
                       s)))
       /\ (pc' = None
           \/ (pc' = pending_color s
               /\ (pending_color s = Some Color.WILD \/ discard_pile s = []))).
Proof.
  intros H. destruct a.
  assert (Hn : num_players s <> 0).
  { intros E. apply Z.eqb_eq in E. revert H.
    unfold _advance_turn_with_skip, py_mod. run.
    destruct (skip_next s); cbn; rewrite ?E; cbn; discriminate. }
  split; [exact Hn|].
  assert (Hdrop : pending_color s' = None
                  \/ pending_color s = Some Color.WILD \/ discard_pile s = []).
  { destruct (decide (pending_color s = Some Color.WILD)) as [|Hw]; [auto|].
    destruct (discard_pile s) eqn:Hd; [auto|]. left.
    apply (_advance_turn_with_skip_drops_color s s' H Hw). rewrite Hd. discriminate. }
  revert H Hdrop. unfold _advance_turn_with_skip, py_mod, step. run.
  apply Z.eqb_neq in Hn.
  destruct s as [n cp dir go w dpc sk pc0 ldc cpd dk dp ph tc pu]; cbn in *.
  destruct sk; cbn; rewrite ?Hn; cbn; rewrite ?Hn; cbn;
    destruct pc0 as [pc|]; cbn;
    try (match goal with
         | |- context [get_top_card ?st] => destruct (get_top_card st) as [t|]
         end; cbn; [destruct (bool_decide (color t = Color.WILD)); cbn|]);
    intros [= <-]; cbn; intros Hdrop;
    eexists; (split; [reflexivity|]); cbn; intuition congruence.
Qed.

(** Brings in what the helper calls met along an accepted play have done. *)
Ltac use_inv :=
  repeat match goal with
    | H : hand_remove _ _ _ = (Ok _, _) |- _ =>
        apply hand_remove_inv in H as (?k & ?hand & ?hand' & ?Hk & ?Hh & ?Hr & ->)
    | H : hand_len _ _ = (Ok _, _) |- _ =>
        apply hand_len_inv in H as (-> & ?hand0 & ?Hg & ->)
    | H : _advance_turn_with_skip _ = (Ok _, _) |- _ =>
        apply _advance_turn_with_skip_inv in H as (?Hn & ?pc' & -> & ?Hpc)
    | H : setitem _ _ _ = Ok _ |- _ =>
        apply setitem_Ok in H as (?ku & ?Hku & ->)
    end;
  cbn in *;
  repeat match goal with
    | H : getitem (<[?k:=?x]> ?l) ?p = Ok ?h, Hk : py_index ?l ?p = Some ?k |- _ =>
        rewrite (getitem_insert l p k x Hk) in H; injection H as <-
    | H : (_ =? _)%nat = true |- _ => apply Nat.eqb_eq in H
    | H : (_ =? _)%nat = false |- _ => apply Nat.eqb_neq in H
    end.

(** Settles one component of [play_outcome] on an explicit state. *)
Ltac field :=
  cbn; unfold penalty, direction_after, skips, step;
  repeat match goal with
    | H : type _ = _ |- _ => rewrite H
    | H : (_ =? _) = _ |- _ => rewrite H
    | H : is_wild_type _ = _ |- _ => rewrite H
    end;
  cbn; rewrite ?orb_true_r, ?orb_false_r;
  first [ reflexivity | assumption | lia | congruence
        | intros; congruence
        | repeat match goal with
            | |- context [if ?b then _ else _] => destruct b; cbn
            end; first [reflexivity | lia | congruence] ].

Ltac pending_case :=
  match goal with
  | Hpc : _ = None \/ _ |- _ =>
      destruct Hpc as [-> | (-> & [Hw | Hd])];
      [ left; reflexivity
      | first [ right; split; [exact Hw|cbn; exact Hw]
              | exfalso; rewrite Hw in *; cbn in *; discriminate ]
      | exfalso; apply app_eq_nil in Hd as [_ Hd]; discriminate Hd ]
  end.

Ltac outcome :=
  unfold play_outcome; do 3 eexists;
  (split; [reflexivity|]);
  (split; [eassumption|]);
  (split; [eassumption|]);
  (split; [eassumption|]);
  do 7 (split; [field|]);
  split;
  [ first [ left; split; [assumption|reflexivity]
          | right; split; [assumption|]; eexists; split; [eassumption|reflexivity] ]
  | first [ left; split; [now apply length_zero_iff_nil|]; repeat (split; [field|]); field
          | right; split; [now intros ->|];
            do 5 (split; [field|]); split; [field|pending_case] ] ].

Lemma apply_action_play_outcome p card chosen_color s s' :
  apply_action shuffle_deck p "play" (Some card) chosen_color s = (Ok true, s') ->
  game_over s = false
  /\ (exists legal_actions,
        get_legal_actions s p = Ok legal_actions /\ listed legal_actions card = true)
  /\ last_drawn_card s' = last_drawn_card s
  /\ can_play_drawn_card s' = can_play_drawn_card s
  /\ play_outcome p card chosen_color s s'.
Proof.
  unfold apply_action, _apply_special_effect. run.
  destruct (game_over s) eqn:Hgo; [discriminate|].
  destruct (Z.eqb_spec p (current_player s)) as [->|]; cbn; [|discriminate].
  destruct (get_legal_actions s (current_player s)) as [legal|] eqn:Hlegal; cbn;
    [|discriminate].
  destruct (listed legal card) eqn:Hlisted; cbn; [|discriminate].
  crunch; intros [= <-]; use_inv;
    (split; [reflexivity|]); (split; [eauto|]);
    (split; [reflexivity|]); (split; [reflexivity|]); outcome.
Qed.

Lemma play_drawn_card_outcome p chosen_color s s' :
  play_drawn_card p chosen_color s = (Ok true, s') ->
  exists card,
    last_drawn_card s = Some card
    /\ can_play_drawn_card s = true
    /\ last_drawn_card s' = None
    /\ can_play_drawn_card s' = false
    /\ play_outcome p card chosen_color s s'.
Proof.
  unfold play_drawn_card, _apply_special_effect. run.
  destruct (Z.eqb_spec p (current_player s)) as [->|]; cbn; [|discriminate].
  destruct (last_drawn_card s) as [card|] eqn:Hlast; cbn; [|discriminate].
  destruct (can_play_drawn_card s) eqn:Hcan; cbn; [|discriminate].
  crunch; intros [= <-]; use_inv; exists card;
    (split; [reflexivity|]); (split; [reflexivity|]);
    (split; [reflexivity|]); (split; [reflexivity|]); outcome.
Qed.

Lemma list_remove_split card hand hand' :
  list_remove card hand = Ok hand' ->
  exists before after,
    hand = before ++ card :: after /\ hand' = before ++ after /\ ~ In card before.
Proof.
  revert hand'. induction hand as [|y r IH]; cbn; intros hand' H; [discriminate|].
  case_bool_decide as E.
  - injection H as <-. subst y. exists [], r. auto.
  - destruct (list_remove card r) as [r'|]; [|discriminate].
    injection H as <-. destruct (IH r' eq_refl) as (b & a & -> & -> & Hn).
    exists (y :: b), a. repeat split. intros [->|Hin]; [now apply E|now apply Hn].
Qed.

(** X4: a play that [apply_action] or [play_drawn_card] accepts takes the
    first occurrence of the card object out of the current player's hand,
    keeping the order of the rest, and puts it on top of the discard pile;
    the deck and the other hands are as before. *)
Theorem accepted_play_moves_the_card p card chosen_color s s' :
  apply_action shuffle_deck p "play" (Some card) chosen_color s = (Ok true, s')
  \/ (last_drawn_card s = Some card
      /\ play_drawn_card p chosen_color s = (Ok true, s')) ->
  exists k before after,
    p = current_player s
    /\ py_index (player_hands s) p = Some k
    /\ player_hands s !! k = Some (before ++ card :: after)
    /\ ~ In card before
    /\ player_hands s' = <[k:=before ++ after]> (player_hands s)
    /\ discard_pile s' = discard_pile s ++ [card]
    /\ deck s' = deck s.
Proof.
  intros H.
  assert (Ho : play_outcome p card chosen_color s s').
  { destruct H as [H | [Hl H]].
    - now apply apply_action_play_outcome in H.
    - apply play_drawn_card_outcome in H as (c & Hc & _ & _ & _ & Ho).
      rewrite Hl in Hc. now injection Hc as <-. }
  destruct Ho as (k & hand & hand' & Hp & Hk & Hh & Hr & _ & Hd & Hdp & Hph & _).
  destruct (list_remove_split _ _ _ Hr) as (b & a & -> & -> & Hn).
  exists k, b, a. auto 10.
Qed.

Lemma accepted_outcome p card chosen_color s s' :
  apply_action shuffle_deck p "play" (Some card) chosen_color s = (Ok true, s')
  \/ (last_drawn_card s = Some card
      /\ play_drawn_card p chosen_color s = (Ok true, s')) ->
  play_outcome p card chosen_color s s'.
Proof.
  intros [H | [Hl H]].
  - now apply apply_action_play_outcome in H.
  - apply play_drawn_card_outcome in H as (c & Hc & _ & _ & _ & Ho).
    rewrite Hl in Hc. now injection Hc as <-.
Qed.

(** X5: an accepted play either empties the hand, and then the game is over
    with the player as winner and the turn pointer and the turn counter stay
    where they were, or it leaves cards in the hand, and then the turn is
    counted, [skip_next] is clear and [game_over] and [winner] are untouched.
    The player's UNO flag is set when exactly one card is left, and the flags
    are untouched otherwise. *)
Theorem accepted_play_wins_or_passes p card chosen_color s s' :
  apply_action shuffle_deck p "play" (Some card) chosen_color s = (Ok true, s')
  \/ (last_drawn_card s = Some card
      /\ play_drawn_card p chosen_color s = (Ok true, s')) ->
  exists hand',
    getitem (player_hands s') p = Ok hand'
    /\ ((hand' = []
         /\ game_over s' = true
         /\ winner s' = Some p
         /\ current_player s' = current_player s
         /\ turn_count s' = turn_count s)
        \/ (hand' <> []
            /\ game_over s' = game_over s
            /\ winner s' = winner s
            /\ turn_count s' = turn_count s + 1
            /\ skip_next s' = false))
    /\ ((length hand' = 1%nat /\ getitem (players_uno s') p = Ok true)
        \/ (length hand' <> 1%nat /\ players_uno s' = players_uno s)).
Proof.
  intros H. apply accepted_outcome in H.
  destruct H as (k & hand & hand' & Hp & Hk & Hh & Hr & _ & _ & _ & Hph & _ & _ & _
                 & Huno & Hend).
  exists hand'. split; [rewrite Hph; now apply getitem_insert|]. split.
  - destruct Hend as [(? & ? & ? & ? & ? & _) | (? & ? & ? & ? & ? & _)]; [left|right];
      auto.
  - destruct Huno as [(? & ?) | (? & ku & Hku & Hu)]; [right; auto|left].
    split; [assumption|]. rewrite Hu. now apply getitem_insert.
Qed.

Lemma accepted_play_turn_order_aux p card chosen_color s s' hand' :
  apply_action shuffle_deck p "play" (Some card) chosen_color s = (Ok true, s')
  \/ (last_drawn_card s = Some card
      /\ play_drawn_card p chosen_color s = (Ok true, s')) ->
  getitem (player_hands s') p = Ok hand' ->
  hand' <> [] ->
  direction s' = (if bool_decide (type card = CardType.REVERSE)
                  then direction s * -1 else direction s)
  /\ current_player s'
     = (if skip_next s
           || bool_decide (type card = CardType.SKIP)
           || (bool_decide (type card = CardType.REVERSE) && (num_players s =? 2))
        then ((current_player s + direction s') mod num_players s + direction s')
             mod num_players s
        else (current_player s + direction s') mod num_players s).
Proof.
  intros H Hg Hne. apply accepted_outcome in H.
  destruct H as (k & hand & h' & Hp & Hk & Hh & Hr & _ & _ & _ & Hph & _ & _ & Hdir
                 & _ & Hend).
  rewrite Hph, (getitem_insert _ _ _ h' Hk) in Hg. injection Hg as ->.
  destruct Hend as [(? & _) | (_ & _ & _ & _ & _ & _ & Hcp & _)]; [contradiction|].
  split; [exact Hdir|]. rewrite Hcp, Hdir. unfold skips, step.
  now rewrite orb_assoc.
Qed.

(** X6: where an accepted play that leaves cards in the hand passes the turn.
    The direction is flipped by a REVERSE and kept by every other card; the
    pointer moves one step in the resulting direction, and a second step when
    [skip_next] was set before or the card is a SKIP or, in a two-player game,
    a REVERSE. *)
Theorem accepted_play_turn_order p card chosen_color s s' hand' :
  apply_action shuffle_deck p "play" (Some card) chosen_color s = (Ok true, s')
  \/ (last_drawn_card s = Some card
      /\ play_drawn_card p chosen_color s = (Ok true, s')) ->
  getitem (player_hands s') p = Ok hand' ->
  hand' <> [] ->
  direction s' = (if bool_decide (type card = CardType.REVERSE)
                  then direction s * -1 else direction s)
  /\ current_player s'
     = (if skip_next s
           || bool_decide (type card = CardType.SKIP)
           || (bool_decide (type card = CardType.REVERSE) && (num_players s =? 2))
        then ((current_player s + direction s') mod num_players s + direction s')
             mod num_players s
        else (current_player s + direction s') mod num_players s).
Proof. apply accepted_play_turn_order_aux. Qed.

(** X7: in a two-player game an accepted SKIP or REVERSE that leaves cards
    in the hand brings the turn back to the player who played it; REVERSE
    and SKIP move the pointer alike. *)
Theorem two_player_skip_and_reverse p card chosen_color s s' hand' :
  apply_action shuffle_deck p "play" (Some card) chosen_color s = (Ok true, s')
  \/ (last_drawn_card s = Some card
      /\ play_drawn_card p chosen_color s = (Ok true, s')) ->
  getitem (player_hands s') p = Ok hand' ->
  hand' <> [] ->
  num_players s = 2 ->
  0 <= current_player s < 2 ->
  type card = CardType.SKIP \/ type card = CardType.REVERSE ->
  current_player s' = current_player s.
Proof.
  intros H Hg Hne Hn Hcp Ht.
  destruct (accepted_play_turn_order_aux p card chosen_color s s' hand' H Hg Hne)
    as [_ Hc].
  rewrite Hc, Hn.
  replace (skip_next s || bool_decide (type card = CardType.SKIP)
           || bool_decide (type card = CardType.REVERSE) && (2 =? 2)) with true.
  2:{ destruct Ht as [-> | ->]; cbn; now rewrite ?orb_true_r. }
  rewrite Zplus_mod_idemp_l.
  replace (current_player s + direction s' + direction s')
    with (current_player s + direction s' * 2) by lia.
  rewrite Z_mod_plus_full. now apply Z.mod_small.
Qed.

(** X8: no pending colour outlives a play that passes the turn.  After an
    accepted play that leaves cards in the hand, of a wild card with its
    chosen colour as of any other card, [pending_color] is absent, provided
    it was not the WILD sentinel before, which the tests on [chosen_color]
    never store. *)
Theorem pending_color_does_not_outlive_the_play p card chosen_color s s' hand' :
  apply_action shuffle_deck p "play" (Some card) chosen_color s = (Ok true, s')
  \/ (last_drawn_card s = Some card
      /\ play_drawn_card p chosen_color s = (Ok true, s')) ->
  getitem (player_hands s') p = Ok hand' ->
  hand' <> [] ->
  pending_color s <> Some Color.WILD ->
  pending_color s' = None.
Proof.
  intros H Hg Hne Hw. apply accepted_outcome in H.
  destruct H as (k & hand & h' & Hp & Hk & Hh & Hr & _ & _ & _ & Hph & _ & _ & _
                 & _ & Hend).
  rewrite Hph, (getitem_insert _ _ _ h' Hk) in Hg. injection Hg as ->.
  destruct Hend as [(? & _) | (_ & _ & _ & _ & _ & _ & _ & [Hpc | [Hpc _]])];
    [contradiction|exact Hpc|contradiction].
Qed.

(** *** Listed plays are accepted *)

Lemma hand_remove_ok p card s k hand hand' :
  py_index (player_hands s) p = Some k ->
  player_hands s !! k = Some hand ->
  list_remove card hand = Ok hand' ->
  hand_remove p card s = (Ok tt, set_player_hands (<[k:=hand']> (player_hands s)) s).
Proof.
  intros Hk Hh Hr. unfold hand_remove. run.
  rewrite (getitem_index _ _ _ _ Hk Hh). cbn. rewrite Hr. cbn.
  now rewrite (setitem_index _ _ _ _ Hk).
Qed.

Lemma hand_len_ok p s hand :
  getitem (player_hands s) p = Ok hand -> hand_len p s = (Ok (length hand), s).
Proof. intros H. unfold hand_len. run. now rewrite H. Qed.

Lemma list_remove_In card hand :
  In card hand -> exists hand', list_remove card hand = Ok hand'.
Proof.
  induction hand as [|y r IH]; cbn; [intros []|]. intros H.
  case_bool_decide as E; [eauto|].
  destruct H as [->|H]; [contradiction|].
  destruct (IH H) as (r' & ->). eauto.
Qed.

Lemma _advance_turn_with_skip_total s :
  num_players s <> 0 -> exists s', _advance_turn_with_skip s = (Ok tt, s').
Proof.
  intros Hn. apply Z.eqb_neq in Hn.
  destruct (_advance_turn_with_skip s) as [[[]|e] s'] eqn:E; [eauto|exfalso].
  revert E. unfold _advance_turn_with_skip, py_mod. run.
  destruct (skip_next s); cbn; rewrite ?Hn; cbn; rewrite ?Hn; cbn;
    destruct (pending_color s); cbn; try discriminate;
    match goal with
    | |- context [get_top_card ?st] => destruct (get_top_card st) as [top|]
    end; cbn; try discriminate;
    destruct (bool_decide (color top = Color.WILD)); discriminate.
Qed.

Lemma legal_play_in_hand s p legal_actions card :
  get_legal_actions s p = Ok legal_actions ->
  In ("play", Some card) legal_actions ->
  exists hand, getitem (player_hands s) p = Ok hand /\ In card hand.
Proof.
  unfold get_legal_actions.
  destruct (getitem (player_hands s) p) as [hand|];
    [|destruct (0 <? draw_pile_count s); discriminate].
  destruct (0 <? draw_pile_count s); intros [= <-] Hin;
    apply In_play_filter in Hin as [Hin _]; eauto.
Qed.

Lemma listed_In legal_actions card :
  In ("play", Some card) legal_actions -> listed legal_actions card = true.
Proof.
  intros H. unfold listed. apply existsb_exists.
  exists ("play", Some card). split; [exact H|]. cbn. apply String.eqb_refl.
Qed.

Lemma real_color_valid chosen_color :
  (exists c, chosen_color = Some c /\ In c real_colors) ->
  invalid_choice chosen_color = false.
Proof.
  intros (c & -> & Hc). unfold real_colors in Hc. cbn in Hc.
  destruct Hc as [<- | [<- | [<- | [<- | []]]]]; reflexivity.
Qed.

(** Contradicts a helper call that is supposed to have raised. *)
Ltac refute Hku :=
  exfalso;
  match goal with
  | H : hand_remove _ _ _ = (Raise _, _) |- _ =>
      erewrite hand_remove_ok in H by (cbn; eassumption); discriminate H
  | H : hand_len _ _ = (Raise _, _) |- _ =>
      erewrite hand_len_ok in H by (cbn; apply getitem_insert; eassumption);
      discriminate H
  | H : setitem _ _ _ = Raise _ |- _ =>
      cbn in H; rewrite (setitem_index _ _ _ _ Hku) in H; discriminate H
  | H : _advance_turn_with_skip ?st = (Raise _, _) |- _ =>
      let E := fresh in
      destruct (_advance_turn_with_skip_total st) as [? E];
      [cbn; assumption|rewrite E in H; discriminate H]
  end.

Lemma wild_needs_real_color card chosen_color :
  (type card = CardType.WILD \/ type card = CardType.WILD_DRAW_FOUR ->
   exists c, chosen_color = Some c /\ In c real_colors) ->
  is_wild_type card && invalid_choice chosen_color = false.
Proof.
  intros Hcol. destruct (is_wild_type card) eqn:E; [|reflexivity]. cbn.
  apply real_color_valid, Hcol. unfold is_wild_type in E.
  apply orb_prop in E as [E|E]; apply bool_decide_eq_true in E; auto.
Qed.

Lemma apply_action_accepts s legal_actions card chosen_color :
  game_over s = false ->
  num_players s <> 0 ->
  length (players_uno s) = length (player_hands s) ->
  get_legal_actions s (current_player s) = Ok legal_actions ->
  In ("play", Some card) legal_actions ->
  is_wild_type card && invalid_choice chosen_color = false ->
  exists s',
    apply_action shuffle_deck (current_player s) "play" (Some card) chosen_color s
    = (Ok true, s').
Proof.
  intros Hgo Hn Huno Hlegal Hin Hwild.
  destruct (legal_play_in_hand _ _ _ _ Hlegal Hin) as (hand & Hg & Hcard).
  destruct (getitem_Ok _ _ _ Hg) as (k & Hk & Hh).
  destruct (list_remove_In _ _ Hcard) as (hand' & Hr).
  assert (Hku : py_index (players_uno s) (current_player s) = Some k)
    by now rewrite (py_index_length _ (player_hands s)).
  unfold apply_action, _apply_special_effect. run.
  rewrite Hgo. cbn. rewrite Z.eqb_refl. cbn. rewrite Hlegal. cbn.
  rewrite (listed_In _ _ Hin). cbn. rewrite Hwild.
  crunch; try (eexists; reflexivity); use_inv; refute Hku.
Qed.

Lemma play_drawn_card_accepts s card chosen_color hand :
  last_drawn_card s = Some card ->
  can_play_drawn_card s = true ->
  getitem (player_hands s) (current_player s) = Ok hand ->
  In card hand ->
  num_players s <> 0 ->
  length (players_uno s) = length (player_hands s) ->
  is_wild_type card && invalid_choice chosen_color = false ->
  exists s', play_drawn_card (current_player s) chosen_color s = (Ok true, s').
Proof.
  intros Hl Hc Hg Hcard Hn Huno Hwild.
  destruct (getitem_Ok _ _ _ Hg) as (k & Hk & Hh).
  destruct (list_remove_In _ _ Hcard) as (hand' & Hr).
  assert (Hku : py_index (players_uno s) (current_player s) = Some k)
    by now rewrite (py_index_length _ (player_hands s)).
  unfold play_drawn_card, _apply_special_effect. run.
  rewrite Z.eqb_refl. cbn. rewrite Hl, Hc. cbn. rewrite Hwild.
  crunch; try (eexists; reflexivity); use_inv; refute Hku.
Qed.

(** X9: every PLAY that [get_legal_actions] lists for the current player of
    a game in progress is accepted by [apply_action] when it is submitted with
    the listed card object and, for a WILD or WILD_DRAW_FOUR, one of the four
    real colours. *)
Theorem listed_play_is_accepted s legal_actions card chosen_color :
  game_over s = false ->
  num_players s <> 0 ->
  length (players_uno s) = length (player_hands s) ->
  get_legal_actions s (current_player s) = Ok legal_actions ->
  In ("play", Some card) legal_actions ->
  (type card = CardType.WILD \/ type card = CardType.WILD_DRAW_FOUR ->
   exists c, chosen_color = Some c /\ In c real_colors) ->
  exists s',
    apply_action shuffle_deck (current_player s) "play" (Some card) chosen_color s
    = (Ok true, s').
Proof.
  intros Hgo Hn Huno Hlegal Hin Hcol.
  eapply apply_action_accepts; eauto using wild_needs_real_color.
Qed.

(** *** Drawing, further *)

Lemma list_remove_last card hand :
  ~ In card hand -> list_remove card (hand ++ [card]) = Ok hand.
Proof.
  induction hand as [|y r IH]; cbn; intros Hn.
  - now rewrite bool_decide_eq_true_2.
  - rewrite bool_decide_eq_false_2 by (intros ->; apply Hn; now left).
    rewrite IH; [reflexivity|]. intros H. apply Hn. now right.
Qed.

(** X10: drawing a playable card and playing it with [play_drawn_card] is a
    round trip for the hand.  With no chain pending, [draw_with_option] hands
    the current player the last card of the deck; when that card passes the
    legality test and is not already in the hand, [play_drawn_card] (with a
    real colour for a wild card) is accepted, the hand is as it was before the
    draw, the card lies on top of the discard pile and the drawn-card record is
    clear. *)
Theorem draw_then_play_drawn_card s d card hand chosen_color :
  draw_pile_count s = 0 ->
  deck s = d ++ [card] ->
  getitem (player_hands s) (current_player s) = Ok hand ->
  ~ In card hand ->
  playable s card = true ->
  (type card = CardType.WILD \/ type card = CardType.WILD_DRAW_FOUR ->
   exists c, chosen_color = Some c /\ In c real_colors) ->
  num_players s <> 0 ->
  length (players_uno s) = length (player_hands s) ->
  exists s1 s2,
    draw_with_option shuffle_deck (current_player s) s = (Ok (Some card, Some true), s1)
    /\ play_drawn_card (current_player s) chosen_color s1 = (Ok true, s2)
    /\ getitem (player_hands s2) (current_player s) = Ok hand
    /\ discard_pile s2 = discard_pile s ++ [card]
    /\ deck s2 = d
    /\ last_drawn_card s2 = None
    /\ can_play_drawn_card s2 = false.
Proof.
  intros Hdpc Hdeck Hg Hnin Hplay Hcol Hn Huno.
  destruct (getitem_Ok _ _ _ Hg) as (k & Hk & Hh).
  pose (s0 := set_player_hands (<[k:=hand ++ [card]]> (player_hands s)) (set_deck d s)).
  pose (s1 := set_can_play_drawn_card true (set_last_drawn_card (Some card) s0)).
  assert (Hdraw : draw_with_option shuffle_deck (current_player s) s
                  = (Ok (Some card, Some true), s1)).
  { unfold draw_with_option. run. rewrite Z.eqb_refl. cbn. rewrite Hdpc. cbn.
    rewrite (draw_card_from_deck s (current_player s) k hand d card) by assumption.
    fold s0. fold (playable s0 card).
    rewrite (playable_ext s0 s card) by reflexivity. rewrite Hplay. reflexivity. }
  assert (Hk1 : py_index (player_hands s1) (current_player s) = Some k)
    by (cbn; now rewrite py_index_insert).
  assert (Hh1 : player_hands s1 !! k = Some (hand ++ [card]))
    by (cbn; apply list_lookup_insert_eq; eapply py_index_lt, Hk).
  assert (Hr : list_remove card (hand ++ [card]) = Ok hand)
    by now apply list_remove_last.
  assert (Hacc : exists s2,
             play_drawn_card (current_player s) chosen_color s1 = (Ok true, s2)).
  { apply (play_drawn_card_accepts s1 card chosen_color (hand ++ [card])).
    - reflexivity.
    - reflexivity.
    - now apply (getitem_index _ _ k).
    - apply in_or_app. right. now left.
    - exact Hn.
    - cbn. now rewrite length_insert.
    - now apply wild_needs_real_color. }
  destruct Hacc as (s2 & Hacc). exists s1, s2.
  split; [exact Hdraw|]. split; [exact Hacc|].
  apply play_drawn_card_outcome in Hacc
    as (c & Hc & _ & Hl2 & Hc2 & (k' & h & h' & _ & Hk' & Hh' & Hr' & _ & Hd2 & Hdp2
                                    & Hph2 & _)).
  injection Hc as <-. rewrite Hk1 in Hk'. injection Hk' as <-.
  rewrite Hh1 in Hh'. injection Hh' as <-. rewrite Hr in Hr'. injection Hr' as <-.
  repeat split; try assumption.
  - rewrite Hph2. now apply getitem_insert.
Qed.

(** X11: the four ways [draw_card] ends.  With a card in the deck the player
    gets the last one and the discard pile is untouched.  With the deck empty
    and more than one card discarded, the discard pile below its top card is
    shuffled into the deck first and the top card alone stays.  With the deck
    empty and at most one card discarded nothing is drawn and nothing changes.
    For a player index that has no hand the call raises [IndexError] after the
    card has left the deck, so that card is lost. *)
Theorem draw_card_cases s p :
  (forall d card hand,
      deck s = d ++ [card] ->
      getitem (player_hands s) p = Ok hand ->
      exists s', draw_card shuffle_deck p s = (Ok (Some card), s')
                 /\ getitem (player_hands s') p = Ok (hand ++ [card])
                 /\ deck s' = d
                 /\ discard_pile s' = discard_pile s)
  /\ (forall rest top_card hand,
        deck s = [] ->
        discard_pile s = rest ++ [top_card] ->
        rest <> [] ->
        getitem (player_hands s) p = Ok hand ->
        exists d' card s',
          draw_card shuffle_deck p s = (Ok (Some card), s')
          /\ shuffle_deck rest = d' ++ [card]
          /\ getitem (player_hands s') p = Ok (hand ++ [card])
          /\ deck s' = d'
          /\ discard_pile s' = [top_card])
  /\ (deck s = [] ->
      (length (discard_pile s) <= 1)%nat ->
      draw_card shuffle_deck p s = (Ok None, s))
  /\ (forall d card,
        deck s = d ++ [card] ->
        py_index (player_hands s) p = None ->
        draw_card shuffle_deck p s = (Raise IndexError, set_deck d s)).
Proof.
  split; [|split; [|split]].
  - intros d card hand Hd Hg. destruct (getitem_Ok _ _ _ Hg) as (k & Hk & Hh).
    eexists. split; [now apply (draw_card_from_deck s p k hand d card)|].
    cbn. split; [now apply getitem_insert|]. auto.
  - intros rest top_card hand Hdeck Hd Hr Hg.
    destruct (getitem_Ok _ _ _ Hg) as (k & Hk & Hh).
    assert (Hsh : shuffle_deck rest <> []).
    { intros E. apply Hr. apply length_zero_iff_nil.
      now rewrite <- shuffle_deck_length, E. }
    destruct (exists_last Hsh) as (d' & card & Hs).
    exists d', card. eexists. split; [|split; [exact Hs|]].
    + unfold draw_card. run. rewrite Hdeck. cbn.
      rewrite (_reshuffle_deck_spec s rest top_card Hd Hr). cbn.
      rewrite (bool_decide_eq_true_2 _ Hsh), Hs, pop_snoc. cbn.
      rewrite (hand_append_ok _ p k hand card) by assumption. reflexivity.
    + cbn. split; [now apply getitem_insert|]. auto.
  - intros Hdeck Hshort. unfold draw_card. run. rewrite Hdeck. cbn.
    rewrite _reshuffle_deck_short by exact Hshort. now rewrite Hdeck.
  - intros d card Hd Hk. unfold draw_card. run. rewrite Hd.
    assert (Hne : d ++ [card] <> []) by (intros E; destruct d; discriminate).
    rewrite !(bool_decide_eq_true_2 _ Hne). cbn.
    rewrite Hd, !(bool_decide_eq_true_2 _ Hne), pop_snoc. cbn.
    unfold hand_append, getitem. run. now rewrite Hk.
Qed.

Lemma range_length k : length (range k) = Z.to_nat k.
Proof. unfold range. now rewrite length_map, length_seq. Qed.

(** The ways [draw_with_option] ends for the current player. *)
Lemma draw_with_option_cases s k hand :
  py_index (player_hands s) (current_player s) = Some k ->
  player_hands s !! k = Some hand ->
  num_players s <> 0 ->
  (0 < draw_pile_count s
   /\ exists cards d' dp',
       draw_with_option shuffle_deck (current_player s) s =
         (Ok (None, Some false),
          advanced (set_draw_pile_count 0
            (set_player_hands (<[k:=hand ++ cards]> (player_hands s))
               (set_deck d' (set_discard_pile dp' s)))))
       /\ length cards = Nat.min (Z.to_nat (draw_pile_count s)) (available s))
  \/ (draw_pile_count s <= 0 /\ available s = 0%nat
      /\ draw_with_option shuffle_deck (current_player s) s =
           (Ok (None, None),
            set_can_play_drawn_card false (set_last_drawn_card None (advanced s))))
  \/ (draw_pile_count s <= 0
      /\ exists card d' dp',
          In card (deck s ++ discard_pile s)
          /\ ((playable (set_player_hands (<[k:=hand ++ [card]]> (player_hands s))
                       (set_deck d' (set_discard_pile dp' s))) card = true
           /\ draw_with_option shuffle_deck (current_player s) s =
                (Ok (Some card, Some true),
                 set_can_play_drawn_card true (set_last_drawn_card (Some card)
                   (set_player_hands (<[k:=hand ++ [card]]> (player_hands s))
                      (set_deck d' (set_discard_pile dp' s))))))
          \/ (playable (set_player_hands (<[k:=hand ++ [card]]> (player_hands s))
                          (set_deck d' (set_discard_pile dp' s))) card = false
              /\ draw_with_option shuffle_deck (current_player s) s =
                   (Ok (Some card, Some false),
                    set_can_play_drawn_card false (set_last_drawn_card None
                      (advanced
                         (set_player_hands (<[k:=hand ++ [card]]> (player_hands s))
                            (set_deck d' (set_discard_pile dp' s))))))))).
Proof.
  intros Hk Hh Hn. destruct (Z.ltb_spec 0 (draw_pile_count s)) as [Hpos|Hle].
  - left. split; [exact Hpos|].
    destruct (draw_loop_spec (range (draw_pile_count s)) (current_player s) k s hand Hk Hh)
      as (cards & d' & dp' & Hloop & _ & Hlen).
    rewrite range_length in Hlen. exists cards, d', dp'. split; [|exact Hlen].
    unfold draw_with_option. run. rewrite Z.eqb_refl. cbn.
    apply Z.ltb_lt in Hpos. rewrite Hpos. cbn.
    unfold bind, ret in Hloop. rewrite Hloop. cbn.
    rewrite _advance_turn_ok by exact Hn. reflexivity.
  - right. apply Z.ltb_ge in Hle as Hlt.
    destruct (draw_card_spec s (current_player s) k hand Hk Hh)
      as [[Hav Hd] | (card & d' & dp' & Hd & Hp' & _)].
    + left. split; [exact Hle|]. split; [exact Hav|].
      unfold draw_with_option. run. rewrite Z.eqb_refl. cbn. rewrite Hlt. cbn.
      rewrite Hd. cbn. rewrite _advance_turn_ok by exact Hn. reflexivity.
    + right. split; [exact Hle|]. exists card, d', dp'.
      split.
      { apply (Permutation_in card Hp'). apply in_or_app. right. now left. }
      set (s1 := set_player_hands _ _) in *.
      destruct (playable s1 card) eqn:Hp; [left|right]; (split; [reflexivity|]);
        unfold draw_with_option; run; rewrite Z.eqb_refl; cbn; rewrite Hlt; cbn;
        rewrite Hd; cbn; fold (playable s1 card); rewrite Hp; cbn.
      * reflexivity.
      * rewrite _advance_turn_ok by exact Hn. reflexivity.
Qed.

(** X12: a draw chain is paid with what can still be drawn.  Whatever the
    count [k > 0] is, [draw_with_option] gives the current player
    [min k available] cards, where [available] counts the deck and the discard
    pile below its top card; the count is 0 afterwards all the same, and the
    turn has moved on by one plain step.  What the piles could not supply is
    not owed any more. *)
Theorem chain_draw_is_capped_by_the_piles s hand :
  0 < draw_pile_count s ->
  getitem (player_hands s) (current_player s) = Ok hand ->
  num_players s <> 0 ->
  exists s' cards,
    draw_with_option shuffle_deck (current_player s) s = (Ok (None, Some false), s')
    /\ getitem (player_hands s') (current_player s) = Ok (hand ++ cards)
    /\ length cards = Nat.min (Z.to_nat (draw_pile_count s)) (available s)
    /\ draw_pile_count s' = 0
    /\ turn_count s' = turn_count s + 1
    /\ current_player s' = (current_player s + direction s) mod num_players s.
Proof.
  intros Hpos Hg Hn. destruct (getitem_Ok _ _ _ Hg) as (k & Hk & Hh).
  destruct (draw_with_option_cases s k hand Hk Hh Hn)
    as [(_ & cards & d' & dp' & Hd & Hlen) | [(Hle & _) | (Hle & _)]]; try lia.
  eexists. exists cards. split; [exact Hd|]. cbn.
  split; [now apply getitem_insert|]. auto.
Qed.

(** X13: a draw with nothing left to draw.  With no chain pending, an empty
    deck and at most one card on the discard pile, [draw_with_option] returns
    [(None, None)] (the second component is [None], not [False]), clears the
    drawn-card record and passes the turn by one plain step; the piles and
    hands are as before. *)
Theorem draw_with_nothing_left s :
  draw_pile_count s <= 0 ->
  deck s = [] ->
  (length (discard_pile s) <= 1)%nat ->
  num_players s <> 0 ->
  draw_with_option shuffle_deck (current_player s) s =
    (Ok (None, None),
     set_can_play_drawn_card false (set_last_drawn_card None (advanced s))).
Proof.
  intros Hle Hdeck Hshort Hn. apply Z.ltb_ge in Hle.
  unfold draw_with_option. run. rewrite Z.eqb_refl. cbn. rewrite Hle. cbn.
  unfold draw_card. run. rewrite Hdeck. cbn.
  rewrite _reshuffle_deck_short by exact Hshort. rewrite Hdeck. cbn.
  rewrite _advance_turn_ok by exact Hn. reflexivity.
Qed.

Lemma apply_action_draw_spec s hand card chosen_color :
  game_over s = false ->
  getitem (player_hands s) (current_player s) = Ok hand ->
  num_players s <> 0 ->
  exists s',
    apply_action shuffle_deck (current_player s) "draw" card chosen_color s = (Ok true, s')
    /\ turn_count s' = turn_count s + 1
    /\ current_player s' = (current_player s + direction s) mod num_players s
    /\ direction s' = direction s
    /\ game_over s' = false
    /\ (0 < draw_pile_count s ->
        draw_pile_count s' = 0
        /\ last_drawn_card s' = last_drawn_card s
        /\ can_play_drawn_card s' = can_play_drawn_card s)
    /\ (draw_pile_count s <= 0 ->
        draw_pile_count s' = draw_pile_count s
        /\ last_drawn_card s' = None
        /\ can_play_drawn_card s' = false).
Proof.
  intros Hgo Hg Hn. destruct (getitem_Ok _ _ _ Hg) as (k & Hk & Hh).
  unfold apply_action. run. rewrite Hgo. cbn. rewrite Z.eqb_refl. cbn.
  destruct (draw_with_option_cases s k hand Hk Hh Hn)
    as [(Hpos & cards & d' & dp' & -> & _)
       | [(Hle & _ & ->)
         | (Hle & c & d' & dp' & _ & [(_ & ->) | (_ & ->)])]]; cbn.
  - eexists. split; [reflexivity|]. cbn. repeat split; auto; lia.
  - eexists. split; [reflexivity|]. cbn. repeat split; auto; lia.
  - unfold end_turn_after_draw. run. rewrite Z.eqb_refl. cbn.
    rewrite _advance_turn_ok by exact Hn. cbn.
    eexists. split; [reflexivity|]. cbn. repeat split; auto; lia.
  - eexists. split; [reflexivity|]. cbn. repeat split; auto; lia.
Qed.

(** X14: [apply_action] with 'draw' always ends the turn.  In a running game,
    for the current player, it returns [True] and the turn has moved on by
    exactly one plain step, whether a chain was drawn, nothing could be drawn,
    or a card was drawn that could have been played: with no chain pending the
    drawn-card record is clear afterwards, so the card drawn through
    [apply_action] cannot be played with [play_drawn_card]; with a chain
    pending the count is 0 afterwards and the record is as it was.  The
    [card] and [chosen_color] arguments are ignored. *)
Theorem apply_action_draw_ends_the_turn s hand card chosen_color :
  game_over s = false ->
  getitem (player_hands s) (current_player s) = Ok hand ->
  num_players s <> 0 ->
  exists s',
    apply_action shuffle_deck (current_player s) "draw" card chosen_color s = (Ok true, s')
    /\ turn_count s' = turn_count s + 1
    /\ current_player s' = (current_player s + direction s) mod num_players s
    /\ direction s' = direction s
    /\ game_over s' = false
    /\ (0 < draw_pile_count s ->
        draw_pile_count s' = 0
        /\ last_drawn_card s' = last_drawn_card s
        /\ can_play_drawn_card s' = can_play_drawn_card s)
    /\ (draw_pile_count s <= 0 ->
        draw_pile_count s' = draw_pile_count s
        /\ last_drawn_card s' = None
        /\ can_play_drawn_card s' = false).
Proof. apply apply_action_draw_spec. Qed.

(** X15: calls that are turned down without a trace.  [apply_action] with an
    action other than 'draw' and 'play', or with 'play' and no card, and
    [play_drawn_card] when no drawn card is on record or the record does not
    allow the play, return [False] and leave the state as it was, whoever
    calls and whatever the state is. *)
Theorem unknown_requests_change_nothing s p chosen_color :
  (forall action card,
      action <> "draw" ->
      action <> "play" \/ card = None ->
      apply_action shuffle_deck p action card chosen_color s = (Ok false, s))
  /\ (last_drawn_card s = None \/ can_play_drawn_card s = false ->
      play_drawn_card p chosen_color s = (Ok false, s)).
Proof.
  split.
  - intros action card Hd Hp. unfold apply_action. run.
    destruct (game_over s); [reflexivity|]. cbn.
    destruct (p =? current_player s); [|reflexivity]. cbn.
    apply String.eqb_neq in Hd. rewrite Hd.
    destruct Hp as [Hp | ->].
    + apply String.eqb_neq in Hp. now rewrite Hp.
    + now rewrite andb_false_r.
  - intros H. unfold play_drawn_card. run.
    destruct (p =? current_player s); [|reflexivity]. cbn.
    destruct H as [-> | ->]; [reflexivity|].
    now destruct (last_drawn_card s).
Qed.

(** *** Flags *)

Lemma flags_held_same s s' :
  game_over s' = game_over s -> players_uno s' = players_uno s -> flags_held s s'.
Proof. unfold flags_held. intros -> ->. auto. Qed.

Lemma flags_held_set s s' k :
  game_over s' = game_over s \/ game_over s' = true ->
  players_uno s' = players_uno s \/ players_uno s' = <[k:=true]> (players_uno s) ->
  flags_held s s'.
Proof.
  unfold flags_held. intros Hg Hu. split; [|split].
  - destruct Hg as [-> | ->]; auto.
  - destruct Hu as [-> | ->]; [reflexivity|apply length_insert].
  - intros i Hi. destruct Hu as [-> | ->]; [exact Hi|].
    destruct (decide (k = i)) as [->|Hne].
    + apply list_lookup_insert_eq. eapply lookup_lt_Some, Hi.
    + now rewrite list_lookup_insert_ne.
Qed.

Lemma same_flags_trans s1 s2 s3 :
  game_over s2 = game_over s1 /\ players_uno s2 = players_uno s1 ->
  game_over s3 = game_over s2 /\ players_uno s3 = players_uno s2 ->
  game_over s3 = game_over s1 /\ players_uno s3 = players_uno s1.
Proof. intros [-> ->] [-> ->]. auto. Qed.

Lemma draw_card_flags p s r s' :
  draw_card shuffle_deck p s = (r, s') ->
  game_over s' = game_over s /\ players_uno s' = players_uno s.
Proof.
  unfold draw_card, _reshuffle_deck, hand_append. run. crunch;
    intros [= <- <-]; cbn; auto.
Qed.

Lemma draw_loop_flags (xs : list Z) p : forall s r s',
  for_ xs (fun _ => draw_card shuffle_deck p >> ret tt) s = (r, s') ->
  game_over s' = game_over s /\ players_uno s' = players_uno s.
Proof.
  induction xs as [|x xs IH]; intros s r s'.
  - cbn. unfold ret. intros [= <- <-]. auto.
  - unfold for_; fold (@for_ Z). unfold bind at 1. unfold bind at 1.
    destruct (draw_card shuffle_deck p s) as [[c|e] s1] eqn:Hd; cbn;
      apply draw_card_flags in Hd.
    + intros H. apply IH in H. eapply same_flags_trans; eassumption.
    + intros [= <- <-]. exact Hd.
Qed.

Lemma _advance_turn_flags s r s' :
  _advance_turn s = (r, s') ->
  game_over s' = game_over s /\ players_uno s' = players_uno s.
Proof. unfold _advance_turn, py_mod. run. crunch; intros [= <- <-]; cbn; auto. Qed.

Lemma _advance_turn_with_skip_flags s r s' :
  _advance_turn_with_skip s = (r, s') ->
  game_over s' = game_over s /\ players_uno s' = players_uno s.
Proof.
  unfold _advance_turn_with_skip, py_mod. run. crunch; intros [= <- <-]; cbn; auto.
Qed.

Lemma hand_remove_flags p card s r s' :
  hand_remove p card s = (r, s') ->
  game_over s' = game_over s /\ players_uno s' = players_uno s.
Proof. unfold hand_remove. run. crunch; intros [= <- <-]; cbn; auto. Qed.

Lemma draw_with_option_flags p s r s' :
  draw_with_option shuffle_deck p s = (r, s') ->
  game_over s' = game_over s /\ players_uno s' = players_uno s.
Proof.
  unfold draw_with_option. run.
  destruct (negb (p =? current_player s)); cbn; [intros [= <- <-]; auto|].
  destruct (0 <? draw_pile_count s); cbn.
  - destruct (for_ _ _ s) as [r1 s1] eqn:Hl. apply draw_loop_flags in Hl.
    destruct r1; cbn; [|intros [= <- <-]; exact Hl].
    destruct (_advance_turn _) as [r2 s2] eqn:Ha. apply _advance_turn_flags in Ha.
    cbn in Ha. destruct r2; intros [= <- <-]; intuition congruence.
  - crunch; intros [= <- <-];
      repeat match goal with
        | H : draw_card _ _ _ = _ |- _ => apply draw_card_flags in H
        | H : _advance_turn _ = _ |- _ => apply _advance_turn_flags in H
        end;
      cbn in *; intuition congruence.
Qed.

Lemma end_turn_after_draw_flags p s r s' :
  end_turn_after_draw p s = (r, s') ->
  game_over s' = game_over s /\ players_uno s' = players_uno s.
Proof.
  unfold end_turn_after_draw. run. crunch; intros [= <- <-];
    repeat match goal with
      | H : _advance_turn _ = _ |- _ => apply _advance_turn_flags in H
      end;
    cbn in *; intuition congruence.
Qed.

(** Brings in what the calls met along a run have done to the flags. *)
Ltac use_flags :=
  repeat match goal with
    | H : hand_remove _ _ _ = _ |- _ => apply hand_remove_flags in H as [? ?]
    | H : hand_len _ _ = _ |- _ => apply hand_len_state in H as ->
    | H : _advance_turn_with_skip _ = _ |- _ =>
        apply _advance_turn_with_skip_flags in H as [? ?]
    | H : draw_with_option _ _ _ = _ |- _ => apply draw_with_option_flags in H as [? ?]
    | H : end_turn_after_draw _ _ = _ |- _ => apply end_turn_after_draw_flags in H as [? ?]
    | H : setitem _ _ _ = Ok _ |- _ => apply setitem_Ok in H as (?ku & ?Hku & ->)
    end;
  cbn in *.

Ltac flags_leaf :=
  first [ apply flags_held_same; cbn; congruence
        | match goal with
          | |- context [<[?k:=true]> _] =>
              apply (flags_held_set _ _ k); cbn;
                [ first [left; congruence | right; congruence]
                | first [left; congruence | right; congruence] ]
          | H : _ = <[?k:=true]> _ |- _ =>
              apply (flags_held_set _ _ k); cbn;
                [ first [left; congruence | right; congruence]
                | first [left; congruence | right; congruence] ]
          end
        | apply (flags_held_set _ _ 0%nat); cbn;
            [ first [left; congruence | right; congruence]
            | first [left; congruence | right; congruence] ] ].

Lemma play_drawn_card_flags p chosen_color s r s' :
  play_drawn_card p chosen_color s = (r, s') -> flags_held s s'.
Proof.
  unfold play_drawn_card, _apply_special_effect. run. crunch;
    intros [= <- <-]; use_flags; flags_leaf.
Qed.

Lemma apply_action_flags p action card chosen_color s r s' :
  apply_action shuffle_deck p action card chosen_color s = (r, s') -> flags_held s s'.
Proof.
  unfold apply_action, _apply_special_effect. run. crunch;
    intros [= <- <-]; use_flags; flags_leaf.
Qed.

(** X16: no call clears a flag.  Whatever [apply_action], [draw_with_option],
    [play_drawn_card] and [end_turn_after_draw] are called with, and whether
    they return or raise, a game that was over is still over, [players_uno]
    has as many entries as before, and every player flagged in it is still
    flagged: the UNO flag set when a hand came down to one card stays set
    when that player draws again. *)
Theorem flags_are_never_cleared s :
  (forall p action card chosen_color r s',
      apply_action shuffle_deck p action card chosen_color s = (r, s') ->
      flags_held s s')
  /\ (forall p r s', draw_with_option shuffle_deck p s = (r, s') -> flags_held s s')
  /\ (forall p chosen_color r s',
        play_drawn_card p chosen_color s = (r, s') -> flags_held s s')
  /\ (forall p r s', end_turn_after_draw p s = (r, s') -> flags_held s s').
Proof.
  split; [|split; [|split]].
  - intros p action card ch r s'. apply apply_action_flags.
  - intros p r s' H. apply draw_with_option_flags in H as [? ?].
    now apply flags_held_same.
  - intros p ch r s'. apply play_drawn_card_flags.
  - intros p r s' H. apply end_turn_after_draw_flags in H as [? ?].
    now apply flags_held_same.
Qed.

(** *** Setting up a game again *)

Lemma initialize_game_spec (s : UnoGameState) (fuel : nat) :
  2 <= num_players s <= 4 ->
  (108 <= fuel)%nat ->
  exists s' top_card,
    initialize_game shuffle_deck fuel s = Some (Ok tt, s')
    /\ discard_pile s' = discard_pile s ++ [top_card]
    /\ deck s' ++ [top_card] ++ concat (player_hands s')
         ≡ₚ create_deck (fresh_oid s)
    /\ Z.of_nat (length (player_hands s')) = num_players s
    /\ Forall (fun hand => length hand = 7%nat) (player_hands s')
    /\ num_players s' = num_players s
    /\ game_over s' = game_over s
    /\ winner s' = winner s
    /\ current_player s' = current_player s
    /\ direction s' = direction s
    /\ turn_count s' = turn_count s
    /\ players_uno s' = players_uno s
    /\ draw_pile_count s' = 0
    /\ skip_next s' = false
    /\ pending_color s' = None
    /\ last_drawn_card s' = None
    /\ can_play_drawn_card s' = false.
Proof.
  intros HN Hfuel. unfold initialize_game.
  set (base := fresh_oid s). clearbody base.
  destruct s as [n cp dir go w dpc sk pc0 ldc cpd dk dp ph tc pu]. cbn in HN.
  assert (HN' : n = 2 \/ n = 3 \/ n = 4) by lia. clear HN.
  destruct HN' as [-> | [-> | ->]].
  all: pose proof (shuffle_deck_perm (create_deck base)) as Hperm.
  all: pose proof (shuffle_deck_length (create_deck base)) as Hlen.
  all: rewrite create_deck_length in Hlen.
  all: remember (shuffle_deck (create_deck base)) as l eqn:Hl; clear Hl.
  all: do 108 (destruct l as [|? l]; [discriminate Hlen|];
               cbn [length] in Hlen; apply eq_add_S in Hlen).
  all: destruct l; [clear Hlen|discriminate Hlen].
  all: match goal with
       | |- context [deal ?st] =>
           let r := eval vm_compute in (deal st) in
           replace (deal st) with r by (vm_compute; reflexivity)
       end.
  all: cbn -[seed_loop create_deck].
  all: match goal with
       | |- context [seed_loop ?f ?t ?dk] =>
           destruct (seed_loop_result f t dk) as (g & dk' & -> & Hg & Hlen & Hp);
             [ match type of Hperm with
               | ?l ≡ₚ _ => eapply (plain_card_among l _ _ 32)
               end;
               [ reflexivity
               | rewrite (filter_Permutation _ _ _ Hperm); apply create_deck_special
               | cbn; lia ]
             | cbn; lia
             | cbn; lia
             | ]
       end.
  all: eexists; exists g.
  all: repeat match goal with |- _ /\ _ => split end.
  all: try first [ reflexivity | solve [repeat constructor] ].
  all: cbn -[create_deck].
  all: match type of Hp with
       | _ ≡ₚ ?b =>
           assert (Hq : forall hs, dk' ++ g :: hs ≡ₚ b ++ hs)
             by (intros hs; rewrite <- Hp, <- app_assoc; reflexivity)
       end.
  all: rewrite Hq, <- Hperm; cbn [app].
  all: explicit_perm.
Qed.

(** X17: [initialize_game] on a game that has been played.  For 2 to 4 players
    it returns, whatever the state was.  It deals from a newly built deck:
    the old deck and hands are dropped, every player holds 7 cards, and the
    new deck, seed card and hands are exactly the 108 new cards.  It clears
    the chain count, [skip_next], [pending_color] and the drawn-card record.
    It does not touch [game_over], [winner], [current_player], [direction],
    [turn_count] and [players_uno], and it puts the seed card on top of the
    discard pile that was there: a finished game stays finished. *)
Theorem initialize_game_on_a_used_state (s : UnoGameState) (fuel : nat) :
  2 <= num_players s <= 4 ->
  (108 <= fuel)%nat ->
  exists s' top_card,
    initialize_game shuffle_deck fuel s = Some (Ok tt, s')
    /\ discard_pile s' = discard_pile s ++ [top_card]
    /\ deck s' ++ [top_card] ++ concat (player_hands s')
         ≡ₚ create_deck (fresh_oid s)
    /\ Z.of_nat (length (player_hands s')) = num_players s
    /\ Forall (fun hand => length hand = 7%nat) (player_hands s')
    /\ num_players s' = num_players s
    /\ game_over s' = game_over s
    /\ winner s' = winner s
    /\ current_player s' = current_player s
    /\ direction s' = direction s
    /\ turn_count s' = turn_count s
    /\ players_uno s' = players_uno s
    /\ draw_pile_count s' = 0
    /\ skip_next s' = false
    /\ pending_color s' = None
    /\ last_drawn_card s' = None
    /\ can_play_drawn_card s' = false.
Proof. apply initialize_game_spec. Qed.

(** *** The bot of the example game *)

Lemma dict_get_incr key d c :
  dict_get c (dict_incr key d)
  = dict_get c d + (if bool_decide (key = c) then 1 else 0).
Proof.
  induction d as [|[k v] r IH]; cbn.
  - repeat case_bool_decide; lia.
  - repeat (case_bool_decide; cbn); subst; try congruence; try lia.
Qed.

Lemma dict_incr_keys key d :
  map fst (dict_incr key d) = map fst d
  \/ (~ In key (map fst d) /\ map fst (dict_incr key d) = map fst d ++ [key]).
Proof.
  induction d as [|[k v] r IH]; cbn.
  - right. split; [tauto|reflexivity].
  - case_bool_decide as E; cbn; [now left|].
    destruct IH as [-> | [Hn ->]]; [now left|right].
    split; [|reflexivity]. intros [?|?]; [now apply E|now apply Hn].
Qed.

Lemma dict_get_In key v d :
  NoDup (map fst d) -> In (key, v) d -> dict_get key d = v.
Proof.
  induction d as [|[k w] r IH]; cbn; [tauto|].
  intros Hnd [[= -> ->]|Hin].
  - now rewrite bool_decide_eq_true_2.
  - apply NoDup_cons in Hnd as [Hk Hnd].
    rewrite bool_decide_eq_false_2; [auto|].
    intros ->. apply Hk, list_elem_of_In. now apply (in_map fst) in Hin.
Qed.

Lemma dict_get_positive key d :
  dict_get key d <> 0 -> In (key, dict_get key d) d.
Proof.
  induction d as [|[k w] r IH]; cbn; [tauto|].
  case_bool_decide as E; [subst; auto|auto].
Qed.

Lemma py_max_spec {A} (key : A -> Z) (l : list A) : forall best,
  In (py_max key best l) (best :: l)
  /\ forall x, In x (best :: l) -> key x <= key (py_max key best l).
Proof.
  induction l as [|y r IH]; intros best; cbn.
  - split; [auto|]. intros x [<-|[]]. lia.
  - destruct (Z.ltb_spec (key best) (key y)) as [Hlt|Hge].
    + destruct (IH y) as [Hin Hmax]. split; [cbn in Hin; tauto|].
      intros x [<-|Hx]; [|auto]. specialize (Hmax y (or_introl eq_refl)). lia.
    + destruct (IH best) as [Hin Hmax]. split; [cbn in Hin; tauto|].
      intros x [<-|[<-|Hx]]; [apply Hmax; now left| |apply Hmax; now right].
      specialize (Hmax best (or_introl eq_refl)). lia.
Qed.

(** What the counting loop leaves, from any dict it starts with. *)
Lemma color_counts_fold hand : forall d,
  NoDup (map fst d) ->
  ~ In Color.WILD (map fst d) ->
  let d' :=
    fold_left
      (fun d c =>
         if negb (bool_decide (color c = Color.WILD)) then dict_incr (color c) d else d)
      hand d in
  NoDup (map fst d')
  /\ ~ In Color.WILD (map fst d')
  /\ forall c, c <> Color.WILD -> dict_get c d' = dict_get c d + count_color c hand.
Proof.
  unfold count_color.
  induction hand as [|card hand IH]; intros d Hnd Hw; cbn.
  - repeat split; auto. intros; lia.
  - destruct (IH (if negb (bool_decide (color card = Color.WILD))
                  then dict_incr (color card) d else d)) as (H1 & H2 & H3).
    + case_bool_decide as E; cbn; [exact Hnd|].
      destruct (dict_incr_keys (color card) d) as [-> | [Hn ->]]; [exact Hnd|].
      apply NoDup_app. repeat split; [exact Hnd| |apply NoDup_singleton].
      intros x Hx Hx'. apply list_elem_of_In in Hx.
      apply list_elem_of_singleton in Hx'. now subst.
    + case_bool_decide as E; cbn; [exact Hw|].
      destruct (dict_incr_keys (color card) d) as [-> | [Hn ->]]; [exact Hw|].
      intros Hin. apply in_app_or in Hin as [Hin|[Hin|[]]]; [now apply Hw|].
      now apply E.
    + repeat split; [exact H1|exact H2|].
      intros c Hc. rewrite (H3 c Hc).
      case_bool_decide as E; cbn.
      * rewrite bool_decide_eq_false_2 by congruence. lia.
      * rewrite dict_get_incr. case_bool_decide; cbn [length]; lia.
Qed.

Lemma color_counts_spec hand :
  NoDup (map fst (color_counts hand))
  /\ ~ In Color.WILD (map fst (color_counts hand))
  /\ forall c, c <> Color.WILD -> dict_get c (color_counts hand) = count_color c hand.
Proof.
  destruct (color_counts_fold hand []) as (H1 & H2 & H3);
    [constructor|intros []|].
  repeat split; auto.
Qed.

Lemma most_common_color_spec hand :
  In (most_common_color hand) real_colors
  /\ (forall c, c <> Color.WILD ->
                count_color c hand <= count_color (most_common_color hand) hand)
  /\ (color_counts hand = [] -> most_common_color hand = Color.RED).
Proof.
  destruct (color_counts_spec hand) as (Hnd & Hw & Hget).
  unfold most_common_color.
  destruct (color_counts hand) as [|item rest] eqn:E.
  - split; [now left|]. split; [|reflexivity].
    intros c Hc. rewrite <- (Hget c Hc), <- (Hget Color.RED) by discriminate.
    cbn. lia.
  - destruct (py_max_spec snd rest item) as [Hin Hmax].
    set (m := py_max snd item rest) in *.
    assert (Hm : fst m <> Color.WILD).
    { intros Hm. apply Hw. rewrite <- Hm. now apply in_map. }
    split; [|split; [|discriminate]].
    + unfold real_colors. destruct (fst m); cbn; tauto.
    + intros c Hc. rewrite <- (Hget c Hc), <- (Hget (fst m) Hm).
      rewrite (dict_get_In (fst m) (snd m) (item :: rest) Hnd)
        by now destruct m.
      destruct (Z.eq_dec (dict_get c (item :: rest)) 0) as [Hz|Hz].
      * rewrite Hz. specialize (Hmax m Hin).
        assert (Hpos : 0 <= snd m); [|lia].
        rewrite <- (dict_get_In (fst m) (snd m) (item :: rest) Hnd)
          by now destruct m.
        rewrite (Hget (fst m) Hm). unfold count_color. lia.
      * apply dict_get_positive in Hz. apply (Hmax _ Hz).
Qed.

Lemma color_counts_all_wild hand :
  (forall card, In card hand -> color card = Color.WILD) -> color_counts hand = [].
Proof.
  unfold color_counts. generalize (@nil (Color.t * Z)). intros d H.
  induction hand as [|card hand IH]; cbn; [reflexivity|].
  rewrite bool_decide_eq_true_2 by (apply H; now left). cbn.
  apply IH. intros c Hc. apply H. now right.
Qed.

(** X18: the colour [simple_bot_turn] chooses for a wild card of its hand.
    It is one of the four real colours, never WILD; no real colour has more
    cards in the hand than the chosen one; and it is RED when the hand holds
    WILD-coloured cards only. *)
Theorem most_common_color_is_most_common hand :
  In (most_common_color hand) real_colors
  /\ (forall c, c <> Color.WILD ->
                count_color c hand <= count_color (most_common_color hand) hand)
  /\ ((forall card, In card hand -> color card = Color.WILD) ->
      most_common_color hand = Color.RED).
Proof.
  destruct (most_common_color_spec hand) as (H1 & H2 & H3).
  split; [exact H1|]. split; [exact H2|]. intros Hall.
  now apply H3, color_counts_all_wild.
Qed.

Lemma legal_actions_shape s p hand :
  getitem (player_hands s) p = Ok hand ->
  exists plays,
    get_legal_actions s p
    = Ok (map (fun card => ("play", Some card)) plays ++ [("draw", None)])
    /\ forall card, In card plays -> In card hand.
Proof.
  intros Hg. unfold get_legal_actions. rewrite Hg.
  destruct (0 <? draw_pile_count s); eexists; (split; [reflexivity|]);
    intros card Hin; now apply List.filter_In in Hin.
Qed.

Lemma find_first_play (plays : list Card) :
  List.find (fun act : string * option Card => String.eqb (fst act) "play")
    (map (fun card => ("play", Some card)) plays ++ [("draw", None)])
  = match plays with
    | [] => None
    | card :: _ => Some ("play", Some card)
    end.
Proof. destruct plays; reflexivity. Qed.

#[local] Arguments play_drawn_card : simpl never.
#[local] Arguments apply_action : simpl never.

Lemma simple_bot_turn_progress s hand :
  game_over s = false ->
  num_players s <> 0 ->
  length (players_uno s) = length (player_hands s) ->
  getitem (player_hands s) (current_player s) = Ok hand ->
  (forall card, In card (hand ++ deck s ++ discard_pile s) ->
                is_wild_type card = bool_decide (color card = Color.WILD)) ->
  can_play_drawn_card s = false ->
  exists s',
    simple_bot_turn shuffle_deck (current_player s) s = (Ok true, s')
    /\ (game_over s' = true \/ turn_count s' = turn_count s + 1)
    /\ can_play_drawn_card s' = false
    /\ ((exists card rest,
           get_legal_actions s (current_player s) = Ok (("play", Some card) :: rest)
           /\ apply_action shuffle_deck (current_player s) "play" (Some card)
                (if bool_decide (color card = Color.WILD)
                 then Some (most_common_color hand) else None) s
              = (Ok true, s'))
        \/ (get_legal_actions s (current_player s) = Ok [("draw", None)]
            /\ exists drawn_card is_playable s1,
                draw_with_option shuffle_deck (current_player s) s
                = (Ok (drawn_card, is_playable), s1)
                /\ ((exists card,
                       drawn_card = Some card
                       /\ is_playable = Some true
                       /\ play_drawn_card (current_player s)
                            (if bool_decide (color card = Color.WILD)
                             then Some Color.RED else None) s1
                          = (Ok true, s'))
                    \/ (is_playable <> Some true /\ s' = s1)))).
Proof.
  intros Hgo Hn Huno Hg Hcards Hcan.
  destruct (getitem_Ok _ _ _ Hg) as (k & Hk & Hh).
  destruct (legal_actions_shape s _ hand Hg) as (plays & Hlegal & Hplays).
  unfold simple_bot_turn. run. rewrite Hlegal. cbn. rewrite find_first_play.
  destruct plays as [|card plays]; cbn.
  - assert (Hdraw_only : get_legal_actions s (current_player s) = Ok [("draw", None)])
      by exact Hlegal.
    destruct (draw_with_option_cases s k hand Hk Hh Hn)
      as [(_ & cards & d' & dp' & Hd & _)
         | [(_ & _ & Hd)
           | (_ & c & d' & dp' & Hin & [(_ & Hd) | (_ & Hd)])]]; rewrite Hd; cbn.
    + eexists. split; [reflexivity|]. cbn. split; [right; reflexivity|].
      split; [exact Hcan|]. right. split; [first [exact Hdraw_only|reflexivity]|].
      eexists _, _, _. split; [first [exact Hd|reflexivity]|]. right. split; [discriminate|reflexivity].
    + eexists. split; [reflexivity|]. cbn. split; [right; reflexivity|].
      split; [reflexivity|]. right. split; [first [exact Hdraw_only|reflexivity]|].
      eexists _, _, _. split; [first [exact Hd|reflexivity]|]. right. split; [discriminate|reflexivity].
    + set (s1 := set_can_play_drawn_card true _) in *.
      set (ch := if bool_decide (color c = Color.WILD) then Some Color.RED else None).
      destruct (play_drawn_card_accepts s1 c ch (hand ++ [c])) as (s2 & Hp).
      * reflexivity.
      * reflexivity.
      * cbn. now apply getitem_insert.
      * apply in_or_app. right. now left.
      * exact Hn.
      * cbn. now rewrite length_insert.
      * rewrite Hcards by (apply in_or_app; now right). unfold ch.
        now case_bool_decide.
      * change (current_player s1) with (current_player s) in Hp. rewrite Hp. cbn.
        exists s2. split; [reflexivity|].
        pose proof Hp as Hplayed.
        apply play_drawn_card_outcome in Hp
          as (c' & _ & _ & _ & Hc2 & (k' & h & h' & _ & _ & _ & _ & _ & _ & _ & _ & _
                                        & _ & _ & _ & Hend)).
        split; [|split; [exact Hc2|]].
        -- destruct Hend as [(_ & ? & _) | (_ & _ & _ & Ht & _)]; [now left|right].
           exact Ht.
        -- right. split; [first [exact Hdraw_only|reflexivity]|].
           exists (Some c), (Some true), s1. split; [first [exact Hd|reflexivity]|]. left.
           exists c. split; [reflexivity|]. split; [reflexivity|exact Hplayed].
    + eexists. split; [reflexivity|]. cbn. split; [right; reflexivity|].
      split; [reflexivity|]. right. split; [first [exact Hdraw_only|reflexivity]|].
      eexists _, _, _. split; [first [exact Hd|reflexivity]|]. right. split; [discriminate|reflexivity].
  - assert (Hcard : In card hand) by (apply Hplays; now left).
    set (m := if bool_decide (color card = Color.WILD) then _ else _).
    set (ch := if bool_decide (color card = Color.WILD)
               then Some (most_common_color hand) else None).
    assert (Hm : m s = (Ok ch, s)
                 /\ is_wild_type card && invalid_choice ch = false).
    { unfold m, ch. rewrite Hcards by (apply in_or_app; now left).
      case_bool_decide.
      - split; [cbn; rewrite Hg; reflexivity|]. cbn [andb].
        apply real_color_valid. eexists. split; [reflexivity|].
        apply most_common_color_spec.
      - split; reflexivity. }
    destruct Hm as (-> & Hwild). cbn.
    destruct (apply_action_accepts s _ card ch Hgo Hn Huno Hlegal) as (s' & Ha);
      [apply in_or_app; left; now left|exact Hwild|].
    rewrite Ha. cbn. exists s'. split; [reflexivity|].
    pose proof Ha as Hplayed.
    apply apply_action_play_outcome in Ha
      as (_ & _ & _ & Hc2 & (k' & h & h' & _ & _ & _ & _ & _ & _ & _ & _ & _
                               & _ & _ & _ & Hend)).
    split; [|split; [congruence|]].
    + destruct Hend as [(_ & ? & _) | (_ & _ & _ & Ht & _)]; [now left|right].
      exact Ht.
    + left. exists card, (map (fun c => ("play", Some c)) plays ++ [("draw", None)]).
      split; [first [exact Hlegal|reflexivity]|exact Hplayed].
Qed.

Lemma simple_bot_turn_keeps s hand r s' :
  getitem (player_hands s) (current_player s) = Ok hand ->
  simple_bot_turn shuffle_deck (current_player s) s = (r, s') ->
  keeps s s' /\ length (players_uno s') = length (players_uno s).
Proof.
  intros Hg. unfold simple_bot_turn. run. crunch; intros [= <- <-];
    repeat match goal with
      | H : apply_action _ _ _ _ _ _ = _ |- _ =>
          pose proof (apply_action_flags _ _ _ _ _ _ _ H) as (_ & ? & _);
          apply (apply_action_keeps _ _ _ _ _ _ _ _ Hg) in H
      | H : draw_with_option _ _ _ = _ |- _ =>
          pose proof (draw_with_option_flags _ _ _ _ H) as [_ ?];
          apply (draw_with_option_keeps _ _ _ _ _ Hg) in H
      | H : play_drawn_card _ _ _ = _ |- _ =>
          pose proof (play_drawn_card_flags _ _ _ _ _ H) as (_ & ? & _);
          apply play_drawn_card_spec in H as [H _]
      end;
    (split; [eauto using keeps_refl, keeps_trans | congruence]).
Qed.

Lemma In_hand_all_cards s p hand card :
  getitem (player_hands s) p = Ok hand -> In card hand -> In card (all_cards s).
Proof.
  intros Hg Hin. destruct (getitem_Ok _ _ _ Hg) as (k & _ & Hh).
  unfold all_cards. apply in_or_app. right. apply in_or_app. right.
  apply in_concat. exists hand. split; [|exact Hin].
  apply list_elem_of_In, list_elem_of_lookup. eauto.
Qed.

Lemma keeps_bot_ready s s' :
  bot_ready s -> keeps s s' ->
  length (players_uno s') = length (players_uno s) ->
  can_play_drawn_card s' = false ->
  bot_ready s'.
Proof.
  intros (Hwf & Huno & _ & Hcards) Hk Hl Hcan.
  split; [eapply keeps_well_formed; eassumption|]. split; [|split; [exact Hcan|]].
  - destruct Hk as (_ & _ & Hh & _). congruence.
  - intros card Hin. apply Hcards. destruct Hk as (Hp & _).
    apply (Permutation_in card Hp Hin).
Qed.

Lemma simple_bot_turn_spec s :
  game_over s = false ->
  bot_ready s ->
  exists s',
    simple_bot_turn shuffle_deck (current_player s) s = (Ok true, s')
    /\ (game_over s' = true \/ turn_count s' = turn_count s + 1)
    /\ keeps s s'
    /\ bot_ready s'.
Proof.
  intros Hgo Hready. pose proof Hready as (Hwf & Huno & Hcan & Hcards).
  destruct (well_formed_hand s Hwf) as (hand & Hg).
  destruct (simple_bot_turn_progress s hand) as (s' & Hrun & Hprog & Hcan' & _);
    try assumption.
  - destruct Hwf as (? & _). lia.
  - intros card Hin. apply Hcards. apply in_app_or in Hin as [Hin|Hin].
    + eapply In_hand_all_cards; eassumption.
    + unfold all_cards. rewrite app_assoc. apply in_or_app. now left.
  - destruct (simple_bot_turn_keeps s hand _ _ Hg Hrun) as (Hk & Hl).
    exists s'. split; [exact Hrun|]. split; [exact Hprog|]. split; [exact Hk|].
    now apply (keeps_bot_ready s).
Qed.

(** X19: [simple_bot_turn] always gets the turn over with, and can be called
    again.  In a game in progress with one UNO flag for each hand, no drawn
    card waiting and every wild card WILD-coloured, as the cards of
    [create_deck] are, a call for the current player returns [True] and has
    either ended the game or got the turn counted once, and the game it leaves
    is of that shape again.  What the call has done is one of two things.
    When the list of legal actions starts with a PLAY, the state it leaves is
    the one [apply_action] leaves for that card, which it accepts, with the
    most common colour of the hand as chosen colour when the card is
    WILD-coloured and with none otherwise.  When the list holds the DRAW
    alone, the bot has called [draw_with_option]; if that reported a playable
    card, the state is the one [play_drawn_card] leaves, which accepts, with
    RED as chosen colour when the card is WILD-coloured; if not, the state is
    the one [draw_with_option] left. *)
Theorem simple_bot_turn_ends_the_turn s :
  game_over s = false ->
  bot_ready s ->
  exists hand s',
    getitem (player_hands s) (current_player s) = Ok hand
    /\ simple_bot_turn shuffle_deck (current_player s) s = (Ok true, s')
    /\ (game_over s' = true \/ turn_count s' = turn_count s + 1)
    /\ bot_ready s'
    /\ ((exists card rest,
           get_legal_actions s (current_player s) = Ok (("play", Some card) :: rest)
           /\ apply_action shuffle_deck (current_player s) "play" (Some card)
                (if bool_decide (color card = Color.WILD)
                 then Some (most_common_color hand) else None) s
              = (Ok true, s'))
        \/ (get_legal_actions s (current_player s) = Ok [("draw", None)]
            /\ exists drawn_card is_playable s1,
                draw_with_option shuffle_deck (current_player s) s
                = (Ok (drawn_card, is_playable), s1)
                /\ ((exists card,
                       drawn_card = Some card
                       /\ is_playable = Some true
                       /\ play_drawn_card (current_player s)
                            (if bool_decide (color card = Color.WILD)
                             then Some Color.RED else None) s1
                          = (Ok true, s'))
                    \/ (is_playable <> Some true /\ s' = s1)))).
Proof.
  intros Hgo Hready. pose proof Hready as (Hwf & Huno & Hcan & Hcards).
  destruct (well_formed_hand s Hwf) as (hand & Hg).
  destruct (simple_bot_turn_progress s hand) as (s' & Hrun & Hprog & Hcan' & Hmove);
    try assumption.
  - destruct Hwf as (? & _). lia.
  - intros card Hin. apply Hcards. apply in_app_or in Hin as [Hin|Hin].
    + eapply In_hand_all_cards; eassumption.
    + unfold all_cards. rewrite app_assoc. apply in_or_app. now left.
  - destruct (simple_bot_turn_keeps s hand _ _ Hg Hrun) as (Hk & Hl).
    exists hand, s'. split; [exact Hg|]. split; [exact Hrun|]. split; [exact Hprog|].
    split; [now apply (keeps_bot_ready s)|exact Hmove].
Qed.

#[local] Arguments simple_bot_turn : simpl never.

Lemma game_loop_bots human_turn human_player_idx fuel : forall s,
  bot_ready s ->
  ~ (0 <= human_player_idx < num_players s) ->
  exists s',
    game_loop shuffle_deck human_turn human_player_idx fuel s = (Ok (game_over s'), s')
    /\ keeps s s'
    /\ bot_ready s'
    /\ (game_over s = false ->
        game_over s' = true \/ turn_count s' = turn_count s + Z.of_nat fuel).
Proof.
  induction fuel as [|fuel IH]; intros s Hready Hh.
  - exists s. cbn. unfold gets. split; [reflexivity|]. split; [apply keeps_refl|].
    split; [exact Hready|]. intros _. right. lia.
  - cbn [game_loop]. run. destruct (game_over s) eqn:Hgo.
    + exists s. rewrite Hgo. split; [reflexivity|]. split; [apply keeps_refl|].
      split; [exact Hready|]. discriminate.
    + assert (Hne : (current_player s =? human_player_idx) = false).
      { apply Z.eqb_neq. intros E. apply Hh. rewrite <- E.
        destruct Hready as ((_ & _ & ?) & _). assumption. }
      rewrite Hne.
      destruct (simple_bot_turn_spec s Hgo Hready) as (s1 & -> & Hprog & Hk & Hr1).
      cbn. destruct (game_over s1) eqn:Hgo1.
      * exists s1. rewrite Hgo1. split; [reflexivity|]. split; [exact Hk|].
        split; [exact Hr1|]. intros _. now left.
      * destruct (IH s1 Hr1) as (s' & Hloop & Hk' & Hr' & Hend).
        { destruct Hk as (_ & -> & _). exact Hh. }
        exists s'. split; [exact Hloop|]. split; [eapply keeps_trans; eassumption|].
        split; [exact Hr'|]. intros _.
        destruct Hprog as [Hover|Ht]; [congruence|].
        destruct (Hend Hgo1) as [?|Ht']; [now left|right]. lia.
Qed.

Lemma create_deck_wild base card :
  In card (create_deck base) ->
  is_wild_type card = bool_decide (color card = Color.WILD).
Proof.
  assert (H : forallb (fun card => Bool.eqb (is_wild_type card)
                                            (bool_decide (color card = Color.WILD)))
                      (create_deck base) = true) by reflexivity.
  rewrite forallb_forall in H. intros Hin. apply eqb_prop, H, Hin.
Qed.

(** X20: a game of bots alone runs.  [run_example_game] for 2 to 4 players,
    with a [human_player_idx] that is no player's index, so that every turn
    is a [simple_bot_turn], raises nothing, however the deck is shuffled:
    the game is set up, and after any number of turns of the loop either the
    game is over or exactly that many turns have been counted; the state is
    a game in progress in shape and holds exactly the 108 cards of the deck
    that was built. *)
Theorem bots_alone_play_the_game human_turn (N human_player_idx : Z)
    (seed_fuel fuel : nat) :
  2 <= N <= 4 ->
  (108 <= seed_fuel)%nat ->
  ~ (0 <= human_player_idx < N) ->
  exists s',
    run_example_game shuffle_deck human_turn seed_fuel fuel N human_player_idx
    = Some (Ok (game_over s', s'))
    /\ (game_over s' = true \/ turn_count s' = Z.of_nat fuel)
    /\ well_formed s'
    /\ all_cards s' ≡ₚ create_deck (fresh_oid (init_state N)).
Proof.
  intros HN Hfuel Hh. unfold run_example_game, init.
  replace (negb ((2 <=? N) && (N <=? 4))) with false
    by (symmetry; apply negb_false_iff, andb_true_intro; split; apply Z.leb_le; lia).
  destruct (initialize_game_spec (init_state N) seed_fuel HN Hfuel)
    as (s0 & top_card & -> & Hdp & Hperm & Hlen & _ & Hn & Hgo & _ & Hcp & _ & Htc
        & Huno & _ & _ & _ & _ & Hcan).
  cbn in Hdp, Hlen, Hn, Hgo, Hcp, Htc, Huno.
  assert (Hall : all_cards s0 ≡ₚ create_deck (fresh_oid (init_state N))).
  { unfold all_cards. now rewrite Hdp. }
  assert (Hready : bot_ready s0).
  { split; [|split; [|split; [exact Hcan|]]].
    - unfold well_formed. rewrite Hn, Hcp. lia.
    - rewrite Huno, length_replicate. lia.
    - intros card Hin. apply (create_deck_wild (fresh_oid (init_state N))).
      apply (Permutation_in card Hall Hin). }
  destruct (game_loop_bots human_turn human_player_idx fuel s0 Hready)
    as (s' & -> & Hk & Hr' & Hend).
  { now rewrite Hn. }
  exists s'. split; [reflexivity|]. split; [|split].
  - destruct (Hend Hgo) as [?|Ht]; [now left|right]. rewrite Ht, Htc. lia.
  - apply Hr'.
  - destruct Hk as (-> & _). exact Hall.
Qed.

(** *** The bots *)

Section BotProperties.

(** The generator of a bot: [randbelow g n] is a number below [n]. *)
Variable G : Type.
Variable randbelow : G -> nat -> nat * G.
Hypothesis randbelow_lt : forall g n, (0 < n)%nat -> (fst (randbelow g n) < n)%nat.

Lemma rng_choice_In {A} (g : G) (seq : list A) :
  seq <> [] ->
  exists x g', rng_choice randbelow g seq = Returns (x, g') /\ In x seq.
Proof.
  intros Hne. unfold rng_choice.
  assert (Hlen : (0 < length seq)%nat) by (destruct seq; [contradiction|cbn; lia]).
  pose proof (randbelow_lt g (length seq) Hlen) as Hlt.
  destruct seq as [|a seq]; [contradiction|].
  destruct (randbelow g (length (a :: seq))) as [i g']. cbn [fst] in Hlt.
  destruct ((a :: seq) !! i) as [x|] eqn:E.
  - exists x, g'. split; [reflexivity|].
    apply list_elem_of_In, list_elem_of_lookup. eauto.
  - apply lookup_ge_None in E. lia.
Qed.

Lemma _pick_best_color_real g public_info :
  exists c g', _pick_best_color randbelow g public_info = Returns (c, g')
               /\ In c real_colors.
Proof.
  unfold _pick_best_color.
  destruct (color_counts (Info.my_hand public_info)) as [|item rest] eqn:E.
  - apply rng_choice_In. discriminate.
  - eexists. eexists. split; [reflexivity|].
    pose proof (most_common_color_spec (Info.my_hand public_info)) as [H _].
    unfold most_common_color in H. now rewrite E in H.
Qed.

Lemma with_chosen_color_spec g public_info action card :
  (action = "play" -> card <> None) ->
  exists chosen_color g',
    with_chosen_color randbelow g public_info action card
    = Returns ((action, card, chosen_color), g')
    /\ forall c, action = "play" -> card = Some c -> color c = Color.WILD ->
                 exists col, chosen_color = Some col /\ In col real_colors.
Proof.
  intros Hcard. unfold with_chosen_color.
  destruct (String.eqb_spec action "play") as [->|Hne].
  - destruct card as [c|]; [|now destruct Hcard].
    case_bool_decide as E.
    + destruct (_pick_best_color_real g public_info) as (col & g' & -> & Hcol).
      exists (Some col), g'. split; [reflexivity|]. eauto.
    + exists None, g. split; [reflexivity|]. now intros c' _ [= <-] Hc.
  - exists None, g. split; [reflexivity|]. intros c Ha. contradiction.
Qed.

Lemma max_loop_spec {A} (key : A -> Outcome Z) (l : list A) : forall best best_key,
  key best = Returns best_key ->
  (forall x, In x l -> exists k, key x = Returns k) ->
  exists m km,
    max_loop key best best_key l = Returns m
    /\ key m = Returns km
    /\ In m (best :: l)
    /\ forall x k, In x (best :: l) -> key x = Returns k -> k <= km.
Proof.
  induction l as [|y r IH]; intros best bk Hb Hall; cbn.
  - exists best, bk. repeat split; auto.
    intros x k [<-|[]] Hk. rewrite Hb in Hk. injection Hk as <-. lia.
  - destruct (Hall y (or_introl eq_refl)) as (ky & Hy). rewrite Hy.
    assert (Hr : forall x, In x r -> exists k, key x = Returns k)
      by (intros x Hx; apply Hall; now right).
    destruct (Z.ltb_spec bk ky) as [Hlt|Hge].
    + destruct (IH y ky Hy Hr) as (m & km & Hm & Hkm & Hin & Hmax).
      exists m, km. split; [exact Hm|]. split; [exact Hkm|].
      split; [cbn in Hin |- *; tauto|].
      intros x k [<-|Hx] Hk; [|eauto].
      rewrite Hb in Hk. injection Hk as <-.
      specialize (Hmax y ky (or_introl eq_refl) Hy). lia.
    + destruct (IH best bk Hb Hr) as (m & km & Hm & Hkm & Hin & Hmax).
      exists m, km. split; [exact Hm|]. split; [exact Hkm|].
      split; [cbn in Hin |- *; tauto|].
      intros x k [<-|[<-|Hx]] Hk.
      * apply (Hmax best k); [now left|exact Hk].
      * rewrite Hy in Hk. injection Hk as <-.
        specialize (Hmax best bk (or_introl eq_refl) Hb). lia.
      * apply (Hmax x k); [now right|exact Hk].
Qed.

Lemma max_by_key_spec {A} (key : A -> Outcome Z) (l : list A) :
  l <> [] ->
  (forall x, In x l -> exists k, key x = Returns k) ->
  exists m km,
    max_by_key key l = Returns m
    /\ key m = Returns km
    /\ In m l
    /\ forall x k, In x l -> key x = Returns k -> k <= km.
Proof.
  intros Hne Hall. destruct l as [|x r]; [contradiction|]. cbn.
  destruct (Hall x (or_introl eq_refl)) as (k & Hk). rewrite Hk.
  apply max_loop_spec; [exact Hk|]. intros y Hy. apply Hall. now right.
Qed.

Lemma score_play hand next_size card :
  exists v, RuleBasedBot.score hand next_size ("play", Some card) = Returns v
            /\ 100 <= v.
Proof.
  unfold RuleBasedBot.score. cbn. eexists. split; [reflexivity|].
  assert (0 <= count_color (color card) hand) by (unfold count_color; lia).
  repeat match goal with
    | |- context [if ?b then _ else _] => destruct b
    end; lia.
Qed.

Lemma In_legal_actions (plays : list Card) action card :
  In (action, card) (map (fun c => ("play", Some c)) plays ++ [("draw", None)]) ->
  (action = "draw" /\ card = None)
  \/ (exists c, action = "play" /\ card = Some c /\ In c plays).
Proof.
  intros H. apply in_app_or in H as [H|[[= <- <-]|[]]]; [right|left; auto].
  apply in_map_iff in H as (c & [= <- <-] & Hc). eauto.
Qed.

(** An action of the list [get_legal_actions] gives the current player is
    accepted when a wild card comes with a real colour. *)
Lemma listed_action_accepted s hand legal action card chosen_color :
  game_over s = false ->
  num_players s <> 0 ->
  length (players_uno s) = length (player_hands s) ->
  getitem (player_hands s) (current_player s) = Ok hand ->
  get_legal_actions s (current_player s) = Ok legal ->
  In (action, card) legal ->
  (forall c, action = "play" -> card = Some c ->
             is_wild_type c && invalid_choice chosen_color = false) ->
  exists s',
    apply_action shuffle_deck (current_player s) action card chosen_color s
    = (Ok true, s').
Proof.
  intros Hgo Hn Huno Hg Hlegal Hin Hcol.
  destruct (legal_actions_shape s _ hand Hg) as (plays & Hshape & _).
  rewrite Hlegal in Hshape. injection Hshape as ->.
  destruct (In_legal_actions _ _ _ Hin) as [[-> ->] | (c & -> & -> & Hc)].
  - destruct (apply_action_draw_spec s hand None chosen_color Hgo Hg Hn)
      as (s' & H & _). eauto.
  - eapply apply_action_accepts; eauto.
Qed.

Lemma getitem_in_range {A} (l : list A) i :
  0 <= i < Z.of_nat (length l) -> exists x, getitem l i = Ok x.
Proof.
  intros Hi. unfold getitem, py_index.
  destruct (Z.leb_spec 0 i); [|lia].
  destruct (Z.ltb_spec i (Z.of_nat (length l))); [|lia]. cbn.
  destruct (l !! Z.to_nat i) as [x|] eqn:E; [eauto|].
  apply lookup_ge_None in E. lia.
Qed.

(** The action a bot has picked from the list, with the colour it adds, is
    accepted. *)
Lemma picked_action_accepted g s hand plays action card :
  game_over s = false ->
  num_players s <> 0 ->
  length (players_uno s) = length (player_hands s) ->
  getitem (player_hands s) (current_player s) = Ok hand ->
  (forall c, In c hand -> is_wild_type c = bool_decide (color c = Color.WILD)) ->
  get_legal_actions s (current_player s)
  = Ok (map (fun c => ("play", Some c)) plays ++ [("draw", None)]) ->
  (forall c, In c plays -> In c hand) ->
  In (action, card) (map (fun c => ("play", Some c)) plays ++ [("draw", None)]) ->
  forall public_info,
  exists chosen_color g' s',
    with_chosen_color randbelow g public_info action card
    = Returns ((action, card, chosen_color), g')
    /\ apply_action shuffle_deck (current_player s) action card chosen_color s
       = (Ok true, s').
Proof.
  intros Hgo Hn Huno Hg Hwild Hlegal Hplays Hin public_info.
  destruct (with_chosen_color_spec g public_info action card) as (ch & g' & Hw & Hch).
  { intros ->. destruct (In_legal_actions _ _ _ Hin) as [[? _] | (c & _ & -> & _)];
      discriminate. }
  destruct (listed_action_accepted s hand _ action card ch Hgo Hn Huno Hg Hlegal Hin)
    as (s' & Ha).
  { intros c -> ->.
    destruct (In_legal_actions _ _ _ Hin) as [[? _] | (c' & _ & [= <-] & Hc)];
      [discriminate|].
    rewrite (Hwild c (Hplays c Hc)). case_bool_decide as E; [|reflexivity]. cbn.
    apply real_color_valid. now apply (Hch c). }
  eauto.
Qed.

(** X21: what [RuleBasedBot] chooses from the public information of the
    current player of a game in progress, whose wild cards are WILD-coloured.
    [choose_action] returns; the action is on the list of legal actions; it
    is 'draw' only when the list offers nothing else; and [apply_action]
    accepts it with the colour the bot has chosen. *)
Theorem rule_based_bot_choice_is_accepted g s hand :
  game_over s = false ->
  well_formed s ->
  length (players_uno s) = length (player_hands s) ->
  getitem (player_hands s) (current_player s) = Ok hand ->
  (forall c, In c hand -> is_wild_type c = bool_decide (color c = Color.WILD)) ->
  exists public_info action card chosen_color g' s',
    get_public_info s (current_player s) = Ok public_info
    /\ RuleBasedBot.choose_action randbelow g public_info
       = Returns ((action, card, chosen_color), g')
    /\ In (action, card) (Info.legal_actions public_info)
    /\ (action = "draw" -> Info.legal_actions public_info = [("draw", None)])
    /\ apply_action shuffle_deck (current_player s) action card chosen_color s
       = (Ok true, s').
Proof.
  intros Hgo (Hpos & Hlen & Hcp) Huno Hg Hwild.
  assert (Hn : num_players s <> 0) by lia.
  destruct (legal_actions_shape s _ hand Hg) as (plays & Hlegal & Hplays).
  unfold get_public_info. rewrite Hg, Hlegal.
  match goal with |- context [Ok ?i = Ok _] => exists i end.
  unfold RuleBasedBot.choose_action.
  cbn [Info.legal_actions Info.my_hand Info.current_player Info.direction
       Info.num_players Info.hand_sizes].
  unfold py_mod. rewrite (proj2 (Z.eqb_neq _ _) Hn).
  destruct (getitem_in_range
              (map (fun hand : list Card => Z.of_nat (length hand)) (player_hands s))
              ((current_player s + direction s) mod num_players s))
    as (next_size & ->).
  { rewrite length_map, Hlen. now apply Z.mod_pos_bound. }
  destruct (max_by_key_spec (RuleBasedBot.score hand next_size)
              (map (fun c => ("play", Some c)) plays ++ [("draw", None)]))
    as ([action card] & km & -> & Hkm & Hin & Hmax).
  { intros E. apply app_eq_nil in E as [_ E]. discriminate E. }
  { intros [a c] Hx.
    destruct (In_legal_actions _ _ _ Hx) as [[-> ->] | (c' & -> & -> & _)].
    - eexists. reflexivity.
    - destruct (score_play hand next_size c') as (v & Hv & _). eauto. }
  match goal with
  | |- context [with_chosen_color _ _ ?info _ _] =>
      destruct (picked_action_accepted g s hand plays action card Hgo Hn Huno Hg Hwild
                  Hlegal Hplays Hin info) as (ch & g' & s' & -> & Ha)
  end.
  exists action, card, ch, g', s'.
  split; [reflexivity|]. split; [reflexivity|]. split; [exact Hin|].
  split; [|exact Ha].
  intros ->. destruct plays as [|c0 plays]; [reflexivity|exfalso].
  destruct (score_play hand next_size c0) as (v & Hv & Hge).
  assert (Hd : card = None).
  { destruct (In_legal_actions _ _ _ Hin) as [[_ ?] | (? & ? & _)];
      [assumption|discriminate]. }
  subst card. cbn in Hkm. injection Hkm as <-.
  specialize (Hmax ("play", Some c0) v (or_introl eq_refl) Hv). lia.
Qed.

(** X22: what [RandomBot] chooses from the public information of the
    current player of a game in progress, whose wild cards are WILD-coloured.
    Whatever the generator yields, [choose_action] returns an action of the
    list of legal actions, and [apply_action] accepts it with the colour the
    bot has chosen. *)
Theorem random_bot_choice_is_accepted g s hand :
  game_over s = false ->
  num_players s <> 0 ->
  length (players_uno s) = length (player_hands s) ->
  getitem (player_hands s) (current_player s) = Ok hand ->
  (forall c, In c hand -> is_wild_type c = bool_decide (color c = Color.WILD)) ->
  exists public_info action card chosen_color g' s',
    get_public_info s (current_player s) = Ok public_info
    /\ RandomBot.choose_action randbelow g public_info
       = Returns ((action, card, chosen_color), g')
    /\ In (action, card) (Info.legal_actions public_info)
    /\ apply_action shuffle_deck (current_player s) action card chosen_color s
       = (Ok true, s').
Proof.
  intros Hgo Hn Huno Hg Hwild.
  destruct (legal_actions_shape s _ hand Hg) as (plays & Hlegal & Hplays).
  unfold get_public_info. rewrite Hg, Hlegal.
  match goal with |- context [Ok ?i = Ok _] => exists i end.
  unfold RandomBot.choose_action. cbn [Info.legal_actions].
  destruct (rng_choice_In g (map (fun c => ("play", Some c)) plays ++ [("draw", None)]))
    as ([action card] & g1 & -> & Hin).
  { intros E. apply app_eq_nil in E as [_ E]. discriminate E. }
  match goal with
  | |- context [with_chosen_color _ _ ?info _ _] =>
      destruct (picked_action_accepted g1 s hand plays action card Hgo Hn Huno Hg Hwild
                  Hlegal Hplays Hin info) as (ch & g' & s' & -> & Ha)
  end.
  exists action, card, ch, g', s'. auto.
Qed.

End BotProperties.

End Properties.

(** ** The statements at concrete games *)

Lemma keep_order_perm (l : list Card) : keep_order l ≡ₚ l.
Proof. reflexivity. Qed.

(** C2: a plain WILD is listed on a DRAW_TWO chain.  After player 0 has opened
    a chain with a red DRAW_TWO, two cards are to be drawn and no colour is
    pending; [get_legal_actions] lists player 1's plain WILD as a PLAY,
    although it is not a DRAW_TWO and so does not continue the chain.
    [_can_play_card] returns on "Wild cards can always be played" before it
    reaches its "Special draw pile rules", which read "In a draw pile, you can
    only play matching draw cards", as does the comment of
    [get_legal_actions], "Can only play matching draw cards or draw the
    pile". *)
Lemma wild_is_listed_on_draw_two_chain :
  current_player Stacking.chain_open = 1
  /\ draw_pile_count Stacking.chain_open = 2
  /\ get_top_card Stacking.chain_open = Some Stacking.red_draw2
  /\ getitem (player_hands Stacking.chain_open) 1 = Ok [Stacking.wild; Stacking.blue3]
  /\ get_legal_actions Stacking.chain_open 1
     = Ok [("play", Some Stacking.wild); ("draw", None)]
  /\ ~ spec_legal_play Stacking.chain_open Stacking.red_draw2 Stacking.wild.
Proof.
  repeat split; try (vm_compute; reflexivity).
  intros [(H & _) | (_ & H)]; vm_compute in H; discriminate.
Qed.

Lemma end_turn_after_draw_unconditional_witness :
  0 = current_player (set_game_over true Scenario.start)
  /\ num_players (set_game_over true Scenario.start) <> 0
  /\ can_play_drawn_card (set_game_over true Scenario.start) = false
  /\ end_turn_after_draw 0 (set_game_over true Scenario.start)
     = (Ok true,
        advanced (set_can_play_drawn_card false
                    (set_last_drawn_card None (set_game_over true Scenario.start)))).
Proof.
  split; [reflexivity|]. split; [discriminate|]. split; [reflexivity|].
  apply end_turn_after_draw_unconditional; [reflexivity|discriminate].
Defined.

Lemma rule_violations_are_atomic_witness :
  (1 <> current_player Scenario.start
   /\ apply_action keep_order 1 "play" (Some Scenario.blue3) None Scenario.start
      = (Ok false, Scenario.start)
   /\ draw_with_option keep_order 1 Scenario.start = (Ok (None, Some false), Scenario.start)
   /\ play_drawn_card 1 None Scenario.start = (Ok false, Scenario.start)
   /\ end_turn_after_draw 1 Scenario.start = (Ok false, Scenario.start))
  /\ (type Scenario.wild = CardType.WILD
      /\ apply_action keep_order 0 "play" (Some Scenario.wild) None Scenario.start
         = (Ok false, Scenario.start)
      /\ play_drawn_card 0 (Some Color.WILD)
           (set_can_play_drawn_card true
              (set_last_drawn_card (Some Scenario.wild) Scenario.start))
         = (Ok false,
            set_can_play_drawn_card true
              (set_last_drawn_card (Some Scenario.wild) Scenario.start)))
  /\ apply_action keep_order 0 "play" (Some Scenario.blue3) None Scenario.start
     = (Ok false, Scenario.start).
Proof.
  split; [|split].
  - split; [discriminate|].
    apply (rule_violations_are_atomic keep_order Scenario.start 1 "play"
             (Some Scenario.blue3) None Scenario.wild [Scenario.red5; Scenario.wild]).
    discriminate.
  - split; [reflexivity|]. split.
    + destruct (rule_violations_are_atomic keep_order Scenario.start 0 "play"
                  None None Scenario.wild [Scenario.red5; Scenario.wild])
        as (_ & H & _).
      destruct (H (or_introl eq_refl) (or_introl eq_refl)) as [HA _].
      apply HA. reflexivity.
    + destruct (rule_violations_are_atomic keep_order
                  (set_can_play_drawn_card true
                     (set_last_drawn_card (Some Scenario.wild) Scenario.start))
                  0 "play" None (Some Color.WILD) Scenario.wild
                  [Scenario.red5; Scenario.wild])
        as (_ & H & _).
      destruct (H (or_introl eq_refl) (or_intror eq_refl)) as [_ HB].
      apply HB. reflexivity.
  - destruct (rule_violations_are_atomic keep_order Scenario.start 0 "play"
                None None Scenario.blue3 [Scenario.red5; Scenario.wild])
      as (_ & _ & H).
    apply H; [reflexivity|].
    intros legal_actions c' Hl Hin. vm_compute in Hl. injection Hl as <-.
    destruct Hin as [[= <-] | [[= <-] | [[=] | []]]]; discriminate.
Defined.

Lemma draw_with_option_play_after_draw_witness :
  draw_pile_count AfterWin.start = 0
  /\ deck AfterWin.start <> []
  /\ getitem (player_hands AfterWin.start) (current_player AfterWin.start)
     = Ok [AfterWin.red5]
  /\ num_players AfterWin.start <> 0
  /\ exists s',
       draw_with_option keep_order 0 AfterWin.start
       = (Ok (Some AfterWin.red9, Some (playable AfterWin.start AfterWin.red9)), s').
Proof.
  assert (H1 : draw_pile_count AfterWin.start = 0) by reflexivity.
  assert (H2 : deck AfterWin.start <> []) by discriminate.
  assert (H3 : getitem (player_hands AfterWin.start) (current_player AfterWin.start)
               = Ok [AfterWin.red5]) by reflexivity.
  assert (H4 : num_players AfterWin.start <> 0) by discriminate.
  repeat (split; [assumption|]).
  destruct (draw_with_option_play_after_draw keep_order AfterWin.start [AfterWin.red5]
              H1 H2 H3 H4) as (card & s' & Hlast & Hdraw & _).
  injection Hlast as <-. exists s'. exact Hdraw.
Defined.

Lemma draw_chain_accumulates_and_is_drawn_at_once_witness :
  draw_pile_count Chain.second = draw_pile_count Chain.start + 4
  /\ 0 < draw_pile_count Chain.second
  /\ (Z.to_nat (draw_pile_count Chain.second) <= available Chain.second)%nat
  /\ exists s' hand',
       draw_with_option keep_order 2 Chain.second = (Ok (None, Some false), s')
       /\ getitem (player_hands s') 2 = Ok hand'
       /\ length hand' = 5%nat
       /\ draw_pile_count s' = 0.
Proof.
  split; [|split; [reflexivity|split; [vm_compute; lia|]]].
  - apply (draw_chain_accumulates_and_is_drawn_at_once keep_order keep_order_perm
             Chain.start) with (p1 := 0) (card1 := Chain.red_draw2_a) (chosen1 := None)
             (s1 := Chain.first) (p2 := 1) (card2 := Chain.red_draw2_b) (chosen2 := None);
      reflexivity.
  - destruct (draw_chain_accumulates_and_is_drawn_at_once keep_order keep_order_perm
                Chain.second) as (_ & _ & _ & H).
    destruct (H [Chain.green1]) as (s' & hand' & Hd & Hg & Hl & Hc & _);
      [reflexivity|vm_compute; lia|reflexivity|discriminate|].
    exists s', hand'. auto.
Defined.

Lemma cards_are_conserved_witness :
  well_formed Scenario.start
  /\ all_cards (snd (apply_action keep_order 0 "play" (Some Scenario.wild)
                       (Some Color.BLUE) Scenario.start))
     ≡ₚ all_cards Scenario.start
  /\ all_cards (snd (draw_with_option keep_order 0 Scenario.start))
     ≡ₚ all_cards Scenario.start.
Proof.
  assert (Hwf : well_formed Scenario.start) by (unfold well_formed; cbn; lia).
  split; [exact Hwf|].
  destruct (cards_are_conserved keep_order keep_order_perm Scenario.start Hwf)
    as (Ha & Hd & _).
  split.
  - eapply Ha. apply surjective_pairing.
  - eapply Hd. apply surjective_pairing.
Defined.

Lemma initialize_game_deal_witness :
  2 <= 3 <= 4
  /\ (108 <= 108)%nat
  /\ exists s top_card,
       initialize_game keep_order 108 (init_state 3) = Some (Ok tt, s)
       /\ Z.of_nat (length (concat (player_hands s))) = 21
       /\ discard_pile s = [top_card]
       /\ Z.of_nat (length (deck s)) = 86.
Proof.
  assert (H1 : 2 <= 3 <= 4) by lia.
  assert (H2 : (108 <= 108)%nat) by lia.
  split; [exact H1|]. split; [exact H2|].
  destruct (initialize_game_deal keep_order keep_order_perm 3 108 H1 H2)
    as (s & top_card & _ & Hi & Hh & _ & _ & Hd & _ & _ & _ & _ & Hk & _).
  exists s, top_card. auto.
Defined.

Lemma legal_plays_characterised_witness :
  getitem (player_hands Stacking.chain_open) 1 = Ok [Stacking.wild; Stacking.blue3]
  /\ last (discard_pile Stacking.chain_open) = Some Stacking.red_draw2
  /\ pending_color Stacking.chain_open = None
  /\ In Stacking.wild [Stacking.wild; Stacking.blue3]
  /\ exists legal_actions,
       get_legal_actions Stacking.chain_open 1 = Ok legal_actions
       /\ In ("play", Some Stacking.wild) legal_actions.
Proof.
  assert (H1 : getitem (player_hands Stacking.chain_open) 1
               = Ok [Stacking.wild; Stacking.blue3]) by reflexivity.
  assert (H2 : last (discard_pile Stacking.chain_open) = Some Stacking.red_draw2)
    by reflexivity.
  assert (H3 : pending_color Stacking.chain_open = None) by reflexivity.
  assert (H4 : In Stacking.wild [Stacking.wild; Stacking.blue3]) by (left; reflexivity).
  repeat (split; [assumption|]).
  destruct (legal_plays_characterised Stacking.chain_open 1
              [Stacking.wild; Stacking.blue3] Stacking.red_draw2 Stacking.wild H1 H2)
    as (legal_actions & top_card & Hl & _ & _ & Hchain & _); [|exact H4|].
  - intros pc Hpc. rewrite H3 in Hpc. discriminate Hpc.
  - exists legal_actions. split; [exact Hl|].
    apply Hchain; [reflexivity|exact H3|left; reflexivity].
Defined.

(** ** Further statements at concrete games *)

Lemma matches_symmetric_witness :
  color Scenario.wild = Color.WILD
  /\ matches Scenario.wild Scenario.red2 = true.
Proof.
  split; [reflexivity|].
  apply (matches_symmetric Scenario.wild Scenario.red2). reflexivity.
Defined.

Lemma str_tells_deck_cards_apart_witness :
  In (mkCard 5 Color.RED "3" CardType.NUMBER) (create_deck 0)
  /\ In (mkCard 206 Color.RED "3" CardType.NUMBER) (create_deck 200)
  /\ face (mkCard 5 Color.RED "3" CardType.NUMBER)
     = face (mkCard 206 Color.RED "3" CardType.NUMBER).
Proof.
  assert (H1 : In (mkCard 5 Color.RED "3" CardType.NUMBER) (create_deck 0))
    by (vm_compute; tauto).
  assert (H2 : In (mkCard 206 Color.RED "3" CardType.NUMBER) (create_deck 200))
    by (vm_compute; tauto).
  split; [exact H1|]. split; [exact H2|].
  apply (str_tells_deck_cards_apart 0 200 _ _ H1 H2). reflexivity.
Defined.

Lemma scenario_red5_accepted :
  apply_action keep_order 0 "play" (Some Scenario.red5) None Scenario.start
  = (Ok true, Played.red5).
Proof. vm_compute. reflexivity. Qed.

Lemma accepted_play_moves_the_card_witness :
  apply_action keep_order 0 "play" (Some Scenario.red5) None Scenario.start
  = (Ok true, Played.red5)
  /\ discard_pile Played.red5 = discard_pile Scenario.start ++ [Scenario.red5]
  /\ deck Played.red5 = deck Scenario.start.
Proof.
  split; [exact scenario_red5_accepted|].
  destruct (accepted_play_moves_the_card keep_order 0 Scenario.red5 None Scenario.start
              Played.red5 (or_introl scenario_red5_accepted))
    as (k & before & after & _ & _ & _ & _ & _ & Hd & Hk).
  split; [exact Hd|exact Hk].
Defined.

Lemma accepted_play_wins_or_passes_witness :
  apply_action keep_order 0 "play" (Some AfterWin.red5) None AfterWin.start
  = (Ok true, Played.last_card)
  /\ exists hand',
       getitem (player_hands Played.last_card) 0 = Ok hand'
       /\ ((hand' = [] /\ game_over Played.last_card = true
            /\ winner Played.last_card = Some 0)
           \/ (hand' <> [] /\ turn_count Played.last_card = turn_count AfterWin.start + 1)).
Proof.
  assert (H : apply_action keep_order 0 "play" (Some AfterWin.red5) None AfterWin.start
              = (Ok true, Played.last_card)) by (vm_compute; reflexivity).
  split; [exact H|].
  destruct (accepted_play_wins_or_passes keep_order 0 AfterWin.red5 None AfterWin.start
              Played.last_card (or_introl H))
    as (hand' & Hg & [(He & Hgo & Hw & _) | (Hne & _ & _ & Ht & _)] & _);
    exists hand'; (split; [exact Hg|]); [left|right]; auto.
Defined.

Lemma accepted_play_turn_order_witness :
  apply_action keep_order 0 "play" (Some Scenario.red5) None Scenario.start
  = (Ok true, Played.red5)
  /\ getitem (player_hands Played.red5) 0 = Ok [Scenario.wild]
  /\ [Scenario.wild] <> []
  /\ direction Played.red5 = 1
  /\ current_player Played.red5 = 1.
Proof.
  assert (Hg : getitem (player_hands Played.red5) 0 = Ok [Scenario.wild]) by (vm_compute; reflexivity).
  assert (Hne : [Scenario.wild] <> []) by discriminate.
  split; [exact scenario_red5_accepted|]. split; [exact Hg|]. split; [exact Hne|].
  destruct (accepted_play_turn_order keep_order 0 Scenario.red5 None Scenario.start
              Played.red5 [Scenario.wild] (or_introl scenario_red5_accepted) Hg Hne)
    as (Hd & Hc).
  split; [exact Hd|]. rewrite Hc, Hd. reflexivity.
Defined.

Lemma two_player_skip_and_reverse_witness :
  apply_action keep_order 0 "play" (Some Duel.red_skip) None Duel.start
  = (Ok true, Duel.skipped)
  /\ getitem (player_hands Duel.skipped) 0 = Ok [Duel.red_reverse; Duel.red5]
  /\ num_players Duel.start = 2
  /\ type Duel.red_skip = CardType.SKIP
  /\ current_player Duel.skipped = current_player Duel.start.
Proof.
  assert (H : apply_action keep_order 0 "play" (Some Duel.red_skip) None Duel.start
              = (Ok true, Duel.skipped)) by (vm_compute; reflexivity).
  assert (Hg : getitem (player_hands Duel.skipped) 0 = Ok [Duel.red_reverse; Duel.red5])
    by (vm_compute; reflexivity).
  assert (Hn : num_players Duel.start = 2) by (vm_compute; reflexivity).
  assert (Ht : type Duel.red_skip = CardType.SKIP) by (vm_compute; reflexivity).
  repeat (split; [assumption|]).
  apply (two_player_skip_and_reverse keep_order 0 Duel.red_skip None Duel.start
           Duel.skipped [Duel.red_reverse; Duel.red5] (or_introl H) Hg).
  - discriminate.
  - exact Hn.
  - cbn. lia.
  - left. exact Ht.
Defined.

Lemma scenario_wild_accepted :
  apply_action keep_order 0 "play" (Some Scenario.wild) (Some Color.BLUE) Scenario.start
  = (Ok true,
     snd (apply_action keep_order 0 "play" (Some Scenario.wild) (Some Color.BLUE)
            Scenario.start)).
Proof. vm_compute. reflexivity. Qed.

Lemma pending_color_does_not_outlive_the_play_witness :
  apply_action keep_order 0 "play" (Some Scenario.wild) (Some Color.BLUE) Scenario.start
  = (Ok true,
     snd (apply_action keep_order 0 "play" (Some Scenario.wild) (Some Color.BLUE)
            Scenario.start))
  /\ pending_color Scenario.start <> Some Color.WILD
  /\ pending_color
       (snd (apply_action keep_order 0 "play" (Some Scenario.wild) (Some Color.BLUE)
               Scenario.start)) = None.
Proof.
  assert (Hp : pending_color Scenario.start <> Some Color.WILD) by discriminate.
  split; [exact scenario_wild_accepted|]. split; [exact Hp|].
  apply (pending_color_does_not_outlive_the_play keep_order 0 Scenario.wild
           (Some Color.BLUE) Scenario.start _ [Scenario.red5]
           (or_introl scenario_wild_accepted)).
  - reflexivity.
  - discriminate.
  - exact Hp.
Defined.

Lemma listed_play_is_accepted_witness :
  game_over Scenario.start = false
  /\ get_legal_actions Scenario.start (current_player Scenario.start)
     = Ok [("play", Some Scenario.red5); ("play", Some Scenario.wild); ("draw", None)]
  /\ exists s',
       apply_action keep_order (current_player Scenario.start) "play" (Some Scenario.wild)
         (Some Color.BLUE) Scenario.start = (Ok true, s').
Proof.
  assert (Hgo : game_over Scenario.start = false) by (vm_compute; reflexivity).
  assert (Hl : get_legal_actions Scenario.start (current_player Scenario.start)
               = Ok [("play", Some Scenario.red5); ("play", Some Scenario.wild);
                     ("draw", None)]) by (vm_compute; reflexivity).
  split; [exact Hgo|]. split; [exact Hl|].
  apply (listed_play_is_accepted keep_order Scenario.start
           [("play", Some Scenario.red5); ("play", Some Scenario.wild); ("draw", None)]
           Scenario.wild (Some Color.BLUE) Hgo).
  - discriminate.
  - reflexivity.
  - exact Hl.
  - right. left. reflexivity.
  - intros _. exists Color.BLUE. split; [reflexivity|]. right. left. reflexivity.
Defined.

Lemma draw_then_play_drawn_card_witness :
  draw_pile_count AfterWin.start = 0
  /\ deck AfterWin.start = [AfterWin.yellow1] ++ [AfterWin.red9]
  /\ playable AfterWin.start AfterWin.red9 = true
  /\ exists s1 s2,
       draw_with_option keep_order 0 AfterWin.start
       = (Ok (Some AfterWin.red9, Some true), s1)
       /\ play_drawn_card 0 None s1 = (Ok true, s2)
       /\ getitem (player_hands s2) 0 = Ok [AfterWin.red5]
       /\ discard_pile s2 = [AfterWin.red2; AfterWin.red9].
Proof.
  assert (H1 : draw_pile_count AfterWin.start = 0) by (vm_compute; reflexivity).
  assert (H2 : deck AfterWin.start = [AfterWin.yellow1] ++ [AfterWin.red9])
    by (vm_compute; reflexivity).
  assert (H3 : playable AfterWin.start AfterWin.red9 = true) by (vm_compute; reflexivity).
  repeat (split; [assumption|]).
  destruct (draw_then_play_drawn_card keep_order AfterWin.start [AfterWin.yellow1]
              AfterWin.red9 [AfterWin.red5] None H1 H2)
    as (s1 & s2 & Hd & Hp & Hg & Hdp & _).
  - reflexivity.
  - intros [E|[]]. discriminate E.
  - exact H3.
  - intros [E|E]; discriminate E.
  - discriminate.
  - reflexivity.
  - exists s1, s2. auto.
Defined.

Lemma draw_card_cases_witness :
  deck AfterWin.start = [AfterWin.yellow1] ++ [AfterWin.red9]
  /\ getitem (player_hands AfterWin.start) 1 = Ok [AfterWin.blue3; AfterWin.green7]
  /\ exists s',
       draw_card keep_order 1 AfterWin.start = (Ok (Some AfterWin.red9), s')
       /\ getitem (player_hands s') 1
          = Ok ([AfterWin.blue3; AfterWin.green7] ++ [AfterWin.red9])
       /\ deck s' = [AfterWin.yellow1].
Proof.
  assert (H1 : deck AfterWin.start = [AfterWin.yellow1] ++ [AfterWin.red9])
    by (vm_compute; reflexivity).
  assert (H2 : getitem (player_hands AfterWin.start) 1
               = Ok [AfterWin.blue3; AfterWin.green7]) by (vm_compute; reflexivity).
  split; [exact H1|]. split; [exact H2|].
  destruct (draw_card_cases keep_order keep_order_perm AfterWin.start 1) as (H & _).
  destruct (H _ _ _ H1 H2) as (s' & Hd & Hg & Hk & _).
  exists s'. auto.
Defined.

Lemma chain_draw_is_capped_by_the_piles_witness :
  0 < draw_pile_count Short.start
  /\ draw_pile_count Short.start = 4
  /\ available Short.start = 3%nat
  /\ getitem (player_hands Short.start) (current_player Short.start) = Ok [Chain.green1]
  /\ exists s' cards,
       draw_with_option keep_order (current_player Short.start) Short.start
       = (Ok (None, Some false), s')
       /\ length cards = 3%nat
       /\ getitem (player_hands s') (current_player Short.start)
          = Ok ([Chain.green1] ++ cards)
       /\ draw_pile_count s' = 0.
Proof.
  assert (H1 : 0 < draw_pile_count Short.start) by (vm_compute; reflexivity).
  assert (H2 : draw_pile_count Short.start = 4) by (vm_compute; reflexivity).
  assert (H3 : available Short.start = 3%nat) by (vm_compute; reflexivity).
  assert (H4 : getitem (player_hands Short.start) (current_player Short.start)
               = Ok [Chain.green1]) by (vm_compute; reflexivity).
  repeat (split; [assumption|]).
  destruct (chain_draw_is_capped_by_the_piles keep_order keep_order_perm Short.start
              [Chain.green1] H1 H4)
    as (s' & cards & Hd & Hg & Hl & Hc & _).
  - discriminate.
  - exists s', cards. rewrite H2, H3 in Hl. auto.
Defined.

Lemma draw_with_nothing_left_witness :
  draw_pile_count Scenario.start <= 0
  /\ deck Scenario.start = []
  /\ (length (discard_pile Scenario.start) <= 1)%nat
  /\ draw_with_option keep_order (current_player Scenario.start) Scenario.start
     = (Ok (None, None),
        set_can_play_drawn_card false (set_last_drawn_card None (advanced Scenario.start))).
Proof.
  assert (H1 : draw_pile_count Scenario.start <= 0) by (vm_compute; discriminate).
  assert (H2 : deck Scenario.start = []) by (vm_compute; reflexivity).
  assert (H3 : (length (discard_pile Scenario.start) <= 1)%nat) by (cbn; lia).
  repeat (split; [assumption|]).
  apply (draw_with_nothing_left keep_order Scenario.start H1 H2 H3). discriminate.
Defined.

Lemma apply_action_draw_ends_the_turn_witness :
  game_over AfterWin.start = false
  /\ getitem (player_hands AfterWin.start) (current_player AfterWin.start)
     = Ok [AfterWin.red5]
  /\ exists s',
       apply_action keep_order (current_player AfterWin.start) "draw" None None
         AfterWin.start = (Ok true, s')
       /\ turn_count s' = turn_count AfterWin.start + 1
       /\ can_play_drawn_card s' = false.
Proof.
  assert (H1 : game_over AfterWin.start = false) by (vm_compute; reflexivity).
  assert (H2 : getitem (player_hands AfterWin.start) (current_player AfterWin.start)
               = Ok [AfterWin.red5]) by (vm_compute; reflexivity).
  split; [exact H1|]. split; [exact H2|].
  destruct (apply_action_draw_ends_the_turn keep_order keep_order_perm AfterWin.start
              [AfterWin.red5] None None H1 H2)
    as (s' & Ha & Ht & _ & _ & _ & _ & Hz).
  - discriminate.
  - exists s'. split; [exact Ha|]. split; [exact Ht|]. apply Hz. cbn. lia.
Defined.

Lemma unknown_requests_change_nothing_witness :
  "pass" <> "draw"
  /\ apply_action keep_order 0 "pass" (Some Scenario.red5) None Scenario.start
     = (Ok false, Scenario.start)
  /\ last_drawn_card Scenario.start = None
  /\ play_drawn_card 0 None Scenario.start = (Ok false, Scenario.start).
Proof.
  assert (H1 : "pass" <> "draw") by discriminate.
  assert (H2 : last_drawn_card Scenario.start = None) by (vm_compute; reflexivity).
  destruct (unknown_requests_change_nothing keep_order Scenario.start 0 None)
    as (Ha & Hp).
  split; [exact H1|]. split; [|split; [exact H2|]].
  - apply Ha; [exact H1|]. left. discriminate.
  - apply Hp. left. exact H2.
Defined.

Lemma flags_are_never_cleared_witness :
  players_uno Played.red5 !! 0%nat = Some true
  /\ flags_held Played.red5
       (snd (draw_with_option keep_order (current_player Played.red5) Played.red5))
  /\ players_uno
       (snd (draw_with_option keep_order (current_player Played.red5) Played.red5))
     !! 0%nat = Some true.
Proof.
  assert (H1 : players_uno Played.red5 !! 0%nat = Some true) by (vm_compute; reflexivity).
  destruct (flags_are_never_cleared keep_order Played.red5) as (_ & Hd & _).
  assert (H2 : flags_held Played.red5
                 (snd (draw_with_option keep_order (current_player Played.red5)
                         Played.red5))).
  { eapply Hd. apply surjective_pairing. }
  split; [exact H1|]. split; [exact H2|].
  destruct H2 as (_ & _ & H). apply H. exact H1.
Defined.

Lemma initialize_game_on_a_used_state_witness :
  2 <= num_players Played.last_card <= 4
  /\ (108 <= 108)%nat
  /\ game_over Played.last_card = true
  /\ exists s' top_card,
       initialize_game keep_order 108 Played.last_card = Some (Ok tt, s')
       /\ discard_pile s' = discard_pile Played.last_card ++ [top_card]
       /\ game_over s' = true.
Proof.
  assert (H1 : 2 <= num_players Played.last_card <= 4)
    by (vm_compute; split; discriminate).
  assert (H2 : (108 <= 108)%nat) by lia.
  assert (H3 : game_over Played.last_card = true) by (vm_compute; reflexivity).
  repeat (split; [assumption|]).
  destruct (initialize_game_on_a_used_state keep_order keep_order_perm Played.last_card
              108 H1 H2)
    as (s' & top_card & Hi & Hd & _ & _ & _ & _ & Hgo & _).
  exists s', top_card. split; [exact Hi|]. split; [exact Hd|]. now rewrite Hgo.
Defined.

Lemma most_common_color_is_most_common_witness :
  (forall card, In card [Scenario.wild] -> color card = Color.WILD)
  /\ most_common_color [Scenario.wild] = Color.RED
  /\ Color.BLUE <> Color.WILD
  /\ count_color Color.BLUE [Scenario.blue3; Scenario.red_skip; Scenario.red5]
     <= count_color
          (most_common_color [Scenario.blue3; Scenario.red_skip; Scenario.red5])
          [Scenario.blue3; Scenario.red_skip; Scenario.red5].
Proof.
  assert (H1 : forall card, In card [Scenario.wild] -> color card = Color.WILD)
    by (intros card [<-|[]]; reflexivity).
  assert (H2 : Color.BLUE <> Color.WILD) by discriminate.
  split; [exact H1|]. split; [|split; [exact H2|]].
  - destruct (most_common_color_is_most_common [Scenario.wild]) as (_ & _ & H).
    apply H, H1.
  - destruct (most_common_color_is_most_common
                [Scenario.blue3; Scenario.red_skip; Scenario.red5]) as (_ & H & _).
    apply H, H2.
Defined.

Lemma scenario_bot_ready : bot_ready Scenario.start.
Proof.
  split; [unfold well_formed; cbn; lia|]. split; [reflexivity|]. split; [reflexivity|].
  intros card Hin. cbn in Hin.
  repeat (destruct Hin as [<-|Hin]; [reflexivity|]). destruct Hin.
Qed.

Lemma simple_bot_turn_ends_the_turn_witness :
  game_over Scenario.start = false
  /\ bot_ready Scenario.start
  /\ exists hand s',
       getitem (player_hands Scenario.start) (current_player Scenario.start) = Ok hand
       /\ simple_bot_turn keep_order (current_player Scenario.start) Scenario.start
          = (Ok true, s')
       /\ (game_over s' = true \/ turn_count s' = turn_count Scenario.start + 1)
       /\ bot_ready s'.
Proof.
  assert (H1 : game_over Scenario.start = false) by (vm_compute; reflexivity).
  split; [exact H1|]. split; [exact scenario_bot_ready|].
  destruct (simple_bot_turn_ends_the_turn keep_order keep_order_perm Scenario.start H1
              scenario_bot_ready) as (hand & s' & Hg & Hrun & Hprog & Hready & _).
  exists hand, s'. auto.
Defined.

Lemma bots_alone_play_the_game_witness :
  2 <= 3 <= 4
  /\ (108 <= 108)%nat
  /\ ~ (0 <= -1 < 3)
  /\ exists s',
       run_example_game keep_order idle_human 108 5 3 (-1) = Some (Ok (game_over s', s'))
       /\ (game_over s' = true \/ turn_count s' = 5)
       /\ well_formed s'.
Proof.
  assert (H1 : 2 <= 3 <= 4) by lia.
  assert (H2 : (108 <= 108)%nat) by lia.
  assert (H3 : ~ (0 <= -1 < 3)) by lia.
  repeat (split; [assumption|]).
  destruct (bots_alone_play_the_game keep_order keep_order_perm idle_human 3 (-1) 108 5
              H1 H2 H3) as (s' & Hr & Ht & Hw & _).
  exists s'. auto.
Defined.

Lemma first_choice_lt (g : unit) (n : nat) :
  (0 < n)%nat -> (fst (first_choice g n) < n)%nat.
Proof. intros H. exact H. Qed.

Lemma rule_based_bot_choice_is_accepted_witness :
  game_over Scenario.start = false
  /\ well_formed Scenario.start
  /\ getitem (player_hands Scenario.start) (current_player Scenario.start)
     = Ok [Scenario.red5; Scenario.wild]
  /\ exists public_info action card chosen_color g' s',
       get_public_info Scenario.start (current_player Scenario.start) = Ok public_info
       /\ RuleBasedBot.choose_action first_choice tt public_info
          = Returns ((action, card, chosen_color), g')
       /\ apply_action keep_order (current_player Scenario.start) action card chosen_color
            Scenario.start = (Ok true, s').
Proof.
  assert (H1 : game_over Scenario.start = false) by (vm_compute; reflexivity).
  assert (H2 : well_formed Scenario.start) by (unfold well_formed; cbn; lia).
  assert (H3 : getitem (player_hands Scenario.start) (current_player Scenario.start)
               = Ok [Scenario.red5; Scenario.wild]) by (vm_compute; reflexivity).
  repeat (split; [assumption|]).
  destruct (rule_based_bot_choice_is_accepted keep_order keep_order_perm unit first_choice
              first_choice_lt tt Scenario.start [Scenario.red5; Scenario.wild] H1 H2)
    as (info & action & card & ch & g' & s' & Hi & Hc & _ & _ & Ha).
  - reflexivity.
  - exact H3.
  - intros c [<-|[<-|[]]]; reflexivity.
  - exists info, action, card, ch, g', s'. auto.
Defined.

Lemma random_bot_choice_is_accepted_witness :
  game_over Scenario.start = false
  /\ num_players Scenario.start <> 0
  /\ getitem (player_hands Scenario.start) (current_player Scenario.start)
     = Ok [Scenario.red5; Scenario.wild]
  /\ exists public_info action card chosen_color g' s',
       get_public_info Scenario.start (current_player Scenario.start) = Ok public_info
       /\ RandomBot.choose_action first_choice tt public_info
          = Returns ((action, card, chosen_color), g')
       /\ apply_action keep_order (current_player Scenario.start) action card chosen_color
            Scenario.start = (Ok true, s').
Proof.
  assert (H1 : game_over Scenario.start = false) by (vm_compute; reflexivity).
  assert (H2 : num_players Scenario.start <> 0) by discriminate.
  assert (H3 : getitem (player_hands Scenario.start) (current_player Scenario.start)
               = Ok [Scenario.red5; Scenario.wild]) by (vm_compute; reflexivity).
  repeat (split; [assumption|]).
  destruct (random_bot_choice_is_accepted keep_order keep_order_perm unit first_choice
              first_choice_lt tt Scenario.start [Scenario.red5; Scenario.wild] H1 H2)
    as (info & action & card & ch & g' & s' & Hi & Hc & _ & Ha).
  - reflexivity.
  - exact H3.
  - intros c [<-|[<-|[]]]; reflexivity.
  - exists info, action, card, ch, g', s'. auto.
Defined.
